(** * Ring / Ringa: dispatch handle, pipeline, executor factory, argument resolver

  A shallow embedding of

    - [CommandFactory]                 (executor factory),
    - [RingaEvent]                     (dispatch handle),
    - [Thread]                         (sequential pipeline),
    - [buildArgumentsFromRingaEvent]   (argument resolver),

  together with the properties the specification states about them and
  further properties of the same code.

  JavaScript objects live in a store and are handled by reference; a method
  is a computation over the store that either returns or throws, and what it
  changed before throwing stays changed.  Calls that leave the modelled code
  (listeners, the pipeline's completion callbacks, an executor's [_execute]
  and [destroy], the console, the inspector) are recorded, in order, in the
  store's [out] list.  Where the code goes on with what such a call answers
  (an executor's [_execute], a function found in the place of
  [hasOwnProperty]), the answer is a parameter of the model. *)

From Stdlib Require Import ZArith Bool Lia.
From stdpp Require Import base option list strings pretty gmap fin_maps.

Set Default Proof Using "Type".
Open Scope string_scope.
Open Scope list_scope.

(** ** JavaScript values *)

Module Js.

Definition loc := nat.

Inductive ErrorKind := PlainError | TypeError | ReferenceError.

(** Objects, arrays and functions are references into the store.  An Error
    object is carried with its kind and message. *)
Inductive Value :=
| VUndefined
| VNull
| VBool (b : bool)
| VNum (z : Z)
| VNaN
| VStr (s : string)
| VRef (l : loc)
| VError (k : ErrorKind) (msg : string).

#[global] Instance ErrorKind_eq_dec : EqDecision ErrorKind.
Proof. solve_decision. Defined.

#[global] Instance Value_eq_dec : EqDecision Value.
Proof. solve_decision. Defined.

(** ToBoolean *)
Definition truthy (v : Value) : bool :=
  match v with
  | VUndefined | VNull | VNaN => false
  | VBool b => b
  | VNum z => negb (z =? 0)%Z
  | VStr s => negb (String.eqb s "")
  | VRef _ | VError _ _ => true
  end.

(** [a === b] *)
Definition strict_eq (a b : Value) : bool :=
  match a, b with
  | VNaN, _ | _, VNaN => false
  | _, _ => bool_decide (a = b)
  end.

(** [xs.indexOf(x)]: [None] stands for -1. *)
Fixpoint indexOf (xs : list Value) (x : Value) : option nat :=
  match xs with
  | [] => None
  | y :: ys => if strict_eq y x then Some 0 else S <$> indexOf ys x
  end.

(** [xs.splice(ix, 1)] for an index that was found; [splice_last] is
    [xs.splice(-1, 1)], which counts from the end. *)
Definition splice1 (ix : nat) (xs : list Value) : list Value * list Value :=
  (take 1 (drop ix xs), take ix xs ++ drop (S ix) xs).

Definition splice_last (xs : list Value) : list Value * list Value :=
  splice1 (length xs - 1) xs.

(** [arr[0]] of a spliced-out array *)
Definition first (xs : list Value) : Value := default VUndefined (head xs).

Inductive Obj :=
| OBag (b : gmap string Value)   (* a plain object: value bag, injection table *)
| OArr (xs : list Value).        (* an array *)

(** Names every plain object inherits from [Object.prototype]. *)
Definition object_prototype_key (k : string) : bool :=
  bool_decide (k ∈ ["constructor"; "__proto__"; "hasOwnProperty"; "isPrototypeOf";
                    "propertyIsEnumerable"; "toLocaleString"; "toString"; "valueOf";
                    "__defineGetter__"; "__defineSetter__";
                    "__lookupGetter__"; "__lookupSetter__"]).

End Js.
Export Js.

(** ** Executees and executors

    The factory looks at an executee through [typeof], through the [then]
    member, through [prototype instanceof CommandAbstract], [instanceof Array]
    and [instanceof RingEventFactory]; the shapes below carry what those tests
    see and what string conversion prints. *)

Record Callable := mkCallable {
  fn_source : string;            (* what [String(f)] prints *)
  fn_then : bool;                (* typeof f.then === 'function' *)
  fn_command : bool;             (* f.prototype instanceof CommandAbstract *)
  fn_execute_args : list string  (* parameters declared by the instance's [execute] *)
}.

Record ObjectShape := mkObjectShape {
  obj_string : string;           (* what [String(o)] prints *)
  obj_then : bool;               (* typeof o.then === 'function' *)
  obj_array : bool;              (* o instanceof Array *)
  obj_event_factory : bool       (* o instanceof RingEventFactory *)
}.

Inductive Executee :=
| EUndefined
| ENull
| EBoolean (b : bool)
| ENumber (z : Z)
| EString (s : string)
| EFunction (f : Callable)
| EObject (o : ObjectShape).

#[global] Instance Callable_eq_dec : EqDecision Callable.
Proof. solve_decision. Defined.

#[global] Instance ObjectShape_eq_dec : EqDecision ObjectShape.
Proof. solve_decision. Defined.

#[global] Instance Executee_eq_dec : EqDecision Executee.
Proof. solve_decision. Defined.

(** [typeof x] *)
Definition typeof (x : Executee) : string :=
  match x with
  | EUndefined => "undefined"
  | ENull | EObject _ => "object"
  | EBoolean _ => "boolean"
  | ENumber _ => "number"
  | EString _ => "string"
  | EFunction _ => "function"
  end.

(** ['' + x] *)
Definition to_string (x : Executee) : string :=
  match x with
  | EUndefined => "undefined"
  | ENull => "null"
  | EBoolean b => if b then "true" else "false"
  | ENumber z => pretty z
  | EString s => s
  | EFunction f => fn_source f
  | EObject o => obj_string o
  end.

(** [typeof x.then === 'function'].  Reading a member of [undefined] or
    [null] throws; booleans, numbers and strings have no [then]. *)
Definition then_is_function (x : Executee) : option bool :=
  match x with
  | EUndefined | ENull => None
  | EBoolean _ | ENumber _ | EString _ => Some false
  | EFunction f => Some (fn_then f)
  | EObject o => Some (obj_then o)
  end.

(** Modelled from the spec: util/function.js is not part of the sources.
    [getArgNames f] is the list of parameter names the function declares
    (for [execute(user, filter) {...}] it is ['user', 'filter']). *)
Definition getArgNames (declared : list string) : list string := declared.

Inductive RingEventFactory :=
| NewRingEventFactory (eventType : string)   (* new RingEventFactory(name) *)
| GivenRingEventFactory (o : ObjectShape).   (* the executee itself *)

(** The object [build] returns: which constructor made it and from what.
    For a command, [inst_ctor_argNames] is the second constructor argument and
    [inst_argNames] the [argNames] member assigned by [build], if it assigned
    one. *)
Inductive ExecutorKind :=
| CommandEventWrapper (factory : RingEventFactory)
| CommandPromiseWrapper (executee : Executee)
| CommandInstance (cls : Callable)
    (inst_ctor_argNames : option (list string)) (inst_argNames : option (list string))
| CommandFunctionWrapper (f : Callable)
| CommandsParallelWrapper (executees : ObjectShape).

Record Executor := mkExecutor {
  ex_id : loc;          (* identity of the instance *)
  ex_thread : loc;      (* the pipeline handed to the constructor *)
  ex_kind : ExecutorKind
}.

#[global] Instance RingEventFactory_eq_dec : EqDecision RingEventFactory.
Proof. solve_decision. Defined.

#[global] Instance ExecutorKind_eq_dec : EqDecision ExecutorKind.
Proof. solve_decision. Defined.

#[global] Instance Executor_eq_dec : EqDecision Executor.
Proof. solve_decision. Defined.

Record CommandFactory := mkCommandFactory {
  executee : Executee;
  argNames : option (list string)   (* [None] while undefined *)
}.

(** ** Objects of the engine *)

(** What a listener receives.  The record logged for late subscribers has no
    [kill] member ([n_kill = None]); the one handed to live listeners has. *)
Record Notification := mkNotification {
  n_type : string;
  n_detail : Value;
  n_error : Value;
  n_kill : option Value
}.

Definition DONE : string := "done".
Definition FAIL : string := "fail".
Definition PREHOOK : string := "prehook".

Record CustomEvent := mkCustomEvent {
  ce_ref : Value;
  ce_target : Value
}.

(** The dispatch handle.  [_errors] and [lastEvent] are [None] while
    undefined; [lastEvent] is the handle that caused this one, as the getters
    find it.  [dispatchOrigin] is what [dispatchStack[0]] prints, [None]
    while [dispatchStack] is not set. *)
#[warnings="-register-all"]
Inductive RingaEvent := mkRingaEvent {
  self : loc;
  _type : Value;
  _bubbles : Value;
  _cancelable : Value;
  requireCatch : Value;
  event : Value;
  detail : Value;
  dispatched : bool;
  dispatchOrigin : option string;
  _errors : option (list Value);
  listeners : gmap string (list Value);
  dispatchedEvents : list Notification;
  catchers : list Value;
  _catchers : list Value;
  __caught : bool;
  killed : bool;
  _threadTimedOut : bool;
  customEvent : option CustomEvent;
  _target : Value;
  _lastPromiseResult : Value;
  _lastPromiseError : Value;
  lastEvent : option RingaEvent
}.

Definition set_dispatched (v : bool) (x : RingaEvent) : RingaEvent :=
  mkRingaEvent (self x) (_type x) (_bubbles x) (_cancelable x) (requireCatch x) (event x) (detail x) v (dispatchOrigin x) (_errors x) (listeners x) (dispatchedEvents x) (catchers x) (_catchers x) (__caught x) (killed x) (_threadTimedOut x) (customEvent x) (_target x) (_lastPromiseResult x) (_lastPromiseError x) (lastEvent x).

Definition set__errors (v : option (list Value)) (x : RingaEvent) : RingaEvent :=
  mkRingaEvent (self x) (_type x) (_bubbles x) (_cancelable x) (requireCatch x) (event x) (detail x) (dispatched x) (dispatchOrigin x) v (listeners x) (dispatchedEvents x) (catchers x) (_catchers x) (__caught x) (killed x) (_threadTimedOut x) (customEvent x) (_target x) (_lastPromiseResult x) (_lastPromiseError x) (lastEvent x).

Definition set_listeners (v : gmap string (list Value)) (x : RingaEvent) : RingaEvent :=
  mkRingaEvent (self x) (_type x) (_bubbles x) (_cancelable x) (requireCatch x) (event x) (detail x) (dispatched x) (dispatchOrigin x) (_errors x) v (dispatchedEvents x) (catchers x) (_catchers x) (__caught x) (killed x) (_threadTimedOut x) (customEvent x) (_target x) (_lastPromiseResult x) (_lastPromiseError x) (lastEvent x).

Definition set_dispatchedEvents (v : list Notification) (x : RingaEvent) : RingaEvent :=
  mkRingaEvent (self x) (_type x) (_bubbles x) (_cancelable x) (requireCatch x) (event x) (detail x) (dispatched x) (dispatchOrigin x) (_errors x) (listeners x) v (catchers x) (_catchers x) (__caught x) (killed x) (_threadTimedOut x) (customEvent x) (_target x) (_lastPromiseResult x) (_lastPromiseError x) (lastEvent x).

Definition set_catchers (v : list Value) (x : RingaEvent) : RingaEvent :=
  mkRingaEvent (self x) (_type x) (_bubbles x) (_cancelable x) (requireCatch x) (event x) (detail x) (dispatched x) (dispatchOrigin x) (_errors x) (listeners x) (dispatchedEvents x) v (_catchers x) (__caught x) (killed x) (_threadTimedOut x) (customEvent x) (_target x) (_lastPromiseResult x) (_lastPromiseError x) (lastEvent x).

Definition set__catchers (v : list Value) (x : RingaEvent) : RingaEvent :=
  mkRingaEvent (self x) (_type x) (_bubbles x) (_cancelable x) (requireCatch x) (event x) (detail x) (dispatched x) (dispatchOrigin x) (_errors x) (listeners x) (dispatchedEvents x) (catchers x) v (__caught x) (killed x) (_threadTimedOut x) (customEvent x) (_target x) (_lastPromiseResult x) (_lastPromiseError x) (lastEvent x).

Definition set___caught (v : bool) (x : RingaEvent) : RingaEvent :=
  mkRingaEvent (self x) (_type x) (_bubbles x) (_cancelable x) (requireCatch x) (event x) (detail x) (dispatched x) (dispatchOrigin x) (_errors x) (listeners x) (dispatchedEvents x) (catchers x) (_catchers x) v (killed x) (_threadTimedOut x) (customEvent x) (_target x) (_lastPromiseResult x) (_lastPromiseError x) (lastEvent x).

Definition set__target (v : Value) (x : RingaEvent) : RingaEvent :=
  mkRingaEvent (self x) (_type x) (_bubbles x) (_cancelable x) (requireCatch x) (event x) (detail x) (dispatched x) (dispatchOrigin x) (_errors x) (listeners x) (dispatchedEvents x) (catchers x) (_catchers x) (__caught x) (killed x) (_threadTimedOut x) (customEvent x) v (_lastPromiseResult x) (_lastPromiseError x) (lastEvent x).

Definition set__lastPromiseResult (v : Value) (x : RingaEvent) : RingaEvent :=
  mkRingaEvent (self x) (_type x) (_bubbles x) (_cancelable x) (requireCatch x) (event x) (detail x) (dispatched x) (dispatchOrigin x) (_errors x) (listeners x) (dispatchedEvents x) (catchers x) (_catchers x) (__caught x) (killed x) (_threadTimedOut x) (customEvent x) (_target x) v (_lastPromiseError x) (lastEvent x).

Definition set__lastPromiseError (v : Value) (x : RingaEvent) : RingaEvent :=
  mkRingaEvent (self x) (_type x) (_bubbles x) (_cancelable x) (requireCatch x) (event x) (detail x) (dispatched x) (dispatchOrigin x) (_errors x) (listeners x) (dispatchedEvents x) (catchers x) (_catchers x) (__caught x) (killed x) (_threadTimedOut x) (customEvent x) (_target x) (_lastPromiseResult x) v (lastEvent x).

Definition set_lastEvent (v : option RingaEvent) (x : RingaEvent) : RingaEvent :=
  mkRingaEvent (self x) (_type x) (_bubbles x) (_cancelable x) (requireCatch x) (event x) (detail x) (dispatched x) (dispatchOrigin x) (_errors x) (listeners x) (dispatchedEvents x) (catchers x) (_catchers x) (__caught x) (killed x) (_threadTimedOut x) (customEvent x) (_target x) (_lastPromiseResult x) (_lastPromiseError x) v.

Record Controller := mkController {
  ctl_ref : Value;                                (* the controller object *)
  __blockRingaEvents : bool;
  injections : option (gmap string Value)         (* controller.options.injections *)
}.

Record ThreadFactory := mkThreadFactory {
  tf_controller : Controller;
  tf_all : list CommandFactory
}.

(** The pipeline.  [all] is the content of the inherited RingaHashArray;
    [destroyed] is inherited too.  [index] is first assigned by [run]. *)
Record Thread := mkThread {
  th_id : loc;
  name : string;
  threadFactory : ThreadFactory;
  running : bool;
  destroyed : bool;
  all : list Executor;
  index : nat;
  ringaEvent : Value;
  doneHandler : Value;
  failHandler : Value;
  error : Value
}.

Definition set_threadFactory (v : ThreadFactory) (x : Thread) : Thread :=
  mkThread (th_id x) (name x) v (running x) (destroyed x) (all x) (index x) (ringaEvent x) (doneHandler x) (failHandler x) (error x).

Definition set_running (v : bool) (x : Thread) : Thread :=
  mkThread (th_id x) (name x) (threadFactory x) v (destroyed x) (all x) (index x) (ringaEvent x) (doneHandler x) (failHandler x) (error x).

Definition set_all (v : list Executor) (x : Thread) : Thread :=
  mkThread (th_id x) (name x) (threadFactory x) (running x) (destroyed x) v (index x) (ringaEvent x) (doneHandler x) (failHandler x) (error x).

Definition set_index (v : nat) (x : Thread) : Thread :=
  mkThread (th_id x) (name x) (threadFactory x) (running x) (destroyed x) (all x) v (ringaEvent x) (doneHandler x) (failHandler x) (error x).

Definition set_ringaEvent (v : Value) (x : Thread) : Thread :=
  mkThread (th_id x) (name x) (threadFactory x) (running x) (destroyed x) (all x) (index x) v (doneHandler x) (failHandler x) (error x).

Definition set_doneHandler (v : Value) (x : Thread) : Thread :=
  mkThread (th_id x) (name x) (threadFactory x) (running x) (destroyed x) (all x) (index x) (ringaEvent x) v (failHandler x) (error x).

Definition set_failHandler (v : Value) (x : Thread) : Thread :=
  mkThread (th_id x) (name x) (threadFactory x) (running x) (destroyed x) (all x) (index x) (ringaEvent x) (doneHandler x) v (error x).

Definition set_error (v : Value) (x : Thread) : Thread :=
  mkThread (th_id x) (name x) (threadFactory x) (running x) (destroyed x) (all x) (index x) (ringaEvent x) (doneHandler x) (failHandler x) v.

(** The members of an executor that the argument resolver reads and writes. *)
Record ExecutorMembers := mkExecutorMembers {
  x_name : string;                                (* toString() *)
  x_controller : Controller;
  x_thread : Value;
  x_done : Value;
  x_fail : Value;
  _injections : option (gmap string Value)
}.

Definition set__injections (v : option (gmap string Value)) (x : ExecutorMembers) : ExecutorMembers :=
  mkExecutorMembers (x_name x) (x_controller x) (x_thread x) (x_done x) (x_fail x) v.

(** ** The store *)

(** Calls that leave the modelled code. *)
Inductive Effect :=
| CallListener (handler : loc) (n : Notification)           (* handler(n) *)
| CallDoneHandler (handler : loc) (thread : loc)            (* doneHandler(thread) *)
| CallFailHandler (handler : loc) (thread : loc) (error kill : Value)
| Execute (e : Executor)                                    (* e._execute(done, fail) *)
| Destroy (e : Executor)                                    (* e.destroy(true) *)
| InspectorDispatch (e : option Executor)                   (* 'ringaExecutorEnd' *)
| GetArgNames (cls : Callable)                              (* getArgNames(instance.execute) *)
| ConsoleLog (msg : string)
| ConsoleError (index : nat) (executors : list string) (error : Value).

(** Callbacks queued by [setTimeout(..., 0)]. *)
Inductive Task := ExecuteNext.

(** The store: the build flag [__DEV__], the plain objects, the handles, the
    executors' members, the pipeline under study, the callbacks queued by
    [setTimeout], what has been done to the outside so far, and the next free
    address. *)
Record World := mkWorld {
  __DEV__ : bool;
  heap : gmap loc Obj;
  events : gmap loc RingaEvent;
  executors : gmap loc ExecutorMembers;
  thread : Thread;
  timers : list Task;
  out : list Effect;
  next : loc
}.

Definition set_heap (v : gmap loc Obj) (x : World) : World :=
  mkWorld (__DEV__ x) v (events x) (executors x) (thread x) (timers x) (out x) (next x).

Definition set_events (v : gmap loc RingaEvent) (x : World) : World :=
  mkWorld (__DEV__ x) (heap x) v (executors x) (thread x) (timers x) (out x) (next x).

Definition set_executors (v : gmap loc ExecutorMembers) (x : World) : World :=
  mkWorld (__DEV__ x) (heap x) (events x) v (thread x) (timers x) (out x) (next x).

Definition set_thread (v : Thread) (x : World) : World :=
  mkWorld (__DEV__ x) (heap x) (events x) (executors x) v (timers x) (out x) (next x).

Definition set_timers (v : list Task) (x : World) : World :=
  mkWorld (__DEV__ x) (heap x) (events x) (executors x) (thread x) v (out x) (next x).

Definition set_out (v : list Effect) (x : World) : World :=
  mkWorld (__DEV__ x) (heap x) (events x) (executors x) (thread x) (timers x) v (next x).

Definition set_next (v : loc) (x : World) : World :=
  mkWorld (__DEV__ x) (heap x) (events x) (executors x) (thread x) (timers x) (out x) v.

(** ** Computations: state that survives a throw *)

Inductive Outcome (A : Type) :=
| Ret (a : A)
| Throw (e : Value).
Arguments Ret {A} a.
Arguments Throw {A} e.

Definition M (A : Type) : Type := World -> Outcome A * World.

Definition ret {A} (a : A) : M A := fun w => (Ret a, w).

Definition throw {A} (e : Value) : M A := fun w => (Throw e, w).

Definition bind {A B} (c : M A) (k : A -> M B) : M B :=
  fun w => match c w with
           | (Ret a, w') => k a w'
           | (Throw e, w') => (Throw e, w')
           end.

(** [try { c } catch (e) { h(e) }] *)
Definition try_catch {A} (c : M A) (h : Value -> M A) : M A :=
  fun w => match c w with
           | (Ret a, w') => (Ret a, w')
           | (Throw e, w') => h e w'
           end.

Declare Scope js_scope.
Delimit Scope js_scope with js.
Notation "'let*' x ':=' c 'in' k" := (bind c (fun x => k))
  (at level 10, x name, c at level 100, k at level 200) : js_scope.
Notation "c1 ;; c2" := (bind c1 (fun _ => c2))
  (at level 100, c2 at level 200, right associativity) : js_scope.
Open Scope js_scope.

Definition get : M World := fun w => (Ret w, w).
Definition modify (f : World -> World) : M unit := fun w => (Ret tt, f w).

Definition emit (x : Effect) : M unit := modify (fun w => set_out (out w ++ [x]) w).

(** A fresh address for [new ...], [{}] or [[]]. *)
Definition alloc : M loc :=
  fun w => (Ret (next w), set_next (S (next w)) w).

Definition type_error {A} (msg : string) : M A := throw (VError TypeError msg).

(** [o.k] *)
Definition get_member (o : Value) (k : string) : M Value :=
  match o with
  | VUndefined | VNull => type_error ("Cannot read property '" +:+ k +:+ "'")
  | VRef l =>
      let* w := get in
      match heap w !! l with
      | Some (OBag b) => ret (default VUndefined (b !! k))
      | _ => ret VUndefined
      end
  | _ => ret VUndefined
  end.

(** [o.k = v], in strict mode: assigning to a member of a primitive throws.
    Members of arrays and of objects that are not plain are not tracked. *)
Definition set_member (o : Value) (k : string) (v : Value) : M unit :=
  match o with
  | VRef l =>
      modify (fun w => match heap w !! l with
                       | Some (OBag b) => set_heap (<[l := OBag (<[k := v]> b)]> (heap w)) w
                       | _ => w
                       end)
  | _ => type_error ("Cannot set property '" +:+ k +:+ "'")
  end.

(** [delete o.k] *)
Definition delete_member (o : Value) (k : string) : M unit :=
  match o with
  | VUndefined | VNull => type_error ("Cannot convert undefined or null to object")
  | VRef l =>
      modify (fun w => match heap w !! l with
                       | Some (OBag b) => set_heap (<[l := OBag (delete k b)]> (heap w)) w
                       | _ => w
                       end)
  | _ => ret tt
  end.

(** [a.push(v)] *)
Definition push (a : Value) (v : Value) : M unit :=
  match a with
  | VUndefined | VNull => type_error "Cannot read property 'push'"
  | VRef l =>
      let* w := get in
      match heap w !! l with
      | Some (OArr xs) => modify (set_heap (<[l := OArr (xs ++ [v])]> (heap w)))
      | _ => type_error "push is not a function"
      end
  | _ => type_error "push is not a function"
  end.

(** The handle a reference denotes; calling a handle's method on anything
    else is a TypeError. *)
Definition get_event (this : Value) : M RingaEvent :=
  match this with
  | VRef l =>
      let* w := get in
      match events w !! l with
      | Some e => ret e
      | None => type_error "not a RingaEvent"
      end
  | _ => type_error "not a RingaEvent"
  end.

Definition put_event (e : RingaEvent) : M unit :=
  modify (fun w => set_events (<[self e := e]> (events w)) w).

(** Update of the handle [this], read afresh from the store. *)
Definition update_event (this : Value) (f : RingaEvent -> RingaEvent) : M unit :=
  let* e := get_event this in put_event (f e).

(** ** RingaEvent *)

Section Engine.

(** String conversion of objects ([toString] of controllers and executors
    comes from RingaObject) and what an executor's [_execute] does before it
    returns are given from outside. *)
Inductive Behaviour :=
| Pending                                (* returns; completes later, if ever *)
| CallsDone                              (* calls the done continuation *)
| CallsFail (error kill : Value)         (* calls the fail continuation *)
| Throws (error : Value).

Variable toString : Value -> string.
Variable _execute : Executor -> Behaviour.

(** [`${v}`] *)
Definition template (v : Value) : string :=
  match v with
  | VUndefined => "undefined"
  | VNull => "null"
  | VBool b => if b then "true" else "false"
  | VNum z => pretty z
  | VNaN => "NaN"
  | VStr s => s
  | VRef _ | VError _ _ => toString v
  end.

Definition throw_error {A} (msg : string) : M A := throw (VError PlainError msg).

(** [for (x of xs) f(x)], stopping at the first throw *)
Fixpoint forEach {A} (f : A -> M unit) (xs : list A) : M unit :=
  match xs with
  | [] => ret tt
  | x :: xs' => f x ;; forEach f xs'
  end.

(** [h(n)] for a listener [h] *)
Definition call_listener (h : Value) (n : Notification) : M unit :=
  match h with
  | VRef l => emit (CallListener l n)
  | _ => type_error "listener is not a function"
  end.

(** [get debug()]: [this.detail && this.detail.debug] *)
Definition debug (this : Value) : M Value :=
  let* e := get_event this in
  if truthy (detail e) then get_member (detail e) "debug" else ret (detail e).

(** [addDebug(message)], with the default level 0 *)
Definition addDebug (this : Value) (message : string) : M unit :=
  let* d := debug this in
  match d with
  | VUndefined => ret tt
  | _ =>
      let filtered := match d with VNum z => (0 <=? z)%Z | _ => false end in
      if filtered then ret tt
      else
        emit (ConsoleLog message) ;;
        let* e := get_event this in
        let* old := get_member (detail e) "$debug" in
        let* arr :=
          (if truthy old then ret old
           else let* l := alloc in
                modify (fun w => set_heap (<[l := OArr []]> (heap w)) w) ;;
                ret (VRef l)) in
        set_member (detail e) "$debug" arr ;;
        push arr (VStr message)
  end.

(** [new RingaEvent(type, detail, bubbles, cancelable, event, requireCatch)];
    an argument that is [undefined] takes its default. *)
Definition or_default (v d : Value) : Value :=
  match v with VUndefined => d | _ => v end.

(** The handle as the constructor leaves it. *)
Definition fresh_handle (this : loc) (type detail bubbles cancelable event requireCatch : Value)
  : RingaEvent :=
  {| self := this;
     _type := type;
     _bubbles := or_default bubbles (VBool true);
     _cancelable := or_default cancelable (VBool true);
     requireCatch := or_default requireCatch (VBool true);
     event := event;
     detail := detail;
     dispatched := false;
     dispatchOrigin := None;
     _errors := None;
     listeners := ∅;
     dispatchedEvents := [];
     catchers := [];
     _catchers := [];
     __caught := false;
     killed := false;
     _threadTimedOut := false;
     customEvent := None;
     _target := VUndefined;
     _lastPromiseResult := VUndefined;
     _lastPromiseError := VUndefined;
     lastEvent := None |}.

Definition new_RingaEvent (type detail bubbles cancelable event requireCatch : Value) : M Value :=
  let* detail :=
    (match detail with
     | VUndefined =>
         let* l := alloc in
         modify (fun w => set_heap (<[l := OBag ∅]> (heap w)) w) ;;
         ret (VRef l)
     | _ => ret detail
     end) in
  let* this := alloc in
  let* w := get in
  (if __DEV__ w && negb (truthy type)
   then throw_error "RingaEvent: attempting to dispatch an event with an undefined type!"
   else ret tt) ;;
  set_member detail "ringaEvent" (VRef this) ;;
  put_event (fresh_handle this type detail bubbles cancelable event requireCatch) ;;
  ret (VRef this).

(** [get target()] *)
Definition target (e : RingaEvent) : Value :=
  if truthy (_target e) then _target e
  else match customEvent e with
       | Some ce => ce_target ce
       | None => VUndefined
       end.

(** [get lastPromiseResult()] *)
Fixpoint lastPromiseResult (e : RingaEvent) : Value :=
  if truthy (_lastPromiseResult e) then _lastPromiseResult e
  else match lastEvent e with
       | Some cause => lastPromiseResult cause
       | None => VUndefined
       end.

(** [get lastPromiseError()] *)
Fixpoint lastPromiseError (e : RingaEvent) : Value :=
  if truthy (_lastPromiseError e) then _lastPromiseError e
  else match lastEvent e with
       | Some cause => lastPromiseError cause
       | None => VUndefined
       end.

(** [set lastPromiseResult(value)], [set lastPromiseError(value)] *)
Definition set_lastPromiseResult (this : Value) (value : Value) : M unit :=
  update_event this (set__lastPromiseResult value).

Definition set_lastPromiseError (this : Value) (value : Value) : M unit :=
  update_event this (set__lastPromiseError value).

Definition _caught (this : Value) (controller : Value) : M unit :=
  let* w := get in
  (if __DEV__ w && negb (truthy controller)
   then throw_error "RingaEvent::_caught(): controller was not defined!"
   else ret tt) ;;
  update_event this (fun e => set_catchers (catchers e ++ [controller]) (set___caught true e)) ;;
  addDebug this ("Caught by " +:+ template controller).

Definition _uncatch (this : Value) (controller : Value) : M unit :=
  let* e := get_event this in
  let ix := indexOf (catchers e) controller in
  let* w := get in
  (if __DEV__ w && bool_decide (ix = None)
   then throw_error "RingaEvent::_uncatch(): controller that is uncatching could not be found. Was done called twice?"
   else ret tt) ;;
  let '(removed, rest) :=
    match ix with
    | Some i => splice1 i (catchers e)
    | None => splice_last (catchers e)
    end in
  put_event (set__catchers (_catchers e ++ [first removed]) (set_catchers rest e)) ;;
  addDebug this ("Uncaught by " +:+ template controller).

Definition pushError (this : Value) (err : Value) : M unit :=
  update_event this (fun e => set__errors (Some (default [] (_errors e) ++ [err])) e).

Definition fail (this : Value) (err : Value) : M unit := pushError this err.

(** Reading a member of [listeners] whose value is not an array of this
    handle's own making finds what [Object.prototype] provides. *)
Inductive Slot :=
| SlotArray (hs : list Value)
| SlotInherited
| SlotUndefined.

Definition listeners_at (e : RingaEvent) (key : string) : Slot :=
  match listeners e !! key with
  | Some hs => SlotArray hs
  | None => if object_prototype_key key then SlotInherited else SlotUndefined
  end.

Definition _dispatchEvent (this : Value) (type : string) (detail error kill : Value) : M unit :=
  let* e := get_event this in
  let slot := listeners_at e type in
  put_event (set_dispatchedEvents
               (dispatchedEvents e ++ [mkNotification type detail error None]) e) ;;
  match slot with
  | SlotUndefined => ret tt
  | SlotInherited => type_error "listeners.forEach is not a function"
  | SlotArray hs =>
      forEach (fun h => call_listener h (mkNotification type detail error (Some kill))) hs
  end.

Definition _fail (this : Value) (controller err killed : Value) : M unit :=
  (if truthy killed then _uncatch this controller else ret tt) ;;
  addDebug this "Fail" ;;
  _dispatchEvent this FAIL VUndefined err killed.

(** In [_done] the identifier [error] names no parameter, local, import or
    global: evaluating the arguments of the FAIL call throws. *)
Definition _done (this : Value) (controller : Value) : M unit :=
  let* w := get in
  (if __DEV__ w && negb (truthy controller)
   then throw_error "RingaEvent::_done(): controller is not defined!"
   else ret tt) ;;
  _uncatch this controller ;;
  addDebug this "Done" ;;
  let* e := get_event this in
  if bool_decide (length (catchers e) = 0) then
    match _errors e with
    | Some (_ :: _) => throw (VError ReferenceError "error is not defined")
    | _ => _dispatchEvent this DONE VUndefined VUndefined VUndefined
    end
  else ret tt.

(** The member name an [eventType] indexes [listeners] with. *)
Definition addListener (this : Value) (eventType : Value) (handler : Value) : M Value :=
  let* w := get in
  (if __DEV__ w && negb (match eventType with VStr _ => true | _ => false end)
   then throw_error ("RingaEvent::addListener(): invalid eventType provided!" +:+ template eventType)
   else ret tt) ;;
  let key := template eventType in
  let* e := get_event this in
  match listeners_at e key with
  | SlotInherited => type_error "indexOf is not a function"
  | slot =>
      let hs := match slot with SlotArray hs => hs | _ => [] end in
      put_event (set_listeners (<[key := hs]> (listeners e)) e) ;;
      (if bool_decide (indexOf hs handler = None) then ret tt
       else throw_error "RingaEvent::addListener(): the same function was added as a listener twice") ;;
      update_event this (fun e => set_listeners (<[key := hs ++ [handler]]> (listeners e)) e) ;;
      let* e := get_event this in
      forEach (fun n => if strict_eq (VStr (n_type n)) eventType
                        then call_listener handler n else ret tt)
              (dispatchedEvents e) ;;
      ret this
  end.

Definition addFailListener (this : Value) (handler : Value) : M Value :=
  addListener this (VStr FAIL) handler.

(** ** util/executors.js *)

Definition get_executor (executor : Value) : M ExecutorMembers :=
  match executor with
  | VRef l =>
      let* w := get in
      match executors w !! l with
      | Some x => ret x
      | None => type_error "Cannot read property 'options' of undefined"
      end
  | _ => type_error "Cannot read property '_injections' of undefined"
  end.

Definition put_executor (executor : Value) (x : ExecutorMembers) : M unit :=
  match executor with
  | VRef l => modify (fun w => set_executors (<[l := x]> (executors w)) w)
  | _ => ret tt
  end.

(** The table built when the executor has none cached yet. *)
Definition well_known (x : ExecutorMembers) (ringaEvent : Value) (e : RingaEvent)
  : gmap string Value :=
  <["$controller" := ctl_ref (x_controller x)]>
  (<["$thread" := x_thread x]>
  (<["$ringaEvent" := ringaEvent]>
  (<["$customEvent" := match customEvent e with Some ce => ce_ref ce | None => VUndefined end]>
  (<["$target" := target e]>
  (<["$detail" := detail e]>
  (<["done" := x_done x]>
  (<["fail" := x_fail x]>
  (<["$lastPromiseResult" := lastPromiseResult e]>
  (<["$lastPromiseError" := lastPromiseError e]> ∅))))))))).

(** [for (var key in from) into[key] = from[key]] *)
Definition merge_into (from : option (gmap string Value)) (into : gmap string Value)
  : gmap string Value :=
  match from with
  | Some m => m ∪ into
  | None => into
  end.

Definition unresolved_message (x : ExecutorMembers) (argName : string)
    (expectedArguments : list string) (e : RingaEvent) : string :=
  x_name x +:+ ": the property '" +:+ argName +:+
  "' was not provided on the dispatched ringaEvent." +:+
  "Expected Arguments were: ['" +:+ String.concat "'.'" expectedArguments +:+
  "'] Dispatched from: " +:+ default "unknown stack." (dispatchOrigin e).

(** *** Members found on the way to a method

    [detail.hasOwnProperty(argName)] and [injections.hasOwnProperty(argName)]
    are method calls: the method is looked up on the object like any member.
    A plain object without a member of its own named hasOwnProperty finds
    [Object.prototype]'s, which tests for an own member.  With such a member
    of its own, that member is what is called: a TypeError when it is no
    function, and otherwise a function of the caller's.  Given from outside:
    the members of [Object.prototype], and what such a function does with
    the name it is called with. *)
Variable Object_prototype : string -> Value.
Variable call_hasOwnProperty : loc -> string -> M Value.

(** [o[k]] for a plain object with the own members [b] *)
Definition read (b : gmap string Value) (k : string) : Value :=
  match b !! k with
  | Some v => v
  | None => if object_prototype_key k then Object_prototype k else VUndefined
  end.

(** The objects the store knows: none of them is a function. *)
Definition stored (w : World) (l : loc) : bool :=
  bool_decide (is_Some (heap w !! l)) || bool_decide (is_Some (events w !! l)) ||
  bool_decide (is_Some (executors w !! l)).

(** [o.hasOwnProperty(k)] for a plain object with the own members [b] *)
Definition has_own (b : gmap string Value) (k : string) : M bool :=
  match b !! "hasOwnProperty" with
  | None => ret (bool_decide (is_Some (b !! k)))
  | Some (VRef f) =>
      let* w := get in
      if stored w f then type_error "hasOwnProperty is not a function"
      else let* answer := call_hasOwnProperty f k in ret (truthy answer)
  | Some _ => type_error "hasOwnProperty is not a function"
  end.

(** [o.hasOwnProperty(k)].  Own members of arrays, of strings and of objects
    that are not plain are not tracked (see [set_member]); numbers and
    booleans have none. *)
Definition hasOwnProperty (o : Value) (k : string) : M bool :=
  match o with
  | VUndefined | VNull => type_error "Cannot read property 'hasOwnProperty'"
  | VRef l =>
      let* w := get in
      match heap w !! l with
      | Some (OBag b) => has_own b k
      | _ => ret false
      end
  | _ => ret false
  end.

(** [o[k]], own or inherited *)
Definition get_property (o : Value) (k : string) : M Value :=
  match o with
  | VUndefined | VNull => type_error ("Cannot read property '" +:+ k +:+ "'")
  | VRef l =>
      let* w := get in
      match heap w !! l with
      | Some (OBag b) => ret (read b k)
      | _ => ret VUndefined
      end
  | _ => ret VUndefined
  end.

(** The body of the [forEach] over the expected arguments. *)
Definition resolve (x : ExecutorMembers) (table : gmap string Value)
    (expectedArguments : list string) (ringaEvent : Value) (argName : string) : M Value :=
  let* e := get_event ringaEvent in
  let* own := (if truthy (detail e) then hasOwnProperty (detail e) argName else ret false) in
  if own then get_property (detail e) argName
  else
    let* injected := has_own table argName in
    if injected then ret (read table argName)
    else throw_error (unresolved_message x argName expectedArguments e).

Fixpoint mapM {A B} (f : A -> M B) (xs : list A) : M (list B) :=
  match xs with
  | [] => ret []
  | x :: xs' => let* y := f x in let* ys := mapM f xs' in ret (y :: ys)
  end.

(** [expectedArguments] is an array here, so the [instanceof Array] guard
    does not fire. *)
Definition buildArgumentsFromRingaEvent (executor : Value)
    (expectedArguments : list string) (ringaEvent : Value) : M (list Value) :=
  let* x := get_executor executor in
  let* table :=
    (match _injections x with
     | Some table => ret table
     | None => let* e := get_event ringaEvent in ret (well_known x ringaEvent e)
     end) in
  let table := merge_into (injections (x_controller x)) table in
  put_executor executor (set__injections (Some table) x) ;;
  mapM (resolve x table expectedArguments ringaEvent) expectedArguments.

(** ** CommandFactory *)

Definition cacheArguments (this : CommandFactory) (cls : Callable) : M CommandFactory :=
  emit (GetArgNames cls) ;;
  ret (mkCommandFactory (executee this) (Some (getArgNames (fn_execute_args cls)))).

Definition unsupported (x : Executee) : Value :=
  VError PlainError
    ("CommandFactory::build(): the type of executee you provided is not supported by Ring: "
     +:+ typeof x +:+ ": " +:+ to_string x).

Definition new_executor (commandThread : loc) (k : ExecutorKind) : M Executor :=
  let* id := alloc in ret (mkExecutor id commandThread k).

(** [build] returns the executor together with the factory as it left it. *)
Definition build (this : CommandFactory) (commandThread : loc)
  : M (Executor * CommandFactory) :=
  let x := executee this in
  match x with
  | EString name =>
      let* ex := new_executor commandThread (CommandEventWrapper (NewRingEventFactory name)) in
      ret (ex, this)
  | _ =>
      match then_is_function x with
      | None => type_error ("Cannot read property 'then' of " +:+ to_string x)
      | Some true =>
          let* ex := new_executor commandThread (CommandPromiseWrapper x) in
          ret (ex, this)
      | Some false =>
          match x with
          | EFunction f =>
              if fn_command f then
                let* instance := new_executor commandThread (CommandInstance f (argNames this) None) in
                match argNames this with
                | None =>
                    let* this' := cacheArguments this f in
                    ret (mkExecutor (ex_id instance) commandThread
                           (CommandInstance f None (argNames this')), this')
                | Some _ => ret (instance, this)
                end
              else
                let* ex := new_executor commandThread (CommandFunctionWrapper f) in
                ret (ex, this)
          | EObject o =>
              if obj_array o then
                let* ex := new_executor commandThread (CommandsParallelWrapper o) in
                ret (ex, this)
              else if obj_event_factory o then
                let* ex := new_executor commandThread
                             (CommandEventWrapper (GivenRingEventFactory o)) in
                ret (ex, this)
              else throw (unsupported x)
          | _ => throw (unsupported x)
          end
      end
  end.

(** ** Thread *)

Definition this_thread : M Thread := let* w := get in ret (thread w).

Definition with_thread (f : Thread -> Thread) : M unit :=
  modify (fun w => set_thread (f (thread w)) w).

(** [new Thread(name, threadFactory, options)] *)
Definition new_Thread (id : loc) (name : string) (threadFactory : ThreadFactory) : Thread :=
  {| th_id := id; name := name; threadFactory := threadFactory;
     running := false; destroyed := false; all := []; index := 0;
     ringaEvent := VUndefined; doneHandler := VUndefined; failHandler := VUndefined;
     error := VUndefined |}.

(** Modelled from the spec: RingaHashArray is not part of the sources.  It is
    an insertion-ordered collection of objects with a membership test and
    removal, by identity. *)
Definition add (e : Executor) (xs : list Executor) : list Executor := xs ++ [e].

Definition has (e : Executor) (xs : list Executor) : bool :=
  existsb (fun e' => Nat.eqb (ex_id e') (ex_id e)) xs.

Definition remove (e : Executor) (xs : list Executor) : list Executor :=
  filter (fun e' => ex_id e' ≠ ex_id e) xs.

(** [`${executor}`] *)
Definition show (executor : option Executor) : string :=
  match executor with
  | Some e => toString (VRef (ex_id e))
  | None => "undefined"
  end.

Definition buildExecutors : M unit :=
  let* t := this_thread in
  forEach (fun i =>
             let* t := this_thread in
             match tf_all (threadFactory t) !! i with
             | None => ret tt
             | Some executorFactory =>
                 let* built := build executorFactory (th_id t) in
                 let '(executor, executorFactory') := built in
                 with_thread (fun t =>
                   set_all (add executor (all t))
                     (set_threadFactory
                        (mkThreadFactory (tf_controller (threadFactory t))
                           (<[i := executorFactory']> (tf_all (threadFactory t)))) t))
             end)
          (seq 0 (length (tf_all (threadFactory t)))).

Definition kill : M unit := with_thread (set_running false).

Definition removeExecutor (executor : option Executor) : M unit :=
  let* w := get in
  (if __DEV__ w && negb (__blockRingaEvents (tf_controller (threadFactory (thread w))))
   then emit (InspectorDispatch executor) else ret tt) ;;
  match executor with
  | Some e =>
      let* t := this_thread in
      if has e (all t) then with_thread (set_all (remove e (all t))) else ret tt
  | None => ret tt
  end.

Definition _finCouldNotFindError (err : Value) : M unit :=
  let* t := this_thread in
  if destroyed t then ret tt
  else emit (ConsoleError (index t) (map (fun e => show (Some e)) (all t)) err).

(** [if (detail._promise) delete detail._promise] on the pipeline's handle *)
Definition forget_promise : M unit :=
  let* t := this_thread in
  let* e := get_event (ringaEvent t) in
  let* p := get_member (detail e) "_promise" in
  if truthy p then delete_member (detail e) "_promise" else ret tt.

(** [this.all[this.index].destroy(true)], or the missing-executor path.
    [destroy] belongs to RingaObject, which is not part of the sources; it is
    logged as an effect and taken to return the object it is called on, as the
    eviction of what it returned by [removeExecutor] presupposes. *)
Definition destroy_current (err : Value) : M (option Executor) :=
  let* t := this_thread in
  match all t !! index t with
  | None => _finCouldNotFindError err ;; ret None
  | Some e => emit (Destroy e) ;; ret (Some e)
  end.

Definition call_doneHandler : M unit :=
  let* t := this_thread in
  match doneHandler t with
  | VRef h => emit (CallDoneHandler h (th_id t))
  | _ => type_error "this.doneHandler is not a function"
  end.

Definition call_failHandler (err kill : Value) : M unit :=
  let* t := this_thread in
  match failHandler t with
  | VRef h => emit (CallFailHandler h (th_id t) err kill)
  | _ => type_error "this.failHandler is not a function"
  end.

Definition setTimeout (task : Task) : M unit :=
  modify (fun w => set_timers (timers w ++ [task]) w).

Definition _executorDoneHandler : M unit :=
  let* executor := destroy_current VUndefined in
  let* t := this_thread in
  addDebug (ringaEvent t) ("Done: " +:+ show executor) ;;
  with_thread (fun t => set_index (S (index t)) t) ;;
  forget_promise ;;
  let* t := this_thread in
  if (index t <? length (all t))%nat then setTimeout ExecuteNext
  else call_doneHandler ;; removeExecutor executor.

Definition _executorFailHandler (err kill : Value) : M unit :=
  let* executor := destroy_current err in
  let* t := this_thread in
  addDebug (ringaEvent t) ("Fail: " +:+ show executor) ;;
  with_thread (set_error err) ;;
  call_failHandler err kill ;;
  forget_promise ;;
  if negb (truthy kill) then _executorDoneHandler
  else removeExecutor executor.

Definition executeNext : M unit :=
  let* t := this_thread in
  let executor := all t !! index t in
  (if (0 <? index t)%nat then removeExecutor (all t !! (index t - 1)) else ret tt) ;;
  try_catch
    (addDebug (ringaEvent t) ("Executing: " +:+ show executor) ;;
     match executor with
     | None => type_error "Cannot read property '_execute' of undefined"
     | Some e =>
         emit (Execute e) ;;
         match _execute e with
         | Pending => ret tt
         | CallsDone => _executorDoneHandler
         | CallsFail err kill => _executorFailHandler err kill
         | Throws err => throw err
         end
     end)
    (fun err => _executorFailHandler err VUndefined).

Definition run (ringaEvent doneHandler failHandler : Value) : M unit :=
  let* w := get in
  (if __DEV__ w && running (thread w)
   then throw_error "Thread::run(): you cannot start a thread while it is already running!"
   else ret tt) ;;
  (if __DEV__ w && (length (tf_all (threadFactory (thread w))) =? 0)%nat
   then throw_error "Thread::run(): attempting to run a thread with no executors!"
   else ret tt) ;;
  (if __DEV__ w && negb (truthy ringaEvent)
   then throw_error "Thread::run(): cannot run a thread without a RingaEvent!"
   else ret tt) ;;
  with_thread (fun t => set_failHandler failHandler
                          (set_doneHandler doneHandler (set_ringaEvent ringaEvent t))) ;;
  buildExecutors ;;
  with_thread (set_index 0) ;;
  executeNext.

(** One turn of the scheduler: the oldest queued callback runs. *)
Definition tick : M unit :=
  let* w := get in
  match timers w with
  | [] => ret tt
  | ExecuteNext :: rest => modify (set_timers rest) ;; executeNext
  end.

(** [n] turns of the scheduler. *)
Fixpoint turns (n : nat) : M unit :=
  match n with
  | 0 => ret tt
  | S n' => tick ;; turns n'
  end.

End Engine.

(** ** Notions used in the statements *)

(** What a getter falls back on: the causing event's answer, or [undefined]. *)
Definition inherited (get : RingaEvent -> Value) (e : RingaEvent) : Value :=
  match lastEvent e with
  | Some cause => get cause
  | None => VUndefined
  end.

(** The values no branch of [build] accepts and whose [then] can be read. *)
Definition plain_leftover (x : Executee) : Prop :=
  match x with
  | EBoolean _ | ENumber _ => True
  | EObject o => obj_then o = false /\ obj_array o = false /\ obj_event_factory o = false
  | _ => False
  end.

(** Everything but console output. *)
Definition is_call (x : Effect) : bool :=
  match x with
  | ConsoleLog _ => false
  | _ => true
  end.

Definition calls (xs : list Effect) : list Effect := List.filter is_call xs.

(** What the properties below are about: the store without the plain
    objects, the allocation counter and the console log. *)
Definition core (w : World)
  : bool * gmap loc RingaEvent * gmap loc ExecutorMembers * Thread * list Task * list Effect :=
  (__DEV__ w, events w, executors w, thread w, timers w, calls (out w)).

(** [o.k] for the object at [l], as [get_member] reads it. *)
Definition member (h : gmap loc Obj) (l : loc) (k : string) : Value :=
  match h !! l with
  | Some (OBag b) => default VUndefined (b !! k)
  | _ => VUndefined
  end.

(** The [$debug] member of the object at [d] is falsy or an array. *)
Definition debug_log_ok (h : gmap loc Obj) (d : loc) : Prop :=
  truthy (member h d "$debug") = false \/
  exists a xs, member h d "$debug" = VRef a /\ h !! a = Some (OArr xs).

(** The handle [e] is in the store under its own address [l], and its
    [detail] is an object whose debug log, if it has one, is an array. *)
Definition handle_ready (w : World) (l : loc) (e : RingaEvent) : Prop :=
  events w !! l = Some e /\
  self e = l /\
  exists d, detail e = VRef d /\ debug_log_ok (heap w) d.

(** The store with the handle at [l] replaced. *)
Definition with_event (l : loc) (e : RingaEvent) (w : World) : World :=
  set_events (<[l := e]> (events w)) w.

(** What [_done] leaves behind of the handle: the controller moved from the
    in-flight list to the completed one. *)
Definition uncaught (i : nat) (e : RingaEvent) : RingaEvent :=
  set__catchers (_catchers e ++ [first (fst (splice1 i (catchers e)))])
    (set_catchers (snd (splice1 i (catchers e))) e).

(** The handlers registered on [e] for a notification type. *)
Definition registered (e : RingaEvent) (type : string) : list Value :=
  default [] (listeners e !! type).

(** The logged notifications of a type, oldest first. *)
Definition history (e : RingaEvent) (type : string) : list Notification :=
  filter (fun n => n_type n = type) (dispatchedEvents e).

(** [e] with one more handler registered for a type. *)
Definition listening (type : string) (handler : Value) (e : RingaEvent) : RingaEvent :=
  set_listeners (<[type := registered e type ++ [handler]]> (listeners e)) e.

Definition twice : Value :=
  VError PlainError "RingaEvent::addListener(): the same function was added as a listener twice".

(** The pipeline's handle is the handle at [l], and that one is ready. *)
Definition pipeline_ready (w : World) (l : loc) : Prop :=
  ringaEvent (thread w) = VRef l /\ exists e, handle_ready w l e.

(** What [removeExecutor] tells the inspector. *)
Definition inspector_notice (w : World) (executor : option Executor) : list Effect :=
  if __DEV__ w && negb (__blockRingaEvents (tf_controller (threadFactory (thread w))))
  then [InspectorDispatch executor] else [].

(** The pipeline's list once [removeExecutor] has run. *)
Definition evicted (executor : option Executor) (xs : list Executor) : list Executor :=
  match executor with
  | Some e => if has e xs then remove e xs else xs
  | None => xs
  end.

Section PipelineStates.

Variable toString : Value -> string.

(** The executor the handlers find at the current index, if any. *)
Definition current (w : World) : option Executor :=
  all (thread w) !! index (thread w).

(** What the first step of a handler emits: the destruction of the current
    executor, or, when there is none, the console error that a destroyed
    pipeline suppresses. *)
Definition destroy_notice (w : World) (err : Value) : list Effect :=
  match current w with
  | Some e => [Destroy e]
  | None =>
      if destroyed (thread w) then []
      else [ConsoleError (index (thread w))
              (map (fun e => show toString (Some e)) (all (thread w))) err]
  end.

Definition advanced (w : World) : World :=
  set_thread (set_index (S (index (thread w))) (thread w)) w.

Definition log (xs : list Effect) (w : World) : World := set_out (out w ++ xs) w.

(** The last step of a handler that ends the pipeline's work on an executor:
    the inspector is told and the executor leaves the list. *)
Definition removed (executor : option Executor) (w : World) : World :=
  set_thread (set_all (evicted executor (all (thread w))) (thread w))
    (log (inspector_notice w executor) w).

(** The done-handler from the point where the index has moved on, with
    [doneHandler] the function [dh]. *)
Definition done_tail (dh : loc) (executor : option Executor) (w : World) : World :=
  if (index (thread w) <? length (all (thread w)))%nat
  then set_timers (timers w ++ [ExecuteNext]) w
  else removed executor (log [CallDoneHandler dh (th_id (thread w))] w).

(** The core of the store the done-handler leaves. *)
Definition after_done (dh : loc) (w : World) : World :=
  done_tail dh (current w) (advanced (log (destroy_notice w VUndefined) w)).

(** The core of the store the fail-handler leaves, with [failHandler] the
    function [fh]. *)
Definition after_fail (dh fh : loc) (err kill : Value) (w : World) : World :=
  let w1 := log (destroy_notice w err) w in
  let w2 := set_thread (set_error err (thread w1)) w1 in
  let w3 := log [CallFailHandler fh (th_id (thread w)) err kill] w2 in
  if negb (truthy kill) then after_done dh w3
  else removed (current w) w3.

End PipelineStates.

Section PipelineSteps.

Variable toString : Value -> string.
Variable _execute : Executor -> Behaviour.

(** The store once [executeNext] has evicted the previous executor. *)
Definition previous_evicted (w : World) : World :=
  if (0 <? index (thread w))%nat
  then removed (all (thread w) !! (index (thread w) - 1)) w
  else w.

Definition no_executor : Value :=
  VError TypeError "Cannot read property '_execute' of undefined".

(** The core of the store [executeNext] leaves, with functions [dh], [fh]
    as completion callbacks. *)
Definition after_executeNext (dh fh : loc) (w : World) : World :=
  let w1 := previous_evicted w in
  match current w with
  | None => after_fail toString dh fh no_executor VUndefined w1
  | Some ex =>
      let w2 := log [Execute ex] w1 in
      match _execute ex with
      | Pending => w2
      | CallsDone => after_done toString dh w2
      | CallsFail err kill => after_fail toString dh fh err kill w2
      | Throws err => after_fail toString dh fh err VUndefined w2
      end
  end.

(** [run] below its three guards. *)
Definition run_unguarded (ringaEvent doneHandler failHandler : Value) : M unit :=
  with_thread (fun t => set_failHandler failHandler
                          (set_doneHandler doneHandler (set_ringaEvent ringaEvent t))) ;;
  buildExecutors ;;
  with_thread (set_index 0) ;;
  executeNext toString _execute.

End PipelineSteps.

(** The store as [kill()] leaves it. *)
Definition after_kill (w : World) : World :=
  set_thread (set_running false (thread w)) w.

(** A computation that does not read the running flag: run on the store
    that [kill()] has left, it returns or throws what it does otherwise and
    leaves the same store, the flag apart. *)
Definition ignores_running {A} (c : M A) : Prop :=
  forall w, c (after_kill w) = (fst (c w), after_kill (snd (c w))).

(** Whether another executor remains once the index has moved on. *)
Definition more_remain (w : World) : bool :=
  (S (index (thread w)) <? length (all (thread w)))%nat.

(** The members of the pipeline that say how far it has got. *)
Definition progress (w : World) : nat * list Executor * list Task * bool * bool :=
  (index (thread w), all (thread w), timers w, running (thread w), destroyed (thread w)).

(** The members of the pipeline that no handler assigns, and the store's
    [__DEV__] and handles. *)
Definition fixed_part (w : World)
  : loc * Value * Value * Value * ThreadFactory * bool * gmap loc RingaEvent :=
  (th_id (thread w), ringaEvent (thread w), doneHandler (thread w), failHandler (thread w),
   threadFactory (thread w), __DEV__ w, events w).

#[global] Instance Notification_eq_dec : EqDecision Notification.
Proof. solve_decision. Defined.

#[global] Instance Effect_eq_dec : EqDecision Effect.
Proof. solve_decision. Defined.

(** The injection table the resolver works with: the executor's cached
    table, or the well-known names, under the controller's injections. *)
Definition injection_table (x : ExecutorMembers) (ringaEvent : Value) (e : RingaEvent)
  : gmap string Value :=
  merge_into (injections (x_controller x))
    (match _injections x with
     | Some table => table
     | None => well_known x ringaEvent e
     end).

(** ** Sample objects *)

Definition sample_toString (v : Value) : string :=
  match v with
  | VRef l => "[object " +:+ pretty l +:+ "]"
  | _ => "[error]"
  end.

(** Stand-ins for what is given from outside: every member of
    [Object.prototype] is the function object 90, and a function found as an
    object's own [hasOwnProperty] answers [false]. *)
Definition sample_prototype (k : string) : Value := VRef 90.

Definition never_shadowed (f : loc) (k : string) : M Value := ret (VBool false).

(** Executors that complete later, if ever. *)
Definition all_pending (e : Executor) : Behaviour := Pending.

Definition sample_controller : Controller :=
  mkController (VRef 5) false (Some {[ "someInjection" := VStr "from the controller" ]}).

Definition first_step : Callable := mkCallable "function first() {}" false false [].
Definition second_step : Callable := mkCallable "function second() {}" false false [].

Definition two_steps : list CommandFactory :=
  [mkCommandFactory (EFunction first_step) None; mkCommandFactory (EFunction second_step) None].

(** A store with a fresh pipeline (object 1) over the given factories, owned
    by controller 5; objects 2 and 3 serve as onDone and onFail. *)
Definition sample_world (dev : bool) (factories : list CommandFactory) : World :=
  mkWorld dev ∅ ∅ ∅ (new_Thread 1 "thread" (mkThreadFactory sample_controller factories))
    [] [] 10.

Definition onDone : Value := VRef 2.
Definition onFail : Value := VRef 3.

(** A handle is made and the pipeline is run on it. *)
Definition dispatch_and_run : M unit :=
  let* ev := new_RingaEvent (VStr "go") VUndefined VUndefined VUndefined VUndefined VUndefined in
  run sample_toString all_pending ev onDone onFail.

(** The two-step pipeline in development mode, its first executor in flight. *)
Definition first_in_flight : World :=
  Eval vm_compute in snd (dispatch_and_run (sample_world true two_steps)).

(** The same once the first executor has reported done: the next step is
    queued. *)
Definition step_queued : World :=
  Eval vm_compute in snd (_executorDoneHandler sample_toString first_in_flight).

(** The same, after [kill()]. *)
Definition killed_in_flight : World :=
  Eval vm_compute in snd (kill first_in_flight).

(** The same pipeline torn down: marked destroyed, its executors gone. *)
Definition torn_down : World :=
  Eval vm_compute in
    set_thread (mkThread 1 "thread" (mkThreadFactory sample_controller two_steps)
                  false true [] 0 (VRef 11) onDone onFail VUndefined)
      first_in_flight.

(** A store whose object 10 is a value bag the caller has filled. *)
Definition callers_bag : gmap string Value := {[ "user" := VStr "ann" ]}.

Definition world_with_bag : World :=
  Eval vm_compute in
    set_next 11 (set_heap {[ 10 := OBag callers_bag ]} (sample_world true two_steps)).

(** An executor (object 7) of controller 5, with nothing cached. *)
Definition sample_executor : ExecutorMembers :=
  mkExecutorMembers "executor 7" sample_controller (VRef 1) (VRef 8) (VRef 9) None.

(** A handle (object 11) made on the caller's bag, and the executor. *)
Definition dispatched_with_bag : World :=
  Eval vm_compute in
    set_executors {[ 7 := sample_executor ]}
      (snd (new_RingaEvent (VStr "go") (VRef 10) VUndefined VUndefined VUndefined VUndefined
              world_with_bag)).



(** A handle of type "go" as object 11, its bag object 10, untouched since
    construction: the handle of [first_in_flight] and of [dispatched_with_bag]. *)
Definition running_handle : RingaEvent :=
  Eval vm_compute in fresh_handle 11 (VStr "go") (VRef 10) VUndefined VUndefined VUndefined VUndefined.

Definition bag_after_dispatch : gmap string Value :=
  <["ringaEvent" := VRef 11]> callers_bag.

Definition first_executor : Executor :=
  mkExecutor 12 1 (CommandFunctionWrapper first_step).
Definition second_executor : Executor :=
  mkExecutor 13 1 (CommandFunctionWrapper second_step).





(** The caller's bag and the executor, before any handle is made on the bag;
    and two handles (objects 11 and 12) made on that one bag. *)
Definition bag_and_executor : World :=
  Eval vm_compute in set_executors {[ 7 := sample_executor ]} world_with_bag.

Definition shared_bag : World :=
  Eval vm_compute in
    snd (new_RingaEvent (VStr "again") (VRef 10) VUndefined VUndefined VUndefined VUndefined
           dispatched_with_bag).

(** A handle caught by controllers 20 and 21; an error is recorded on it,
    controller 20 has reported the failure and then done. *)
Definition one_controller_left : World :=
  Eval vm_compute in
    snd ((let* ev := new_RingaEvent (VStr "go") VUndefined VUndefined VUndefined VUndefined VUndefined in
          _caught sample_toString ev (VRef 20) ;;
          _caught sample_toString ev (VRef 21) ;;
          addListener sample_toString ev (VStr FAIL) (VRef 30) ;;
          addListener sample_toString ev (VStr DONE) (VRef 31) ;;
          pushError ev (VStr "boom") ;;
          _fail sample_toString ev (VRef 20) (VStr "boom") VUndefined ;;
          _done sample_toString ev (VRef 20)) (sample_world true two_steps)).

Definition failed_handle : RingaEvent :=
  Eval vm_compute in
    set_dispatchedEvents [mkNotification FAIL VUndefined (VStr "boom") None]
      (set_listeners {[ FAIL := [VRef 30]; DONE := [VRef 31] ]}
         (set__errors (Some [VStr "boom"])
            (set___caught true
               (set__catchers [VRef 20]
                  (set_catchers [VRef 21] running_handle))))).

(** A handle caught by controller 20 alone, which has reported done. *)
Definition all_done : World :=
  Eval vm_compute in
    snd ((let* ev := new_RingaEvent (VStr "go") VUndefined VUndefined VUndefined VUndefined VUndefined in
          _caught sample_toString ev (VRef 20) ;;
          _done sample_toString ev (VRef 20)) (sample_world true two_steps)).

Definition done_handle : RingaEvent :=
  Eval vm_compute in
    set_dispatchedEvents [mkNotification DONE VUndefined VUndefined None]
      (set___caught true (set__catchers [VRef 20] running_handle)).

(** A handle caused by another whose last promise result is "deep". *)
Definition caused_handle : RingaEvent :=
  Eval vm_compute in
    set_lastEvent
      (Some (set__lastPromiseResult (VStr "deep")
               (set__lastPromiseError (VStr "deep error")
                  (fresh_handle 4 (VStr "cause") (VRef 6) VUndefined VUndefined VUndefined VUndefined))))
      running_handle.

Definition world_with_cause : World :=
  Eval vm_compute in with_event 11 caused_handle (sample_world true two_steps).

(** The two-step pipeline run on a handle whose bag switches debugging on;
    its first executor is in flight. *)
Definition verbose_in_flight : World :=
  Eval vm_compute in
    snd ((let* ev := new_RingaEvent (VStr "go") (VRef 10) VUndefined VUndefined VUndefined VUndefined in
          run sample_toString all_pending ev onDone onFail)
           (set_next 11 (set_heap {[ 10 := OBag {[ "debug" := VBool true ]} ]}
                           (sample_world true two_steps)))).


(** ** Further members of the dispatch handle *)

(** [get errors()] *)
Definition errors (e : RingaEvent) : option (list Value) := _errors e.

(** The handle and the handles that caused it, the nearest first. *)
Fixpoint causes (e : RingaEvent) : list RingaEvent :=
  e :: match lastEvent e with
       | Some cause => causes cause
       | None => []
       end.

(** The handles that caused [e], the nearest first. *)
Definition ancestors (e : RingaEvent) : list RingaEvent :=
  match lastEvent e with
  | Some cause => causes cause
  | None => []
  end.

(** The first truthy value of a list, [undefined] when there is none. *)
Definition first_truthy (vs : list Value) : Value :=
  default VUndefined (head (List.filter truthy vs)).

(** What [_caught] leaves behind of the handle. *)
Definition caught_by (controller : Value) (e : RingaEvent) : RingaEvent :=
  set_catchers (catchers e ++ [controller]) (set___caught true e).

(** What [_uncatch] leaves behind of the handle when [indexOf] finds nothing
    and development mode is off: the last catcher has been moved. *)
Definition uncaught_last (e : RingaEvent) : RingaEvent :=
  set__catchers (_catchers e ++ [default VUndefined (last (catchers e))])
    (set_catchers (removelast (catchers e)) e).

(** The handle with one more notification in its log. *)
Definition logged (n : Notification) (e : RingaEvent) : RingaEvent :=
  set_dispatchedEvents (dispatchedEvents e ++ [n]) e.

(** What a live listener receives, and what is kept for late subscribers. *)
Definition live (type : string) (detail error kill : Value) : Notification :=
  mkNotification type detail error (Some kill).

Definition kept (type : string) (detail error : Value) : Notification :=
  mkNotification type detail error None.

(** The messages in the debug log of the object at [d]. *)
Definition debug_log (h : gmap loc Obj) (d : loc) : list Value :=
  match member h d "$debug" with
  | VRef a => match h !! a with Some (OArr xs) => xs | _ => [] end
  | _ => []
  end.

(** A value of [detail.debug] that lets a message of the default level 0
    through: anything but [undefined] and the numbers from 0 upwards. *)
Definition lets_through (v : Value) : Prop :=
  v <> VUndefined /\ forall z, v = VNum z -> (z < 0)%Z.

(** The values that are not objects, [undefined] apart. *)
Definition primitive (v : Value) : bool :=
  match v with
  | VNull | VBool _ | VNum _ | VNaN | VStr _ => true
  | _ => false
  end.

(** ** Done listeners *)

(** What the resolver throws at its first read of an executor that is
    [undefined]. *)
Definition no_executor_given : Value :=
  VError TypeError "Cannot read property '_injections' of undefined".

Section Subscriptions.

Variable toString : Value -> string.
Variable Object_prototype : string -> Value.
Variable call_hasOwnProperty : loc -> string -> M Value.

(** Given from outside: the parameter names a function declares, which is
    what [getArgNames] of util/function.js reads off it, and the call
    [handler.apply(undefined, args)]. *)
Variable declared : Value -> list string.
Variable apply : Value -> list Value -> M unit.

(** The arrow function that [addDoneListener] registers in the handler's
    place. *)
Definition done_callback (this handler : Value) : M unit :=
  let argNames := getArgNames (declared handler) in
  let* args := buildArgumentsFromRingaEvent Object_prototype call_hasOwnProperty
                 VUndefined argNames this in
  apply handler args.

(** [addListener] and [_dispatchEvent] (and [_done] and [_fail] through it)
    are written above for handles whose listeners are all functions of the
    caller's, whose calls [call_listener] records; the store does not record
    which listeners are arrow functions made by [addDoneListener].  For a
    handle that has such a listener, here are the two methods word for word
    with what the call of a listener does as a parameter. *)
Definition addListener_calling (call : Value -> Notification -> M unit)
    (this : Value) (eventType : Value) (handler : Value) : M Value :=
  let* w := get in
  (if __DEV__ w && negb (match eventType with VStr _ => true | _ => false end)
   then throw_error ("RingaEvent::addListener(): invalid eventType provided!"
                     +:+ template toString eventType)
   else ret tt) ;;
  let key := template toString eventType in
  let* e := get_event this in
  match listeners_at e key with
  | SlotInherited => type_error "indexOf is not a function"
  | slot =>
      let hs := match slot with SlotArray hs => hs | _ => [] end in
      put_event (set_listeners (<[key := hs]> (listeners e)) e) ;;
      (if bool_decide (indexOf hs handler = None) then ret tt
       else throw_error "RingaEvent::addListener(): the same function was added as a listener twice") ;;
      update_event this (fun e => set_listeners (<[key := hs ++ [handler]]> (listeners e)) e) ;;
      let* e := get_event this in
      forEach (fun n => if strict_eq (VStr (n_type n)) eventType
                        then call handler n else ret tt)
              (dispatchedEvents e) ;;
      ret this
  end.

Definition _dispatchEvent_calling (call : Value -> Notification -> M unit)
    (this : Value) (type : string) (detail error kill : Value) : M unit :=
  let* e := get_event this in
  let slot := listeners_at e type in
  put_event (set_dispatchedEvents
               (dispatchedEvents e ++ [mkNotification type detail error None]) e) ;;
  match slot with
  | SlotUndefined => ret tt
  | SlotInherited => type_error "listeners.forEach is not a function"
  | SlotArray hs =>
      forEach (fun h => call h (mkNotification type detail error (Some kill))) hs
  end.

(** The call of a listener where the function at [callback] is the arrow
    function made for [handler] on the handle [this], and every other
    listener a function of the caller's. *)
Definition call_done_listener (callback : loc) (this handler : Value)
    (h : Value) (n : Notification) : M unit :=
  if bool_decide (h = VRef callback) then done_callback this handler
  else call_listener h n.

(** [addDoneListener(handler)].  The arrow function is a new function object
    at every call, with the handle and the handler in its closure. *)
Definition addDoneListener (this handler : Value) : M Value :=
  let* callback := alloc in
  addListener_calling (call_done_listener callback this handler)
    this (VStr DONE) (VRef callback).

End Subscriptions.

(** ** The names the resolver injects by itself *)

(** A handle whose value bag, if its [detail] is one, leaves
    [hasOwnProperty] to [Object.prototype]. *)
Definition plain_detail (w : World) (e : RingaEvent) : Prop :=
  forall d bag, detail e = VRef d -> heap w !! d = Some (OBag bag) ->
                bag !! "hasOwnProperty" = None.

Definition well_known_names : list string :=
  ["$controller"; "$thread"; "$ringaEvent"; "$customEvent"; "$target"; "$detail";
   "done"; "fail"; "$lastPromiseResult"; "$lastPromiseError"].

(** [ringaEvent.customEvent], a member that [dispatch] sets. *)
Definition customEvent_ref (e : RingaEvent) : Value :=
  match customEvent e with Some ce => ce_ref ce | None => VUndefined end.

(** ** Notions for the pipeline's start *)

(** The executees [build] makes an executor of. *)
Definition supported (x : Executee) : bool :=
  match x with
  | EString _ | EFunction _ => true
  | EObject o => obj_then o || obj_array o || obj_event_factory o
  | _ => false
  end.

(** What [build] throws for the others. *)
Definition build_error (x : Executee) : Value :=
  match x with
  | EUndefined | ENull =>
      VError TypeError ("Cannot read property 'then' of " +:+ to_string x)
  | _ => unsupported x
  end.

(** The members of the pipeline that [buildExecutors] leaves alone; of the
    factories it may only fill in the cached argument names. *)
Definition thread_frame (t : Thread) :=
  (th_id t, name t, running t, destroyed t, index t, ringaEvent t, doneHandler t,
   failHandler t, error t, tf_controller (threadFactory t),
   map executee (tf_all (threadFactory t))).

Definition store_frame (w : World) :=
  (__DEV__ w, heap w, events w, executors w, timers w).

Definition is_introspection (x : Effect) : Prop :=
  exists f, x = GetArgNames f.

(** The pipeline as [run] has set it up before it builds the executors. *)
Definition set_up (ev dh fh : Value) (w : World) : World :=
  set_thread (set_failHandler fh (set_doneHandler dh (set_ringaEvent ev (thread w)))) w.

(** The body of the loop of [buildExecutors], for the factory at index [i]. *)
Definition build_step (i : nat) : M unit :=
  let* t := this_thread in
  match tf_all (threadFactory t) !! i with
  | None => ret tt
  | Some executorFactory =>
      let* built := build executorFactory (th_id t) in
      let '(executor, executorFactory') := built in
      with_thread (fun t =>
        set_all (add executor (all t))
          (set_threadFactory
             (mkThreadFactory (tf_controller (threadFactory t))
                (<[i := executorFactory']> (tf_all (threadFactory t)))) t))
  end.

(** ** Further sample objects *)

(** Outside development mode: a handle (object 11, its bag object 10) caught
    by controllers 20 and 21. *)
Definition caught_by_two : World :=
  Eval vm_compute in
    snd ((let* ev := new_RingaEvent (VStr "go") VUndefined VUndefined VUndefined VUndefined VUndefined in
          _caught sample_toString ev (VRef 20) ;;
          _caught sample_toString ev (VRef 21)) (sample_world false two_steps)).

Definition handle_of_two : RingaEvent :=
  Eval vm_compute in
    set___caught true (set_catchers [VRef 20; VRef 21] running_handle).

(** A handle caught by controller 20, with listener 30 for FAIL and
    listener 31 for DONE. *)
Definition catch_and_listen : M unit :=
  let* ev := new_RingaEvent (VStr "go") VUndefined VUndefined VUndefined VUndefined VUndefined in
  _caught sample_toString ev (VRef 20) ;;
  addListener sample_toString ev (VStr FAIL) (VRef 30) ;;
  addListener sample_toString ev (VStr DONE) (VRef 31) ;;
  ret tt.

(** In development mode, and outside it. *)
Definition one_catcher_listening : World :=
  Eval vm_compute in snd (catch_and_listen (sample_world true two_steps)).

Definition one_catcher_listening_quiet : World :=
  Eval vm_compute in snd (catch_and_listen (sample_world false two_steps)).

Definition listening_handle : RingaEvent :=
  Eval vm_compute in
    set_listeners {[ FAIL := [VRef 30]; DONE := [VRef 31] ]}
      (set___caught true (set_catchers [VRef 20] running_handle)).

(** The store of [dispatched_with_bag] with a second handle (object 13, its
    bag object 12). *)
Definition two_handles : World :=
  Eval vm_compute in
    snd (new_RingaEvent (VStr "again") VUndefined VUndefined VUndefined VUndefined VUndefined
           dispatched_with_bag).

Definition second_handle : RingaEvent :=
  Eval vm_compute in
    fresh_handle 13 (VStr "again") (VRef 12) VUndefined VUndefined VUndefined VUndefined.

(** Executors that throw, and executors that are done before [_execute]
    returns. *)
Definition all_throwing (e : Executor) : Behaviour := Throws (VStr "bang").

Definition all_done_at_once (e : Executor) : Behaviour := CallsDone.

Definition one_step : list CommandFactory :=
  [mkCommandFactory (EFunction first_step) None].

Definition one_step_then_nothing : list CommandFactory :=
  [mkCommandFactory (EFunction first_step) None; mkCommandFactory EUndefined None].

(** Stores with a handle (object 11) and a pipeline not yet run. *)
Definition dispatch_only : M Value :=
  new_RingaEvent (VStr "go") VUndefined VUndefined VUndefined VUndefined VUndefined.

Definition before_run_of_two : World :=
  Eval vm_compute in snd (dispatch_only (sample_world true two_steps)).

Definition before_run_of_one : World :=
  Eval vm_compute in snd (dispatch_only (sample_world true one_step)).

Definition before_run_of_a_bad_list : World :=
  Eval vm_compute in snd (dispatch_only (sample_world true one_step_then_nothing)).

(** The two-step pipeline, its first executor in flight, with a promise and
    a value of the caller's in the bag. *)
Definition promise_in_the_bag : gmap string Value :=
  {[ "ringaEvent" := VRef 11; "_promise" := VRef 50; "user" := VStr "ann" ]}.

Definition promise_pending : World :=
  Eval vm_compute in set_heap {[ 10 := OBag promise_in_the_bag ]} first_in_flight.

(** The store of [two_handles] once executor 7 has resolved an empty list of
    names against the first handle. *)
Definition after_first_resolution : World :=
  Eval vm_compute in
    snd (buildArgumentsFromRingaEvent sample_prototype never_shadowed
           (VRef 7) [] (VRef 11) two_handles).
(** * Reasoning about computations *)

Lemma bind_eval {A B} (c : M A) (k : A -> M B) (w w' : World) (a : A) :
  c w = (Ret a, w') -> bind c k w = k a w'.
Proof. intros H. unfold bind. rewrite H. reflexivity. Qed.

Lemma try_catch_returns {A} (c : M A) (h : Value -> M A) (w w' : World) (a : A) :
  c w = (Ret a, w') -> try_catch c h w = (Ret a, w').
Proof. intros H. unfold try_catch. rewrite H. reflexivity. Qed.

Lemma try_catch_catches {A} (c : M A) (h : Value -> M A) (w w' : World) (e : Value) :
  c w = (Throw e, w') -> try_catch c h w = h e w'.
Proof. intros H. unfold try_catch. rewrite H. reflexivity. Qed.

(** [step tac]: the first computation of a sequence returns, by [tac]. *)
Ltac step tac := erewrite bind_eval; [|tac].

(** Reduction of the record projections and setters only. *)
Ltac fields :=
  cbn [__DEV__ heap events executors thread timers out next set_heap set_events set_executors set_thread set_timers set_out set_next th_id name threadFactory running destroyed all index ringaEvent doneHandler failHandler error set_threadFactory set_running set_all set_index set_ringaEvent set_doneHandler set_failHandler set_error negb andb app log advanced removed].

(** * Plain objects and the console *)

Lemma calls_app xs ys : calls (xs ++ ys) = calls xs ++ calls ys.
Proof. apply List.filter_app. Qed.

Lemma calls_console xs message : calls (xs ++ [ConsoleLog message]) = calls xs.
Proof. rewrite calls_app. cbn. apply app_nil_r. Qed.

Lemma elem_of_calls x xs : x ∈ calls xs <-> x ∈ xs /\ is_call x = true.
Proof. unfold calls. rewrite !list_elem_of_In. apply List.filter_In. Qed.

Lemma get_member_ref w l k : get_member (VRef l) k w = (Ret (member (heap w) l k), w).
Proof.
  unfold get_member, member, bind, get, ret.
  destruct (heap w !! l) as [[b|xs]|]; reflexivity.
Qed.

Lemma push_array w l xs v :
  heap w !! l = Some (OArr xs) ->
  push (VRef l) v w = (Ret tt, set_heap (<[l := OArr (xs ++ [v])]> (heap w)) w).
Proof.
  intros H. unfold push. step ltac:(reflexivity). rewrite H. reflexivity.
Qed.

Lemma member_is_bag h d k :
  member h d k <> VUndefined -> exists bag, h !! d = Some (OBag bag).
Proof.
  unfold member. destruct (h !! d) as [[bag|xs]|]; try congruence. eauto.
Qed.

Lemma get_event_at w l e :
  events w !! l = Some e -> get_event (VRef l) w = (Ret e, w).
Proof. intros He. unfold get_event, bind, get, ret. rewrite He. reflexivity. Qed.

Lemma put_event_at w e : put_event e w = (Ret tt, with_event (self e) e w).
Proof. reflexivity. Qed.

Lemma with_event_twice l e1 e2 w :
  with_event l e2 (with_event l e1 w) = with_event l e2 w.
Proof.
  unfold with_event. destruct w. unfold set_events. cbn. f_equal. apply insert_insert_eq.
Qed.

(** Two stores with the same core keep the same core under the changes
    the engine makes outside plain objects. *)
Lemma core_inv a b :
  core a = core b ->
  __DEV__ a = __DEV__ b /\ events a = events b /\ executors a = executors b /\
  thread a = thread b /\ timers a = timers b /\ calls (out a) = calls (out b).
Proof. unfold core. intros H. injection H as -> -> -> -> -> ->. auto 10. Qed.

Lemma core_with_event a b l e :
  core a = core b -> core (with_event l e a) = core (with_event l e b).
Proof.
  intros H. apply core_inv in H as (Hd & He & Hx & Ht & Hm & Ho).
  unfold core, with_event. fields. rewrite Hd, He, Hx, Ht, Hm, Ho. reflexivity.
Qed.

Lemma core_log a b xs :
  core a = core b -> core (log xs a) = core (log xs b).
Proof.
  intros H. apply core_inv in H as (Hd & He & Hx & Ht & Hm & Ho).
  unfold core, log. fields. rewrite !calls_app, Hd, He, Hx, Ht, Hm, Ho. reflexivity.
Qed.

(** * Properties *)

(** ** The recursive last-promise getters *)

Section Getters.

(** A getter's answer is never a falsy value other than [undefined]. *)
Lemma lastPromiseResult_truthy_or_undefined :
  forall e, truthy (lastPromiseResult e) = true \/ lastPromiseResult e = VUndefined.
Proof.
  fix IH 1. intros e. destruct e as [? ? ? ? ? ? ? ? ? ? ? ? ? ? ? ? ? ? ? own ? cause].
  cbn [lastPromiseResult _lastPromiseResult lastEvent].
  destruct (truthy own) eqn:Hown.
  - left. exact Hown.
  - destruct cause as [c|].
    + apply IH.
    + right. reflexivity.
Qed.

Lemma lastPromiseError_truthy_or_undefined :
  forall e, truthy (lastPromiseError e) = true \/ lastPromiseError e = VUndefined.
Proof.
  fix IH 1. intros e. destruct e as [? ? ? ? ? ? ? ? ? ? ? ? ? ? ? ? ? ? ? ? own cause].
  cbn [lastPromiseError _lastPromiseError lastEvent].
  destruct (truthy own) eqn:Hown.
  - left. exact Hown.
  - destruct cause as [c|].
    + apply IH.
    + right. reflexivity.
Qed.

Lemma lastPromiseResult_unfold e :
  lastPromiseResult e =
  if truthy (_lastPromiseResult e) then _lastPromiseResult e
  else match lastEvent e with
       | Some cause => lastPromiseResult cause
       | None => VUndefined
       end.
Proof. destruct e; reflexivity. Qed.

Lemma lastPromiseError_unfold e :
  lastPromiseError e =
  if truthy (_lastPromiseError e) then _lastPromiseError e
  else match lastEvent e with
       | Some cause => lastPromiseError cause
       | None => VUndefined
       end.
Proof. destruct e; reflexivity. Qed.

(** What a getter answers in terms of what is stored: the own value of the
    nearest handle of the chain, the handle itself first, that holds a
    truthy one. *)
Lemma lastPromiseResult_nearest :
  forall e, lastPromiseResult e = first_truthy (map _lastPromiseResult (causes e)).
Proof.
  fix IH 1. intros e. rewrite lastPromiseResult_unfold.
  destruct e as [? ? ? ? ? ? ? ? ? ? ? ? ? ? ? ? ? ? ? own ? cause].
  cbn [causes _lastPromiseResult lastEvent map]. unfold first_truthy. cbn [List.filter].
  destruct (truthy own); [reflexivity|].
  destruct cause as [c|]; [|reflexivity]. rewrite (IH c). reflexivity.
Qed.

Lemma lastPromiseError_nearest :
  forall e, lastPromiseError e = first_truthy (map _lastPromiseError (causes e)).
Proof.
  fix IH 1. intros e. rewrite lastPromiseError_unfold.
  destruct e as [? ? ? ? ? ? ? ? ? ? ? ? ? ? ? ? ? ? ? ? own cause].
  cbn [causes _lastPromiseError lastEvent map]. unfold first_truthy. cbn [List.filter].
  destruct (truthy own); [reflexivity|].
  destruct cause as [c|]; [|reflexivity]. rewrite (IH c). reflexivity.
Qed.

(** The answer of a handle whose own value is falsy, from what its causes
    store. *)
Lemma unset_result_answer e :
  truthy (_lastPromiseResult e) = false ->
  lastPromiseResult e = inherited lastPromiseResult e /\
  lastPromiseResult e = first_truthy (map _lastPromiseResult (ancestors e)) /\
  (forall c, lastEvent e = Some c -> truthy (_lastPromiseResult c) = true ->
             lastPromiseResult e = _lastPromiseResult c) /\
  (lastEvent e = None -> lastPromiseResult e = VUndefined) /\
  (_lastPromiseResult e <> VUndefined -> lastPromiseResult e <> _lastPromiseResult e).
Proof.
  intros Hv.
  assert (Hget : lastPromiseResult e = inherited lastPromiseResult e).
  { rewrite lastPromiseResult_unfold, Hv. reflexivity. }
  split; [exact Hget|]. unfold inherited, ancestors in *.
  split; [|split; [|split]].
  - rewrite Hget. destruct (lastEvent e) as [c|]; [apply lastPromiseResult_nearest|reflexivity].
  - intros c Hc Ht. rewrite Hget, Hc, lastPromiseResult_unfold, Ht. reflexivity.
  - intros Hc. rewrite Hget, Hc. reflexivity.
  - intros Hne Heq. rewrite Hget in Heq.
    destruct (lastEvent e) as [c|]; [|congruence].
    destruct (lastPromiseResult_truthy_or_undefined c) as [Ht|Hu]; congruence.
Qed.

Lemma unset_error_answer e :
  truthy (_lastPromiseError e) = false ->
  lastPromiseError e = inherited lastPromiseError e /\
  lastPromiseError e = first_truthy (map _lastPromiseError (ancestors e)) /\
  (forall c, lastEvent e = Some c -> truthy (_lastPromiseError c) = true ->
             lastPromiseError e = _lastPromiseError c) /\
  (lastEvent e = None -> lastPromiseError e = VUndefined) /\
  (_lastPromiseError e <> VUndefined -> lastPromiseError e <> _lastPromiseError e).
Proof.
  intros Hv.
  assert (Hget : lastPromiseError e = inherited lastPromiseError e).
  { rewrite lastPromiseError_unfold, Hv. reflexivity. }
  split; [exact Hget|]. unfold inherited, ancestors in *.
  split; [|split; [|split]].
  - rewrite Hget. destruct (lastEvent e) as [c|]; [apply lastPromiseError_nearest|reflexivity].
  - intros c Hc Ht. rewrite Hget, Hc, lastPromiseError_unfold, Ht. reflexivity.
  - intros Hc. rewrite Hget, Hc. reflexivity.
  - intros Hne Heq. rewrite Hget in Heq.
    destruct (lastEvent e) as [c|]; [|congruence].
    destruct (lastPromiseError_truthy_or_undefined c) as [Ht|Hu]; congruence.
Qed.

(** C10. After the own last-promise-result (respectively last-promise-error)
    of a handle has been set to a falsy value, the getter answers as if
    nothing was set.  With a causing event it answers with that event's
    getter, which is the value stored on the nearest handle up the chain of
    causes that stores a truthy one: the causing event's stored value when
    that is truthy.  Without a causing event, or with nothing truthy stored
    up the chain, it answers [undefined].  The answer is never the stored
    value when that is [false], [0], [""], [null] or NaN. *)
Theorem C10_falsy_own_value_is_unset (w : World) (l : loc) (e : RingaEvent) (v : Value) :
  events w !! l = Some e ->
  self e = l ->
  truthy v = false ->
  (exists e' w',
      set_lastPromiseResult (VRef l) v w = (Ret tt, w') /\
      events w' !! l = Some e' /\
      _lastPromiseResult e' = v /\
      _lastPromiseError e' = _lastPromiseError e /\
      lastEvent e' = lastEvent e /\
      lastPromiseResult e' = inherited lastPromiseResult e /\
      lastPromiseResult e' = first_truthy (map _lastPromiseResult (ancestors e)) /\
      (forall c, lastEvent e = Some c -> truthy (_lastPromiseResult c) = true ->
                 lastPromiseResult e' = _lastPromiseResult c) /\
      (lastEvent e = None -> lastPromiseResult e' = VUndefined) /\
      (v <> VUndefined -> lastPromiseResult e' <> v)) /\
  (exists e' w',
      set_lastPromiseError (VRef l) v w = (Ret tt, w') /\
      events w' !! l = Some e' /\
      _lastPromiseError e' = v /\
      _lastPromiseResult e' = _lastPromiseResult e /\
      lastEvent e' = lastEvent e /\
      lastPromiseError e' = inherited lastPromiseError e /\
      lastPromiseError e' = first_truthy (map _lastPromiseError (ancestors e)) /\
      (forall c, lastEvent e = Some c -> truthy (_lastPromiseError c) = true ->
                 lastPromiseError e' = _lastPromiseError c) /\
      (lastEvent e = None -> lastPromiseError e' = VUndefined) /\
      (v <> VUndefined -> lastPromiseError e' <> v)).
Proof.
  intros Hl Hself Hv. split.
  - exists (set__lastPromiseResult v e).
    eexists. unfold set_lastPromiseResult, update_event, get_event, put_event, bind, get, ret, modify.
    rewrite Hl. cbn [self set__lastPromiseResult]. rewrite Hself.
    split; [reflexivity|]. cbn [events set_events].
    rewrite lookup_insert_eq.
    split; [reflexivity|]. split; [reflexivity|]. split; [reflexivity|].
    split; [reflexivity|].
    exact (unset_result_answer (set__lastPromiseResult v e) Hv).
  - exists (set__lastPromiseError v e).
    eexists. unfold set_lastPromiseError, update_event, get_event, put_event, bind, get, ret, modify.
    rewrite Hl. cbn [self set__lastPromiseError]. rewrite Hself.
    split; [reflexivity|]. cbn [events set_events].
    rewrite lookup_insert_eq.
    split; [reflexivity|]. split; [reflexivity|]. split; [reflexivity|].
    split; [reflexivity|].
    exact (unset_error_answer (set__lastPromiseError v e) Hv).
Qed.

End Getters.

(** ** The factory's dispatch on the executee's shape *)

Section Factory.

Implicit Types (w : World) (this : CommandFactory) (thread : loc).

Lemma build_string w cached thread name :
  build (mkCommandFactory (EString name) cached) thread w =
  (Ret (mkExecutor (next w) thread (CommandEventWrapper (NewRingEventFactory name)),
        mkCommandFactory (EString name) cached),
   set_next (S (next w)) w).
Proof. reflexivity. Qed.

Lemma build_thenable w this thread :
  (forall name, executee this <> EString name) ->
  then_is_function (executee this) = Some true ->
  build this thread w =
  (Ret (mkExecutor (next w) thread (CommandPromiseWrapper (executee this)), this),
   set_next (S (next w)) w).
Proof.
  intros Hs Ht. unfold build. destruct (executee this) eqn:E; try discriminate.
  - rewrite Ht. reflexivity.
  - rewrite Ht. reflexivity.
Qed.

(** First build of a command class: the instance is made with no argument
    names, [execute] is introspected, and the names are kept by the factory
    and given to the instance. *)
Lemma build_command_first w thread f :
  fn_then f = false -> fn_command f = true ->
  build (mkCommandFactory (EFunction f) None) thread w =
  (Ret (mkExecutor (next w) thread (CommandInstance f None (Some (fn_execute_args f))),
        mkCommandFactory (EFunction f) (Some (fn_execute_args f))),
   set_out (out w ++ [GetArgNames f]) (set_next (S (next w)) w)).
Proof.
  intros Ht Hc. unfold build. cbn [executee then_is_function]. rewrite Ht, Hc.
  destruct w; reflexivity.
Qed.

(** Later builds hand the cached names to the constructor and introspect
    nothing. *)
Lemma build_command_cached w thread f names :
  fn_then f = false -> fn_command f = true ->
  build (mkCommandFactory (EFunction f) (Some names)) thread w =
  (Ret (mkExecutor (next w) thread (CommandInstance f (Some names) None),
        mkCommandFactory (EFunction f) (Some names)),
   set_next (S (next w)) w).
Proof.
  intros Ht Hc. unfold build. cbn [executee then_is_function]. rewrite Ht, Hc.
  reflexivity.
Qed.

Lemma build_function w cached thread f :
  fn_then f = false -> fn_command f = false ->
  build (mkCommandFactory (EFunction f) cached) thread w =
  (Ret (mkExecutor (next w) thread (CommandFunctionWrapper f),
        mkCommandFactory (EFunction f) cached),
   set_next (S (next w)) w).
Proof.
  intros Ht Hc. unfold build. cbn [executee then_is_function]. rewrite Ht, Hc.
  reflexivity.
Qed.

Lemma build_array w cached thread o :
  obj_then o = false -> obj_array o = true ->
  build (mkCommandFactory (EObject o) cached) thread w =
  (Ret (mkExecutor (next w) thread (CommandsParallelWrapper o),
        mkCommandFactory (EObject o) cached),
   set_next (S (next w)) w).
Proof.
  intros Ht Ha. unfold build. cbn [executee then_is_function]. rewrite Ht, Ha.
  reflexivity.
Qed.

Lemma build_event_factory w cached thread o :
  obj_then o = false -> obj_array o = false -> obj_event_factory o = true ->
  build (mkCommandFactory (EObject o) cached) thread w =
  (Ret (mkExecutor (next w) thread (CommandEventWrapper (GivenRingEventFactory o)),
        mkCommandFactory (EObject o) cached),
   set_next (S (next w)) w).
Proof.
  intros Ht Ha Hf. unfold build. cbn [executee then_is_function]. rewrite Ht, Ha, Hf.
  reflexivity.
Qed.

(** Booleans, numbers and objects that are neither thenable, nor arrays, nor
    event factories reach the final [throw], whose message gives [typeof] and
    the value. *)
Lemma build_unsupported w cached thread x :
  plain_leftover x ->
  build (mkCommandFactory x cached) thread w = (Throw (unsupported x), w).
Proof.
  destruct x; cbn [plain_leftover]; try contradiction; try reflexivity.
  intros (Ht & Ha & Hf). unfold build. cbn [executee then_is_function].
  rewrite Ht, Ha, Hf. reflexivity.
Qed.

(** C3. [undefined] and [null] are the values the last case of [build] misses:
    [build] stops at the read of their [then] member with a TypeError, before
    any shape but the string is tested, and the error that names [typeof] is
    never made. *)
Theorem C3_build_nullish_throws_TypeError w cached thread :
  build (mkCommandFactory EUndefined cached) thread w =
    (Throw (VError TypeError "Cannot read property 'then' of undefined"), w) /\
  build (mkCommandFactory ENull cached) thread w =
    (Throw (VError TypeError "Cannot read property 'then' of null"), w) /\
  VError TypeError "Cannot read property 'then' of undefined" <> unsupported EUndefined /\
  VError TypeError "Cannot read property 'then' of null" <> unsupported ENull.
Proof.
  split; [reflexivity|]. split; [reflexivity|]. split; discriminate.
Qed.

End Factory.

(** ** Argument resolution *)

Section Resolver.

Variable Object_prototype : string -> Value.
Variable call_hasOwnProperty : loc -> string -> M Value.

Lemma mapM_pure {A B} (f : A -> M B) (g : A -> B) (xs : list A) (w : World) :
  (forall x, x ∈ xs -> f x w = (Ret (g x), w)) ->
  mapM f xs w = (Ret (map g xs), w).
Proof.
  induction xs as [|x xs IH]; intros Hf; [reflexivity|].
  cbn [mapM map]. unfold bind at 1. rewrite (Hf x) by left.
  unfold bind at 1. rewrite IH by (intros y Hy; apply Hf; right; exact Hy).
  reflexivity.
Qed.

(** A plain object without a member of its own named hasOwnProperty answers
    with [Object.prototype]'s test. *)
Lemma has_own_plain (b : gmap string Value) (k : string) (w : World) :
  b !! "hasOwnProperty" = None ->
  has_own call_hasOwnProperty b k w = (Ret (bool_decide (is_Some (b !! k))), w).
Proof. intros Hplain. unfold has_own. rewrite Hplain. reflexivity. Qed.

(** With a member of its own of that name that is no object, the call is a
    TypeError, whatever the name asked for. *)
Lemma has_own_shadowed (b : gmap string Value) (k : string) (v : Value) (w : World) :
  b !! "hasOwnProperty" = Some v ->
  (forall f, v <> VRef f) ->
  has_own call_hasOwnProperty b k w =
  (Throw (VError TypeError "hasOwnProperty is not a function"), w).
Proof.
  intros Hshadow Hv. unfold has_own. rewrite Hshadow.
  destruct v; try reflexivity. exfalso. exact (Hv l eq_refl).
Qed.

(** One name that is a member of the bag. *)
Lemma resolve_from_bag (w : World) (x : ExecutorMembers) (table : gmap string Value)
    (names : list string) (l d : loc) (e : RingaEvent) (bag : gmap string Value)
    (n : string) (v : Value) :
  events w !! l = Some e ->
  detail e = VRef d ->
  heap w !! d = Some (OBag bag) ->
  bag !! "hasOwnProperty" = None ->
  bag !! n = Some v ->
  resolve Object_prototype call_hasOwnProperty x table names (VRef l) n w = (Ret v, w).
Proof.
  intros He Hd Hb Hplain Hn. unfold resolve.
  step ltac:(apply get_event_at; exact He). rewrite Hd. cbn [truthy].
  step ltac:(unfold hasOwnProperty; step ltac:(reflexivity); rewrite Hb;
             apply has_own_plain; exact Hplain).
  rewrite bool_decide_eq_true_2 by eauto.
  unfold get_property. step ltac:(reflexivity). rewrite Hb. unfold read. rewrite Hn.
  reflexivity.
Qed.

(** One name, against a handle whose [detail] is a plain object. *)
Lemma resolve_bag_then_table (w : World) (x : ExecutorMembers) (table : gmap string Value)
    (names : list string) (l d : loc) (e : RingaEvent) (bag : gmap string Value) (n : string) :
  events w !! l = Some e ->
  detail e = VRef d ->
  heap w !! d = Some (OBag bag) ->
  bag !! "hasOwnProperty" = None ->
  table !! "hasOwnProperty" = None ->
  resolve Object_prototype call_hasOwnProperty x table names (VRef l) n w =
  (match bag !! n with
   | Some v => Ret v
   | None => match table !! n with
             | Some v => Ret v
             | None => Throw (VError PlainError (unresolved_message x n names e))
             end
   end, w).
Proof.
  intros He Hd Hb Hplain Htable.
  destruct (bag !! n) as [v|] eqn:Hn.
  { eapply resolve_from_bag; eassumption. }
  unfold resolve.
  step ltac:(apply get_event_at; exact He). rewrite Hd. cbn [truthy].
  step ltac:(unfold hasOwnProperty; step ltac:(reflexivity); rewrite Hb;
             apply has_own_plain; exact Hplain).
  rewrite Hn, bool_decide_eq_false_2 by (intros [? ?]; discriminate).
  step ltac:(apply has_own_plain; exact Htable).
  unfold read. destruct (table !! n) as [v|].
  - rewrite bool_decide_eq_true_2 by eauto. reflexivity.
  - rewrite bool_decide_eq_false_2 by (intros [? ?]; discriminate). reflexivity.
Qed.

(** The resolver up to the loop over the declared names. *)
Lemma buildArguments_steps (w : World) (xl l : loc) (x : ExecutorMembers) (e : RingaEvent)
    (names : list string) :
  executors w !! xl = Some x ->
  events w !! l = Some e ->
  buildArgumentsFromRingaEvent Object_prototype call_hasOwnProperty (VRef xl) names (VRef l) w =
  mapM (resolve Object_prototype call_hasOwnProperty x (injection_table x (VRef l) e) names
          (VRef l)) names
    (set_executors
       (<[xl := set__injections (Some (injection_table x (VRef l) e)) x]> (executors w)) w).
Proof.
  intros Hx He. unfold buildArgumentsFromRingaEvent.
  step ltac:(unfold get_executor; step ltac:(reflexivity); rewrite Hx; reflexivity).
  assert (Htable :
            (match _injections x with
             | Some table => ret table
             | None => let* e := get_event (VRef l) in ret (well_known x (VRef l) e)
             end) w =
            (Ret (match _injections x with
                  | Some table => table
                  | None => well_known x (VRef l) e
                  end), w)).
  { destruct (_injections x); [reflexivity|].
    unfold get_event. step ltac:(step ltac:(reflexivity); rewrite He; reflexivity).
    reflexivity. }
  step ltac:(exact Htable). cbv zeta.
  step ltac:(reflexivity). reflexivity.
Qed.

(** A bag with a member of its own named hasOwnProperty that is no object:
    the resolver throws a TypeError at the first declared name, whatever the
    bag and the injections hold otherwise. *)
Lemma buildArguments_with_shadowing_bag (w : World) (xl l d : loc) (x : ExecutorMembers)
    (e : RingaEvent) (bag : gmap string Value) (v : Value) (n : string) (names : list string) :
  executors w !! xl = Some x ->
  events w !! l = Some e ->
  detail e = VRef d ->
  heap w !! d = Some (OBag bag) ->
  bag !! "hasOwnProperty" = Some v ->
  (forall f, v <> VRef f) ->
  exists w',
    buildArgumentsFromRingaEvent Object_prototype call_hasOwnProperty
      (VRef xl) (n :: names) (VRef l) w =
    (Throw (VError TypeError "hasOwnProperty is not a function"), w').
Proof.
  intros Hx He Hd Hb Hshadow Hv.
  rewrite (buildArguments_steps _ _ _ _ _ _ Hx He).
  eexists. cbn [mapM]. unfold bind at 1. unfold resolve.
  erewrite bind_eval; [|apply get_event_at; exact He].
  rewrite Hd. cbn [truthy]. unfold bind at 1. unfold hasOwnProperty.
  erewrite bind_eval; [|reflexivity]. cbn [heap set_executors]. rewrite Hb.
  rewrite (has_own_shadowed bag n v _ Hshadow Hv). reflexivity.
Qed.


End Resolver.

(** ** The dispatch handle *)

Section Handle.

Variable toString : Value -> string.

Lemma strict_eq_refl v : truthy v = true -> strict_eq v v = true.
Proof.
  destruct v; cbn; try discriminate; intros _; apply bool_decide_eq_true_2; reflexivity.
Qed.

Lemma handle_ready_with_event w l e e' :
  handle_ready w l e ->
  self e' = l -> detail e' = detail e ->
  handle_ready (with_event l e' w) l e'.
Proof.
  intros (He & Hs & d & Hd & Hok) Hs' Hd'. unfold handle_ready, with_event.
  cbn [events heap set_events]. rewrite lookup_insert_eq, Hd'.
  split; [reflexivity|]. split; [exact Hs'|]. exists d. auto.
Qed.

Lemma debug_eval w l e d :
  events w !! l = Some e -> detail e = VRef d ->
  debug (VRef l) w = (Ret (member (heap w) d "debug"), w).
Proof.
  intros He Hd. unfold debug. step ltac:(apply get_event_at; exact He).
  rewrite Hd. cbn [truthy]. apply get_member_ref.
Qed.

(** The logging half of [addDebug]: the message goes to the console and
    to the end of the bag's debug log, which is made if there is none. *)
Lemma debug_log_grows w l e d message :
  events w !! l = Some e -> self e = l -> detail e = VRef d ->
  debug_log_ok (heap w) d ->
  member (heap w) d "debug" <> VUndefined ->
  exists w',
    (let* arr :=
       (if truthy (member (heap w) d "$debug")
        then ret (member (heap w) d "$debug")
        else let* l0 := alloc in
             modify (fun w0 => set_heap (<[l0 := OArr []]> (heap w0)) w0) ;;
             ret (VRef l0)) in
     set_member (VRef d) "$debug" arr ;; push arr (VStr message))
      (set_out (out w ++ [ConsoleLog message]) w) = (Ret tt, w') /\
    core w' = core w /\ handle_ready w' l e.
Proof.
  intros He Hs Hd Hok Hon.
  destruct (member_is_bag _ _ _ Hon) as (bag & Hb).
  destruct Hok as [Hfalsy | (a & xs & Ha & Harr)].
  - rewrite Hfalsy.
    step ltac:(step ltac:(reflexivity); step ltac:(reflexivity); reflexivity).
    cbn [next set_out heap set_heap set_next].
    destruct (decide (next w = d)) as [Heq|Hne].
    + step ltac:(unfold set_member, modify; cbn [heap set_heap set_next set_out];
                 rewrite Heq, lookup_insert_eq; reflexivity).
      rewrite Heq.
      erewrite push_array by (cbn [heap set_heap set_next set_out]; apply lookup_insert_eq).
      eexists. split; [reflexivity|].
      split; [unfold core; cbn [__DEV__ events executors thread timers out set_heap set_next set_out];
              rewrite calls_console; reflexivity|].
      split; [exact He|]. split; [exact Hs|]. exists d. split; [exact Hd|].
      left. unfold member. cbn [heap set_heap set_next set_out].
      rewrite lookup_insert_eq. reflexivity.
    + step ltac:(unfold set_member, modify; cbn [heap set_heap set_next set_out];
                 rewrite lookup_insert_ne by exact Hne; rewrite Hb; reflexivity).
      erewrite push_array
        by (cbn [heap set_heap set_next set_out];
            rewrite lookup_insert_ne by congruence; apply lookup_insert_eq).
      eexists. split; [reflexivity|].
      split; [unfold core; cbn [__DEV__ events executors thread timers out set_heap set_next set_out];
              rewrite calls_console; reflexivity|].
      split; [exact He|]. split; [exact Hs|]. exists d. split; [exact Hd|].
      right. exists (next w), [VStr message]. cbn [heap set_heap set_next set_out].
      split; [|rewrite lookup_insert_eq; reflexivity].
      unfold member. rewrite lookup_insert_ne by exact Hne. rewrite lookup_insert_eq.
      rewrite lookup_insert_eq. reflexivity.
  - assert (Had : a <> d) by (intros ->; congruence).
    rewrite Ha. cbn [truthy]. step ltac:(reflexivity).
    step ltac:(unfold set_member, modify; cbn [heap set_out]; rewrite Hb; reflexivity).
    erewrite push_array
      by (cbn [heap set_heap set_out]; rewrite lookup_insert_ne by congruence; exact Harr).
    eexists. split; [reflexivity|].
    split; [unfold core; cbn [__DEV__ events executors thread timers out set_heap set_out];
            rewrite calls_console; reflexivity|].
    split; [exact He|]. split; [exact Hs|]. exists d. split; [exact Hd|].
    right. exists a, (xs ++ [VStr message]). cbn [heap set_heap set_out].
    split; [|rewrite lookup_insert_eq; reflexivity].
    unfold member. rewrite lookup_insert_ne by exact Had. rewrite lookup_insert_eq.
    rewrite lookup_insert_eq. reflexivity.
Qed.

(** [addDebug] returns, whether debugging is on or off, and touches
    nothing but plain objects and the console. *)
Lemma addDebug_sound w l e message :
  handle_ready w l e ->
  exists w', addDebug (VRef l) message w = (Ret tt, w') /\
             core w' = core w /\ handle_ready w' l e.
Proof.
  intros (He & Hs & d & Hd & Hok).
  assert (Hquiet : exists w', (Ret tt, w) = (Ret tt, w') /\ core w' = core w /\ handle_ready w' l e).
  { exists w. split; [reflexivity|]. split; [reflexivity|].
    split; [exact He|]. split; [exact Hs|]. exists d. auto. }
  unfold addDebug. step ltac:(apply (debug_eval _ _ _ _ He Hd)).
  destruct (member (heap w) d "debug") eqn:Hdbg; try exact Hquiet.
  all: cbv zeta.
  all: try (destruct (0 <=? z)%Z; [exact Hquiet|]).
  all: step ltac:(reflexivity);
       step ltac:(apply get_event_at; exact He);
       rewrite Hd;
       step ltac:(apply get_member_ref).
  all: cbn [heap set_out].
  all: apply debug_log_grows; try assumption; rewrite Hdbg; discriminate.
Qed.

(** [_uncatch] of a controller found among the catchers. *)
Lemma _uncatch_found w l e c i :
  handle_ready w l e ->
  indexOf (catchers e) c = Some i ->
  exists w',
    _uncatch toString (VRef l) c w = (Ret tt, w') /\
    core w' = core (with_event l (uncaught i e) w) /\
    handle_ready w' l (uncaught i e).
Proof.
  intros Hq Hi. pose proof Hq as (He & Hs & _).
  assert (Hq1 : handle_ready (with_event l (uncaught i e) w) l (uncaught i e))
    by (apply handle_ready_with_event with (e := e); auto).
  destruct (addDebug_sound _ _ _ ("Uncaught by " +:+ template toString c) Hq1)
    as (w' & Hrun & Hcore & Hq').
  exists w'. split; [|split; assumption].
  unfold _uncatch. step ltac:(apply get_event_at; exact He). cbv zeta.
  step ltac:(reflexivity). rewrite Hi.
  rewrite bool_decide_eq_false_2 by discriminate. rewrite andb_false_r.
  step ltac:(reflexivity).
  destruct (splice1 i (catchers e)) as [removed rest] eqn:Hsp.
  step ltac:(apply put_event_at). cbn [self set__catchers set_catchers]. rewrite Hs.
  unfold uncaught in Hrun. rewrite Hsp in Hrun. exact Hrun.
Qed.

Lemma forEach_call_listener (hs : list loc) (n : Notification) (w : World) :
  forEach (fun h => call_listener h n) (map VRef hs) w =
  (Ret tt, log (map (fun h => CallListener h n) hs) w).
Proof.
  revert w. induction hs as [|h hs IH]; intros w.
  - cbn. unfold ret, log. rewrite app_nil_r. destruct w; reflexivity.
  - cbn [map forEach]. step ltac:(reflexivity).
    rewrite IH. unfold log. cbn [out set_out].
    rewrite <- app_assoc. destruct w; reflexivity.
Qed.

(** [_dispatchEvent] on a handle whose listeners for the type are
    functions. *)
Lemma _dispatchEvent_to_listeners w l e type detail err kill hs :
  events w !! l = Some e -> self e = l ->
  listeners e !! type = Some (map VRef hs) ->
  _dispatchEvent (VRef l) type detail err kill w =
  (Ret tt,
   log (map (fun h => CallListener h (mkNotification type detail err (Some kill))) hs)
     (with_event l (set_dispatchedEvents
                      (dispatchedEvents e ++ [mkNotification type detail err None]) e) w)).
Proof.
  intros He Hs Hls. unfold _dispatchEvent.
  step ltac:(apply get_event_at; exact He). cbv zeta.
  step ltac:(apply put_event_at). cbn [self set_dispatchedEvents]. rewrite Hs.
  unfold listeners_at. rewrite Hls. apply forEach_call_listener.
Qed.

(** [_done] up to its decision: the controller has moved to the completed
    list, and what follows depends on who is left and on the errors. *)
Lemma _done_steps w l e c i :
  handle_ready w l e ->
  truthy c = true ->
  indexOf (catchers e) c = Some i ->
  exists w1,
    core w1 = core (with_event l (uncaught i e) w) /\
    handle_ready w1 l (uncaught i e) /\
    _done toString (VRef l) c w =
    (if bool_decide (length (catchers (uncaught i e)) = 0) then
       match _errors e with
       | Some (_ :: _) => (Throw (VError ReferenceError "error is not defined"), w1)
       | _ => _dispatchEvent (VRef l) DONE VUndefined VUndefined VUndefined w1
       end
     else (Ret tt, w1)).
Proof.
  intros Hq Hc Hi.
  destruct (_uncatch_found _ _ _ _ _ Hq Hi) as (w0 & Hun & Hcore0 & Hq0).
  destruct (addDebug_sound _ _ _ "Done" Hq0) as (w1 & Hdbg & Hcore1 & Hq1).
  exists w1. split; [congruence|]. split; [exact Hq1|].
  unfold _done. step ltac:(reflexivity). rewrite Hc, andb_false_r.
  step ltac:(reflexivity). step ltac:(exact Hun). step ltac:(exact Hdbg).
  step ltac:(apply get_event_at; apply Hq1).
  destruct (bool_decide (length (catchers (uncaught i e)) = 0)); [|reflexivity].
  replace (_errors (uncaught i e)) with (_errors e) by reflexivity.
  destruct (_errors e) as [[|? ?]|]; reflexivity.
Qed.

(** While a controller other than the reporting one is still in flight,
    [_done] announces nothing. *)
Lemma _done_waits_for_the_others w l e c i :
  handle_ready w l e ->
  truthy c = true ->
  indexOf (catchers e) c = Some i ->
  snd (splice1 i (catchers e)) <> [] ->
  exists w',
    _done toString (VRef l) c w = (Ret tt, w') /\
    core w' = core (with_event l (uncaught i e) w).
Proof.
  intros Hq Hc Hi Hrest.
  destruct (_done_steps _ _ _ _ _ Hq Hc Hi) as (w1 & Hcore & _ & Hrun).
  exists w1. split; [|exact Hcore]. rewrite Hrun.
  rewrite bool_decide_eq_false_2; [reflexivity|].
  cbn [uncaught catchers set__catchers set_catchers].
  destruct (snd (splice1 i (catchers e))); [congruence|discriminate].
Qed.

(** The last controller reporting done, no error recorded: DONE goes to the
    log and to the DONE listeners, in order of registration. *)
Lemma _done_last_without_errors w l e c hs :
  handle_ready w l e ->
  truthy c = true ->
  catchers e = [c] ->
  _errors e = None \/ _errors e = Some [] ->
  listeners e !! DONE = Some (map VRef hs) ->
  exists w',
    _done toString (VRef l) c w = (Ret tt, w') /\
    core w' =
    core (log (map (fun h => CallListener h
                               (mkNotification DONE VUndefined VUndefined (Some VUndefined))) hs)
            (with_event l (set_dispatchedEvents
                             (dispatchedEvents e ++ [mkNotification DONE VUndefined VUndefined None])
                             (uncaught 0 e)) w)).
Proof.
  intros Hq Hc Hcs Herr Hls.
  assert (Hi : indexOf (catchers e) c = Some 0).
  { rewrite Hcs. cbn. rewrite strict_eq_refl by exact Hc. reflexivity. }
  destruct (_done_steps _ _ _ _ _ Hq Hc Hi) as (w1 & Hcore & Hq1 & Hrun).
  assert (Hlen : length (catchers (uncaught 0 e)) = 0).
  { cbn [uncaught catchers set__catchers set_catchers]. rewrite Hcs. reflexivity. }
  rewrite bool_decide_eq_true_2 in Hrun by exact Hlen.
  destruct Hq1 as (He1 & Hs1 & _).
  eexists. split.
  - rewrite Hrun.
    destruct Herr as [-> | ->];
      apply _dispatchEvent_to_listeners; [exact He1|exact Hs1|exact Hls
                                         |exact He1|exact Hs1|exact Hls].
  - apply core_log. rewrite <- (with_event_twice l (uncaught 0 e) _ w).
    apply core_with_event. exact Hcore.
Qed.

(** C1. Where the overall FAIL is due, [_done] throws: the last controller
    in flight reports done while an error is recorded on the handle, and the
    identifier [error] in the FAIL call is unbound.  The controller has been
    moved to the completed list; nothing is logged and no listener is called,
    neither for FAIL nor for DONE. *)
Theorem C1_done_throws_where_FAIL_is_due w l e c err errs :
  handle_ready w l e ->
  truthy c = true ->
  catchers e = [c] ->
  _errors e = Some (err :: errs) ->
  exists w',
    _done toString (VRef l) c w = (Throw (VError ReferenceError "error is not defined"), w') /\
    events w' !! l = Some (uncaught 0 e) /\
    catchers (uncaught 0 e) = [] /\
    dispatchedEvents (uncaught 0 e) = dispatchedEvents e /\
    calls (out w') = calls (out w).
Proof.
  intros Hq Hc Hcs Herr.
  assert (Hi : indexOf (catchers e) c = Some 0).
  { rewrite Hcs. cbn. rewrite strict_eq_refl by exact Hc. reflexivity. }
  assert (Hlen : catchers (uncaught 0 e) = []).
  { cbn [uncaught catchers set__catchers set_catchers]. rewrite Hcs. reflexivity. }
  destruct (_done_steps _ _ _ _ _ Hq Hc Hi) as (w1 & Hcore & Hq1 & Hrun).
  exists w1. split; [|split; [apply Hq1|split; [exact Hlen|split; [reflexivity|]]]].
  - rewrite Hrun, Hlen. cbn [length]. rewrite bool_decide_eq_true_2 by reflexivity.
    rewrite Herr. reflexivity.
  - apply core_inv in Hcore as (_ & _ & _ & _ & _ & Ho). exact Ho.
Qed.

End Handle.

(** ** Listeners *)

Section Listeners.

Variable toString : Value -> string.

Lemma indexOf_ref_None (hs : list Value) (h : loc) :
  indexOf hs (VRef h) = None <-> VRef h ∉ hs.
Proof.
  induction hs as [|y hs IH]; cbn [indexOf].
  - split; [intros _; apply not_elem_of_nil|reflexivity].
  - rewrite not_elem_of_cons.
    assert (Hy : strict_eq y (VRef h) = bool_decide (y = VRef h)) by (destruct y; reflexivity).
    rewrite Hy. destruct (bool_decide_reflect (y = VRef h)) as [->|Hne].
    + split; [discriminate|]. intros [Hne _]. congruence.
    + destruct (indexOf hs (VRef h)) eqn:Hi; cbn.
      * split; [discriminate|]. intros [_ Hn]. apply IH in Hn. discriminate.
      * split; [|reflexivity]. intros _. split; [congruence|]. apply IH. reflexivity.
Qed.

Lemma replay_history (h : loc) (type : string) (ns : list Notification) (w : World) :
  forEach (fun n => if strict_eq (VStr (n_type n)) (VStr type)
                    then call_listener (VRef h) n else ret tt) ns w =
  (Ret tt, set_out (out w ++ map (CallListener h) (filter (fun n => n_type n = type) ns)) w).
Proof.
  revert w. induction ns as [|n ns IH]; intros w.
  - cbn. unfold ret. rewrite app_nil_r. destruct w; reflexivity.
  - cbn [forEach]. rewrite filter_cons. unfold bind at 1.
    cbn [strict_eq]. destruct (decide (n_type n = type)) as [Heq|Hne].
    + rewrite bool_decide_eq_true_2 by congruence.
      cbn [call_listener]. unfold emit, modify. rewrite IH. cbn [out set_out map].
      rewrite <- app_assoc. destruct w; reflexivity.
    + rewrite bool_decide_eq_false_2 by congruence.
      unfold ret at 1. apply IH.
Qed.

Lemma listeners_at_own e type :
  object_prototype_key type = false ->
  listeners_at e type =
  match listeners e !! type with Some hs => SlotArray hs | None => SlotUndefined end.
Proof. intros Hk. unfold listeners_at. rewrite Hk. reflexivity. Qed.

(** [addListener] from the point where the handlers [hs] registered so far
    have been read. *)
Lemma addListener_from_slot w l e type hs handler :
  events w !! l = Some e -> self e = l ->
  object_prototype_key type = false ->
  registered e type = hs ->
  addListener toString (VRef l) (VStr type) handler w =
  (put_event (set_listeners (<[type := hs]> (listeners e)) e) ;;
   (if bool_decide (indexOf hs handler = None) then ret tt
    else throw_error "RingaEvent::addListener(): the same function was added as a listener twice") ;;
   update_event (VRef l)
     (fun e => set_listeners (<[type := hs ++ [handler]]> (listeners e)) e) ;;
   let* e := get_event (VRef l) in
   forEach (fun n => if strict_eq (VStr (n_type n)) (VStr type)
                     then call_listener handler n else ret tt) (dispatchedEvents e) ;;
   ret (VRef l)) w.
Proof.
  intros He Hs Hk Hreg.
  unfold addListener. unfold bind at 1, get at 1. rewrite andb_false_r.
  unfold bind at 1, ret at 1. cbn [template]. unfold bind at 1.
  rewrite (get_event_at _ _ _ He).
  rewrite (listeners_at_own _ _ Hk). unfold registered in Hreg.
  destruct (listeners e !! type) as [hs0|]; cbn [default] in Hreg; subst hs; reflexivity.
Qed.

Lemma addListener_duplicate w l e type h :
  events w !! l = Some e -> self e = l ->
  object_prototype_key type = false ->
  VRef h ∈ registered e type ->
  addListener toString (VRef l) (VStr type) (VRef h) w =
  (Throw twice, with_event l (set_listeners (<[type := registered e type]> (listeners e)) e) w).
Proof.
  intros He Hs Hk Hin.
  rewrite (addListener_from_slot _ _ _ _ _ _ He Hs Hk eq_refl).
  assert (Hidx : indexOf (registered e type) (VRef h) <> None).
  { intros Hn. apply indexOf_ref_None in Hn. contradiction. }
  unfold bind at 1. rewrite put_event_at. cbn [self set_listeners]. rewrite Hs.
  unfold bind at 1. rewrite bool_decide_eq_false_2 by exact Hidx. reflexivity.
Qed.

Lemma addListener_fresh w l e type h :
  events w !! l = Some e -> self e = l ->
  object_prototype_key type = false ->
  VRef h ∉ registered e type ->
  addListener toString (VRef l) (VStr type) (VRef h) w =
  (Ret (VRef l),
   set_out (out w ++ map (CallListener h) (history e type))
     (with_event l (listening type (VRef h) e) w)).
Proof.
  intros He Hs Hk Hin.
  rewrite (addListener_from_slot _ _ _ _ _ _ He Hs Hk eq_refl).
  assert (Hidx : indexOf (registered e type) (VRef h) = None) by (apply indexOf_ref_None; exact Hin).
  unfold bind at 1. rewrite put_event_at. cbn [self set_listeners]. rewrite Hs.
  unfold bind at 1. rewrite bool_decide_eq_true_2 by exact Hidx. unfold ret at 1.
  unfold bind at 1. unfold update_event. unfold bind at 1.
  rewrite (get_event_at _ _ (set_listeners (<[type := registered e type]> (listeners e)) e))
    by (unfold with_event; cbn [events set_events]; apply lookup_insert_eq).
  rewrite put_event_at. cbn [self set_listeners listeners]. rewrite Hs.
  rewrite with_event_twice. rewrite insert_insert_eq.
  unfold bind at 1.
  rewrite (get_event_at _ _ (listening type (VRef h) e))
    by (unfold with_event; cbn [events set_events]; apply lookup_insert_eq).
  unfold bind at 1.
  replace (dispatchedEvents (listening type (VRef h) e)) with (dispatchedEvents e) by reflexivity.
  rewrite replay_history. reflexivity.
Qed.

Lemma registered_listening e type handler :
  registered (listening type handler e) type = registered e type ++ [handler].
Proof.
  unfold registered at 1, listening. cbn [listeners set_listeners].
  rewrite lookup_insert_eq. reflexivity.
Qed.

(** C8. On any handle and for any notification type: registering a handler
    that is already registered for the type throws and calls nobody;
    registering another one succeeds, returns the handle, appends the handler,
    and calls it at once with every logged notification of that type, oldest
    first, and with nothing else; and once a handler is registered, the same
    registration a second time throws. *)
Theorem C8_addListener_twice_fails_and_late_subscribers_get_history
    (w : World) (l : loc) (e : RingaEvent) (type : string) (h : loc) :
  events w !! l = Some e ->
  self e = l ->
  object_prototype_key type = false ->
  (VRef h ∈ registered e type ->
     exists w', addListener toString (VRef l) (VStr type) (VRef h) w = (Throw twice, w') /\
                out w' = out w) /\
  (VRef h ∉ registered e type ->
     exists w',
       addListener toString (VRef l) (VStr type) (VRef h) w = (Ret (VRef l), w') /\
       events w' !! l = Some (listening type (VRef h) e) /\
       out w' = out w ++ map (CallListener h) (history e type) /\
       exists w'',
         addListener toString (VRef l) (VStr type) (VRef h) w' = (Throw twice, w'') /\
         out w'' = out w').
Proof.
  intros He Hs Hk. split.
  - intros Hin. eexists. split; [exact (addListener_duplicate w l e type h He Hs Hk Hin)|reflexivity].
  - intros Hnot. eexists. split; [exact (addListener_fresh w l e type h He Hs Hk Hnot)|].
    split; [unfold with_event; cbn [events set_events set_out]; apply lookup_insert_eq|].
    split; [reflexivity|].
    eexists. split.
    + apply addListener_duplicate with (e := listening type (VRef h) e).
      * unfold with_event. cbn [events set_events set_out]. apply lookup_insert_eq.
      * exact Hs.
      * exact Hk.
      * rewrite registered_listening. apply elem_of_app. right. apply list_elem_of_singleton.
        reflexivity.
    + reflexivity.
Qed.

End Listeners.

(** ** The pipeline *)

Section Pipeline.

Variable toString : Value -> string.
Variable _execute : Executor -> Behaviour.

(** [forget_promise] returns and touches nothing but the value bag. *)
Lemma forget_promise_sound w l :
  pipeline_ready w l ->
  exists w', forget_promise w = (Ret tt, w') /\ core w' = core w /\ pipeline_ready w' l.
Proof.
  intros (Hr & e & He & Hs & d & Hd & Hok).
  unfold forget_promise. step ltac:(reflexivity). rewrite Hr.
  step ltac:(apply get_event_at; exact He). rewrite Hd.
  step ltac:(apply get_member_ref).
  destruct (truthy (member (heap w) d "_promise")) eqn:Hp.
  - assert (Hon : member (heap w) d "_promise" <> VUndefined) by (intros H; rewrite H in Hp; discriminate).
    destruct (member_is_bag _ _ _ Hon) as (bag & Hb).
    eexists. split; [unfold delete_member, modify; rewrite Hb; reflexivity|].
    split; [reflexivity|].
    split; [exact Hr|]. exists e. split; [exact He|]. split; [exact Hs|].
    exists d. split; [exact Hd|]. cbn [heap set_heap].
    assert (Hm : member (<[d := OBag (delete "_promise" bag)]> (heap w)) d "$debug"
                 = member (heap w) d "$debug").
    { unfold member. rewrite lookup_insert_eq, Hb.
      rewrite lookup_delete_ne by discriminate. reflexivity. }
    unfold debug_log_ok. rewrite Hm.
    destruct Hok as [Hf|(a & xs & Ha & Harr)]; [left; exact Hf|].
    right. exists a, xs. split; [exact Ha|].
    rewrite lookup_insert_ne by (intros ->; congruence). exact Harr.
  - exists w. split; [reflexivity|]. split; [reflexivity|].
    split; [exact Hr|]. exists e. split; [exact He|]. split; [exact Hs|]. exists d. auto.
Qed.

Lemma removeExecutor_spec w executor :
  removeExecutor executor w = (Ret tt, removed executor w).
Proof.
  unfold removeExecutor, removed, log, inspector_notice, evicted, this_thread, with_thread, emit,
    bind, get, ret, modify.
  destruct w as [dev hp evs exs th tm o nx].
  destruct th as [tid nm tf rn ds al ix re dh fh er]. fields.
  destruct executor as [ex|];
    destruct (dev && negb (__blockRingaEvents (tf_controller tf))); fields;
    rewrite ?app_nil_r; try destruct (has ex al); reflexivity.
Qed.

Lemma destroy_current_spec w err :
  destroy_current toString err w = (Ret (current w), log (destroy_notice toString w err) w).
Proof.
  unfold destroy_current, _finCouldNotFindError, destroy_notice, current, log, this_thread,
    emit, bind, get, ret, modify.
  destruct (all (thread w) !! index (thread w)) as [cur|].
  - reflexivity.
  - destruct (destroyed (thread w)); [|reflexivity].
    rewrite app_nil_r. destruct w; reflexivity.
Qed.

(** *** Stores with the same core go the same way *)

Lemma core_advanced a b : core a = core b -> core (advanced a) = core (advanced b).
Proof.
  intros H. apply core_inv in H as (Hd & He & Hx & Ht & Hm & Ho).
  unfold core, advanced. fields. rewrite Hd, He, Hx, Ht, Hm, Ho. reflexivity.
Qed.

Lemma core_set_error a b err :
  core a = core b ->
  core (set_thread (set_error err (thread a)) a) = core (set_thread (set_error err (thread b)) b).
Proof.
  intros H. apply core_inv in H as (Hd & He & Hx & Ht & Hm & Ho).
  unfold core. fields. rewrite Hd, He, Hx, Ht, Hm, Ho. reflexivity.
Qed.

Lemma core_set_timers a b ts :
  core a = core b -> core (set_timers ts a) = core (set_timers ts b).
Proof.
  intros H. apply core_inv in H as (Hd & He & Hx & Ht & Hm & Ho).
  unfold core. fields. rewrite Hd, He, Hx, Ht, Ho. reflexivity.
Qed.

Lemma core_removed a b executor :
  core a = core b -> core (removed executor a) = core (removed executor b).
Proof.
  intros H. apply core_inv in H as (Hd & He & Hx & Ht & Hm & Ho).
  unfold core, removed, log, inspector_notice. fields.
  rewrite !calls_app, Hd, He, Hx, Ht, Hm, Ho. reflexivity.
Qed.

Lemma core_destroy_notice a b err :
  core a = core b -> destroy_notice toString a err = destroy_notice toString b err.
Proof.
  intros H. apply core_inv in H as (_ & _ & _ & Ht & _).
  unfold destroy_notice, current. rewrite Ht. reflexivity.
Qed.

Lemma core_current a b : core a = core b -> current a = current b.
Proof.
  intros H. apply core_inv in H as (_ & _ & _ & Ht & _).
  unfold current. rewrite Ht. reflexivity.
Qed.

Lemma core_done_tail a b dh executor :
  core a = core b -> core (done_tail dh executor a) = core (done_tail dh executor b).
Proof.
  intros H. pose proof (core_inv _ _ H) as (_ & _ & _ & Ht & Hm & _).
  unfold done_tail. rewrite Ht, Hm.
  destruct (index (thread b) <? length (all (thread b)))%nat.
  - apply core_set_timers. exact H.
  - apply core_removed, core_log. exact H.
Qed.

Lemma core_after_done a b dh :
  core a = core b -> core (after_done toString dh a) = core (after_done toString dh b).
Proof.
  intros H. unfold after_done.
  rewrite (core_destroy_notice _ _ _ H), (core_current _ _ H).
  apply core_done_tail, core_advanced, core_log. exact H.
Qed.

Lemma core_after_fail a b dh fh err kill :
  core a = core b ->
  core (after_fail toString dh fh err kill a) = core (after_fail toString dh fh err kill b).
Proof.
  intros H. pose proof (core_inv _ _ H) as (_ & _ & _ & Ht & _).
  unfold after_fail. cbv zeta.
  rewrite (core_destroy_notice _ _ _ H), (core_current _ _ H), Ht.
  assert (H3 : core (log [CallFailHandler fh (th_id (thread b)) err kill]
                       (set_thread (set_error err (thread (log (destroy_notice toString b err) a)))
                          (log (destroy_notice toString b err) a))) =
               core (log [CallFailHandler fh (th_id (thread b)) err kill]
                       (set_thread (set_error err (thread (log (destroy_notice toString b err) b)))
                          (log (destroy_notice toString b err) b)))).
  { apply core_log, core_set_error, core_log. exact H. }
  destruct (negb (truthy kill)).
  - apply core_after_done. exact H3.
  - apply core_removed. exact H3.
Qed.

(** *** The handlers *)

Lemma done_tail_runs w dh executor :
  doneHandler (thread w) = VRef dh ->
  (let* t := this_thread in
   if (index t <? length (all t))%nat then setTimeout ExecuteNext
   else call_doneHandler ;; removeExecutor executor) w =
  (Ret tt, done_tail dh executor w).
Proof.
  intros Hdh. step ltac:(reflexivity). unfold done_tail.
  destruct (index (thread w) <? length (all (thread w)))%nat; [reflexivity|].
  step ltac:(unfold call_doneHandler; step ltac:(reflexivity); rewrite Hdh; reflexivity).
  apply removeExecutor_spec.
Qed.

Lemma _executorDoneHandler_sound w l dh :
  pipeline_ready w l ->
  doneHandler (thread w) = VRef dh ->
  exists w',
    _executorDoneHandler toString w = (Ret tt, w') /\
    core w' = core (after_done toString dh w) /\
    pipeline_ready w' l.
Proof.
  intros (Hr & e & Hq) Hdh.
  set (w1 := log (destroy_notice toString w VUndefined) w).
  assert (Hq1 : handle_ready w1 l e) by exact Hq.
  destruct (addDebug_sound _ _ _ ("Done: " +:+ show toString (current w)) Hq1)
    as (w2 & Hdbg & Hc2 & Hq2).
  pose proof (core_inv _ _ Hc2) as (_ & _ & _ & Ht2 & _).
  assert (Hp3 : pipeline_ready (advanced w2) l).
  { split; [|exists e; exact Hq2]. unfold advanced. fields. rewrite Ht2. exact Hr. }
  destruct (forget_promise_sound _ _ Hp3) as (w4 & Hfp & Hc4 & Hp4).
  pose proof (core_inv _ _ Hc4) as (_ & _ & _ & Ht4 & _).
  assert (Hcore : core w4 = core (advanced w1)).
  { rewrite Hc4. apply core_advanced. exact Hc2. }
  assert (Hdh4 : doneHandler (thread w4) = VRef dh).
  { rewrite Ht4. unfold advanced. fields. rewrite Ht2. exact Hdh. }
  exists (done_tail dh (current w) w4).
  split; [|split].
  - unfold _executorDoneHandler.
    step ltac:(apply destroy_current_spec).
    step ltac:(reflexivity).
    replace (ringaEvent (thread (log (destroy_notice toString w VUndefined) w)))
      with (VRef l) by (symmetry; exact Hr).
    step ltac:(exact Hdbg).
    step ltac:(reflexivity).
    step ltac:(exact Hfp).
    apply done_tail_runs. exact Hdh4.
  - unfold after_done. apply core_done_tail. exact Hcore.
  - destruct Hp4 as (Hr4 & e4 & Hq4). split.
    + unfold done_tail.
      destruct (index (thread w4) <? length (all (thread w4)))%nat;
        unfold removed, log; fields; exact Hr4.
    + exists e4. unfold done_tail.
      destruct (index (thread w4) <? length (all (thread w4)))%nat; exact Hq4.
Qed.

Lemma _executorFailHandler_sound w l dh fh err kill :
  pipeline_ready w l ->
  doneHandler (thread w) = VRef dh ->
  failHandler (thread w) = VRef fh ->
  exists w',
    _executorFailHandler toString err kill w = (Ret tt, w') /\
    core w' = core (after_fail toString dh fh err kill w) /\
    pipeline_ready w' l.
Proof.
  intros (Hr & e & Hq) Hdh Hfh.
  set (w1 := log (destroy_notice toString w err) w).
  assert (Hq1 : handle_ready w1 l e) by exact Hq.
  destruct (addDebug_sound _ _ _ ("Fail: " +:+ show toString (current w)) Hq1)
    as (w2 & Hdbg & Hc2 & Hq2).
  pose proof (core_inv _ _ Hc2) as (_ & _ & _ & Ht2 & _).
  set (w3 := log [CallFailHandler fh (th_id (thread w)) err kill]
               (set_thread (set_error err (thread w2)) w2)).
  assert (Hp3 : pipeline_ready w3 l).
  { split; [|exists e; exact Hq2]. subst w3. unfold log. fields. rewrite Ht2. exact Hr. }
  destruct (forget_promise_sound _ _ Hp3) as (w4 & Hfp & Hc4 & Hp4).
  pose proof (core_inv _ _ Hc4) as (_ & _ & _ & Ht4 & _).
  assert (Hcore : core w4 =
                  core (log [CallFailHandler fh (th_id (thread w)) err kill]
                          (set_thread (set_error err (thread w1)) w1))).
  { rewrite Hc4. subst w3. apply core_log, core_set_error. exact Hc2. }
  assert (Hth3 : thread w3 = set_error err (thread w)).
  { subst w3. unfold log. fields. rewrite Ht2. reflexivity. }
  assert (Hcall : call_failHandler err kill (set_thread (set_error err (thread w2)) w2)
                  = (Ret tt, w3)).
  { assert (Hfh2 : failHandler (thread w2) = VRef fh) by (rewrite Ht2; exact Hfh).
    assert (Hid2 : th_id (thread w2) = th_id (thread w)) by (rewrite Ht2; reflexivity).
    unfold call_failHandler. step ltac:(reflexivity).
    cbn [thread set_thread failHandler set_error th_id]. rewrite Hfh2, Hid2. reflexivity. }
  assert (Hstart :
      _executorFailHandler toString err kill w =
      (if negb (truthy kill) then _executorDoneHandler toString
       else removeExecutor (current w)) w4).
  { unfold _executorFailHandler.
    step ltac:(apply destroy_current_spec).
    step ltac:(reflexivity).
    replace (ringaEvent (thread (log (destroy_notice toString w err) w)))
      with (VRef l) by (symmetry; exact Hr).
    step ltac:(exact Hdbg).
    step ltac:(reflexivity).
    step ltac:(exact Hcall).
    step ltac:(exact Hfp). reflexivity. }
  rewrite Hstart. unfold after_fail. cbv zeta.
  destruct (negb (truthy kill)).
  - assert (Hdh4 : doneHandler (thread w4) = VRef dh).
    { rewrite Ht4, Hth3. exact Hdh. }
    destruct (_executorDoneHandler_sound _ _ _ Hp4 Hdh4) as (w5 & Hrun & Hc5 & Hp5).
    exists w5. split; [exact Hrun|]. split; [|exact Hp5].
    rewrite Hc5. apply core_after_done. exact Hcore.
  - exists (removed (current w) w4). split; [apply removeExecutor_spec|].
    split; [apply core_removed; exact Hcore|].
    destruct Hp4 as (Hr4 & e4 & Hq4). split.
    + unfold removed, log. fields. exact Hr4.
    + exists e4. exact Hq4.
Qed.

Lemma previous_evicted_runs w :
  (if (0 <? index (thread w))%nat
   then removeExecutor (all (thread w) !! (index (thread w) - 1))
   else ret tt) w = (Ret tt, previous_evicted w).
Proof.
  unfold previous_evicted. destruct (0 <? index (thread w))%nat; [|reflexivity].
  apply removeExecutor_spec.
Qed.

Lemma executeNext_sound w l dh fh :
  pipeline_ready w l ->
  doneHandler (thread w) = VRef dh ->
  failHandler (thread w) = VRef fh ->
  exists w',
    executeNext toString _execute w = (Ret tt, w') /\
    core w' = core (after_executeNext toString _execute dh fh w) /\
    pipeline_ready w' l.
Proof.
  intros (Hr & e & Hq) Hdh Hfh.
  set (w1 := previous_evicted w).
  assert (Hth1 : ringaEvent (thread w1) = VRef l /\ doneHandler (thread w1) = VRef dh /\
                 failHandler (thread w1) = VRef fh).
  { subst w1. unfold previous_evicted. destruct (0 <? index (thread w))%nat; auto. }
  destruct Hth1 as (Hr1 & Hdh1 & Hfh1).
  assert (Hq1 : handle_ready w1 l e).
  { subst w1. unfold previous_evicted. destruct (0 <? index (thread w))%nat; exact Hq. }
  destruct (addDebug_sound _ _ _ ("Executing: " +:+ show toString (current w)) Hq1)
    as (w2 & Hdbg & Hc2 & Hq2).
  pose proof (core_inv _ _ Hc2) as (_ & _ & _ & Ht2 & _).
  assert (Hp2 : forall xs, pipeline_ready (log xs w2) l).
  { intros xs. split; [|exists e; exact Hq2]. unfold log. fields. rewrite Ht2. exact Hr1. }
  assert (Hh2 : forall xs, doneHandler (thread (log xs w2)) = VRef dh /\
                           failHandler (thread (log xs w2)) = VRef fh).
  { intros xs. unfold log. fields. rewrite Ht2. auto. }
  unfold executeNext.
  step ltac:(reflexivity). cbv zeta.
  step ltac:(apply previous_evicted_runs). fold w1.
  rewrite Hr. unfold after_executeNext. cbv zeta. fold w1. fold (current w).
  destruct (current w) as [ex|].
  - destruct (_execute ex) as [| |err kill|err] eqn:Hb.
    + exists (log [Execute ex] w2). split; [|split; [apply core_log; exact Hc2|apply Hp2]].
      apply try_catch_returns. step ltac:(exact Hdbg). step ltac:(reflexivity). reflexivity.
    + destruct (_executorDoneHandler_sound _ _ _ (Hp2 [Execute ex]) (proj1 (Hh2 _)))
        as (w' & Hrun & Hc & Hp).
      exists w'. split; [|split; [|exact Hp]].
      * apply try_catch_returns. step ltac:(exact Hdbg). step ltac:(reflexivity). exact Hrun.
      * rewrite Hc. apply core_after_done, core_log. exact Hc2.
    + destruct (_executorFailHandler_sound _ _ _ _ err kill (Hp2 [Execute ex])
                  (proj1 (Hh2 _)) (proj2 (Hh2 _))) as (w' & Hrun & Hc & Hp).
      exists w'. split; [|split; [|exact Hp]].
      * apply try_catch_returns. step ltac:(exact Hdbg). step ltac:(reflexivity). exact Hrun.
      * rewrite Hc. apply core_after_fail, core_log. exact Hc2.
    + destruct (_executorFailHandler_sound _ _ _ _ err VUndefined (Hp2 [Execute ex])
                  (proj1 (Hh2 _)) (proj2 (Hh2 _))) as (w' & Hrun & Hc & Hp).
      exists w'. split; [|split; [|exact Hp]].
      * erewrite try_catch_catches; [exact Hrun|].
        step ltac:(exact Hdbg). step ltac:(reflexivity). reflexivity.
      * rewrite Hc. apply core_after_fail, core_log. exact Hc2.
  - assert (Hp2' : pipeline_ready w2 l).
    { split; [rewrite Ht2; exact Hr1|exists e; exact Hq2]. }
    assert (Hdh2 : doneHandler (thread w2) = VRef dh) by (rewrite Ht2; exact Hdh1).
    assert (Hfh2 : failHandler (thread w2) = VRef fh) by (rewrite Ht2; exact Hfh1).
    destruct (_executorFailHandler_sound _ _ _ _ no_executor VUndefined Hp2' Hdh2 Hfh2)
      as (w' & Hrun & Hc & Hp).
    exists w'. split; [|split; [|exact Hp]].
    + erewrite try_catch_catches; [exact Hrun|].
      step ltac:(exact Hdbg). reflexivity.
    + rewrite Hc. apply core_after_fail. exact Hc2.
Qed.

(** *** What the handlers leave, member by member *)

Lemma after_done_view dh w :
  let w' := after_done toString dh w in
  index (thread w') = S (index (thread w)) /\
  timers w' = (if more_remain w then timers w ++ [ExecuteNext] else timers w) /\
  all (thread w') = (if more_remain w then all (thread w)
                     else evicted (current w) (all (thread w))) /\
  out w' = out w ++ destroy_notice toString w VUndefined ++
           (if more_remain w then []
            else CallDoneHandler dh (th_id (thread w)) :: inspector_notice w (current w)) /\
  running (thread w') = running (thread w) /\
  destroyed (thread w') = destroyed (thread w) /\
  error (thread w') = error (thread w) /\
  fixed_part w' = fixed_part w.
Proof.
  unfold after_done, done_tail, more_remain, advanced, log, removed, inspector_notice, current,
    fixed_part.
  destruct w as [dev hp evs exs th tm o nx].
  destruct th as [tid nm tf rn ds al ix re dh0 fh er].
  fields. destruct (S ix <? length al)%nat; fields;
    rewrite ?app_nil_r, <- ?app_assoc; repeat split; reflexivity.
Qed.

(** The store at the point where the fail-handler branches on [kill]. *)
Lemma fail_handler_midway fh err kill w :
  let w3 := log [CallFailHandler fh (th_id (thread w)) err kill]
              (set_thread (set_error err (thread (log (destroy_notice toString w err) w)))
                 (log (destroy_notice toString w err) w)) in
  thread w3 = set_error err (thread w) /\
  out w3 = out w ++ destroy_notice toString w err ++
           [CallFailHandler fh (th_id (thread w)) err kill] /\
  timers w3 = timers w /\
  __DEV__ w3 = __DEV__ w /\
  events w3 = events w.
Proof.
  cbv zeta. unfold log. fields. rewrite <- app_assoc. repeat split; reflexivity.
Qed.

Lemma after_fail_view dh fh err kill w :
  let w' := after_fail toString dh fh err kill w in
  let called := CallFailHandler fh (th_id (thread w)) err kill in
  error (thread w') = err /\
  fixed_part w' = fixed_part w /\
  running (thread w') = running (thread w) /\
  destroyed (thread w') = destroyed (thread w) /\
  if truthy kill then
    index (thread w') = index (thread w) /\
    timers w' = timers w /\
    all (thread w') = evicted (current w) (all (thread w)) /\
    out w' = out w ++ destroy_notice toString w err ++ called :: inspector_notice w (current w)
  else
    index (thread w') = S (index (thread w)) /\
    timers w' = (if more_remain w then timers w ++ [ExecuteNext] else timers w) /\
    all (thread w') = (if more_remain w then all (thread w)
                       else evicted (current w) (all (thread w))) /\
    out w' = out w ++ destroy_notice toString w err ++ called ::
             destroy_notice toString w VUndefined ++
             (if more_remain w then []
              else CallDoneHandler dh (th_id (thread w)) :: inspector_notice w (current w)).
Proof.
  cbv zeta. unfold after_fail. cbv zeta.
  pose proof (fail_handler_midway fh err kill w) as Hm. cbv zeta in Hm.
  remember (log [CallFailHandler fh (th_id (thread w)) err kill] _) as w3 eqn:Hw3. clear Hw3.
  destruct Hm as (Hth & Hout & Htm & Hdev & Hev).
  assert (Hcur : current w3 = current w) by (unfold current; rewrite Hth; reflexivity).
  assert (Hmore : more_remain w3 = more_remain w) by (unfold more_remain; rewrite Hth; reflexivity).
  assert (Hins : forall x, inspector_notice w3 x = inspector_notice w x).
  { intros x. unfold inspector_notice. rewrite Hdev, Hth. reflexivity. }
  assert (Hfix3 : fixed_part w3 = fixed_part w).
  { unfold fixed_part. rewrite Hth, Hdev, Hev. reflexivity. }
  destruct (truthy kill); cbn [negb].
  - unfold removed, log, fixed_part. fields.
    rewrite ?Hth, ?Hout, ?Htm, ?Hins, ?Hdev, ?Hev. fields.
    rewrite <- !app_assoc. repeat split; reflexivity.
  - pose proof (after_done_view dh w3) as Hd. cbv zeta in Hd.
    destruct Hd as (Hi & Ht & Ha & Ho & Hrun & Hdes & Herr & Hfix).
    rewrite Hi, Ht, Ha, Ho, Hrun, Hdes, Herr, Hfix, Hfix3, Hmore, Hcur, Hins.
    assert (Hdn : destroy_notice toString w3 VUndefined = destroy_notice toString w VUndefined).
    { unfold destroy_notice. rewrite Hcur, Hth. reflexivity. }
    rewrite Hdn, Hth, Hout, Htm. fields. rewrite <- !app_assoc.
    repeat split; reflexivity.
Qed.

End Pipeline.

Section PipelineClaims.

Variable toString : Value -> string.
Variable _execute : Executor -> Behaviour.

Lemma turns_idle n w : timers w = [] -> turns toString _execute n w = (Ret tt, w).
Proof.
  intros Ht. induction n as [|n IH]; [reflexivity|].
  cbn [turns]. erewrite bind_eval; [exact IH|].
  unfold tick. erewrite bind_eval; [|reflexivity]. rewrite Ht. reflexivity.
Qed.

(** Whatever the executor at the current index does when started, its start
    is on record once [executeNext] is through. *)
Lemma after_executeNext_started dh fh w ex :
  current w = Some ex ->
  Execute ex ∈ out (after_executeNext toString _execute dh fh w).
Proof.
  intros Hc. unfold after_executeNext. cbv zeta. rewrite Hc.
  set (w2 := log [Execute ex] (previous_evicted w)).
  assert (H2 : Execute ex ∈ out w2).
  { subst w2. unfold log. cbn [out set_out]. apply elem_of_app. right.
    apply list_elem_of_singleton. reflexivity. }
  destruct (_execute ex) as [| |err kill|err].
  - exact H2.
  - destruct (after_done_view toString dh w2) as (_ & _ & _ & Ho & _).
    rewrite Ho. apply elem_of_app. left. exact H2.
  - destruct (after_fail_view toString dh fh err kill w2) as (_ & _ & _ & _ & Hk).
    destruct (truthy kill); destruct Hk as (_ & _ & _ & Ho);
      rewrite Ho; apply elem_of_app; left; exact H2.
  - destruct (after_fail_view toString dh fh err VUndefined w2) as (_ & _ & _ & _ & Hk).
    cbn [truthy] in Hk. destruct Hk as (_ & _ & _ & Ho).
    rewrite Ho. apply elem_of_app. left. exact H2.
Qed.

(** Once the index has moved on to an executor and the step is queued, the
    next turn of the scheduler starts that executor. *)
Lemma queued_step_starts_next w l dh fh nxt :
  pipeline_ready w l ->
  doneHandler (thread w) = VRef dh ->
  failHandler (thread w) = VRef fh ->
  timers w = [ExecuteNext] ->
  current w = Some nxt ->
  exists w', tick toString _execute w = (Ret tt, w') /\ Execute nxt ∈ out w'.
Proof.
  intros Hp Hdh Hfh Ht Hc.
  assert (Hp0 : pipeline_ready (set_timers [] w) l) by exact Hp.
  destruct (executeNext_sound toString _execute _ _ dh fh Hp0 Hdh Hfh) as (w' & Hrun & Hcore & _).
  exists w'. split.
  - unfold tick. erewrite bind_eval; [|reflexivity]. rewrite Ht.
    erewrite bind_eval; [|reflexivity]. exact Hrun.
  - apply core_inv in Hcore as (_ & _ & _ & _ & _ & Ho).
    assert (Hin : Execute nxt ∈ calls (out w')).
    { rewrite Ho. apply elem_of_calls. split; [|reflexivity].
      apply after_executeNext_started. exact Hc. }
    apply elem_of_calls in Hin. apply Hin.
Qed.

Lemma more_remain_next w nxt :
  all (thread w) !! S (index (thread w)) = Some nxt -> more_remain w = true.
Proof.
  intros H. unfold more_remain. apply Nat.ltb_lt. apply lookup_lt_Some in H. exact H.
Qed.

Lemma more_remain_absent w :
  current w = None -> more_remain w = false.
Proof.
  unfold current, more_remain. intros H. apply lookup_ge_None in H.
  apply Nat.ltb_ge. lia.
Qed.

Lemma no_start_in_destroy_notice w err x : Execute x ∉ destroy_notice toString w err.
Proof.
  unfold destroy_notice. destruct (current w); [|destruct (destroyed (thread w))].
  - intros H. apply list_elem_of_singleton in H. discriminate.
  - apply not_elem_of_nil.
  - intros H. apply list_elem_of_singleton in H. discriminate.
Qed.

Lemma no_start_in_inspector_notice w executor x : Execute x ∉ inspector_notice w executor.
Proof.
  unfold inspector_notice. destruct (_ && _).
  - intros H. apply list_elem_of_singleton in H. discriminate.
  - apply not_elem_of_nil.
Qed.

Lemma calls_inspector_notice w executor :
  calls (inspector_notice w executor) = inspector_notice w executor.
Proof. unfold inspector_notice. destruct (_ && _); reflexivity. Qed.

(** The fail-handler calls the caller's onFail with the pipeline, the error
    and the fatal flag.  With a falsy flag the pipeline then stands where the
    done-handler would have left it: the index has moved on by one, and when
    the list holds an executor at that index the next step is queued and the
    next turn of the scheduler starts that executor.  With a truthy flag the
    index stays, nothing is queued and no executor is started: with no step
    queued before, no turn of the scheduler ever does anything. *)
Lemma fail_handler_goes_on_as_the_done_handler_or_stops
    (w : World) (l dh fh : loc) (err kill : Value) :
  pipeline_ready w l ->
  doneHandler (thread w) = VRef dh ->
  failHandler (thread w) = VRef fh ->
  exists w',
    _executorFailHandler toString err kill w = (Ret tt, w') /\
    CallFailHandler fh (th_id (thread w)) err kill ∈ out w' /\
    (truthy kill = false ->
       (exists w_done,
          _executorDoneHandler toString w = (Ret tt, w_done) /\
          progress w' = progress w_done) /\
       index (thread w') = S (index (thread w)) /\
       (forall nxt, all (thread w) !! S (index (thread w)) = Some nxt ->
          timers w' = timers w ++ [ExecuteNext] /\
          (timers w = [] ->
             exists w'', tick toString _execute w' = (Ret tt, w'') /\
                         Execute nxt ∈ out w''))) /\
    (truthy kill = true ->
       index (thread w') = index (thread w) /\
       timers w' = timers w /\
       (forall x, Execute x ∈ out w' -> Execute x ∈ out w) /\
       (timers w = [] -> forall n, turns toString _execute n w' = (Ret tt, w'))).
Proof.
  intros Hp Hdh Hfh.
  destruct (_executorFailHandler_sound toString _ _ _ _ err kill Hp Hdh Hfh)
    as (w' & Hrun & Hcore & Hp').
  exists w'. split; [exact Hrun|].
  apply core_inv in Hcore as (_ & _ & _ & Hth & Htm & Hout).
  pose proof (after_fail_view toString dh fh err kill w) as Hv. cbv zeta in Hv.
  destruct Hv as (Herr & Hfix & Hrn & Hdes & Hk).
  assert (Hfix' : doneHandler (thread w') = VRef dh /\ failHandler (thread w') = VRef fh).
  { rewrite Hth. unfold fixed_part in Hfix. injection Hfix as _ _ Hd Hf _ _ _.
    rewrite Hd, Hf. auto. }
  assert (Hcalled : CallFailHandler fh (th_id (thread w)) err kill ∈ out w').
  { assert (Hin : CallFailHandler fh (th_id (thread w)) err kill ∈ calls (out w')).
    { rewrite Hout. apply elem_of_calls. split; [|reflexivity].
      destruct (truthy kill); destruct Hk as (_ & _ & _ & Ho); rewrite Ho;
        apply elem_of_app; right; apply elem_of_app; right; left. }
    apply elem_of_calls in Hin. apply Hin. }
  split; [exact Hcalled|].
  destruct (truthy kill) eqn:Ekill; destruct Hk as (Hi & Ht & Ha & Ho).
  - split; [discriminate|]. intros _.
    split; [rewrite Hth; exact Hi|]. split; [rewrite Htm; exact Ht|]. split.
    + intros x Hx.
      assert (Hin : Execute x ∈ calls (out w')) by (apply elem_of_calls; auto).
      rewrite Hout in Hin. apply elem_of_calls in Hin as (Hin & _).
      rewrite Ho in Hin. rewrite !elem_of_app, elem_of_cons in Hin.
      destruct Hin as [H|[H|[H|H]]]; [exact H| | |].
      * exfalso. exact (no_start_in_destroy_notice _ _ _ H).
      * discriminate.
      * exfalso. exact (no_start_in_inspector_notice _ _ _ H).
    + intros Hnone n. apply turns_idle. rewrite Htm, Ht. exact Hnone.
  - split; [|discriminate]. intros _.
    split; [|split; [rewrite Hth; exact Hi|]].
    + destruct (_executorDoneHandler_sound toString _ _ _ Hp Hdh) as (wd & Hrund & Hcd & _).
      exists wd. split; [exact Hrund|].
      apply core_inv in Hcd as (_ & _ & _ & Hthd & Htmd & _).
      pose proof (after_done_view toString dh w) as Hd. cbv zeta in Hd.
      destruct Hd as (Hi2 & Ht2 & Ha2 & _ & Hrun2 & Hdes2 & _).
      unfold progress. rewrite Hth, Hthd, Htm, Htmd.
      rewrite Hi, Hi2, Ht, Ht2, Ha, Ha2, Hrn, Hrun2, Hdes, Hdes2. reflexivity.
    + intros nxt Hnxt. rewrite (more_remain_next _ _ Hnxt) in Ht, Ha.
      split; [rewrite Htm; exact Ht|]. intros Hnone.
      apply queued_step_starts_next with (l := l) (dh := dh) (fh := fh).
      * exact Hp'.
      * apply Hfix'.
      * apply Hfix'.
      * rewrite Htm, Ht, Hnone. reflexivity.
      * unfold current. rewrite Hth, Ha, Hi. exact Hnxt.
Qed.

(** *** Eviction from the middle of the list *)








(** *** The running flag *)

(** The store after [kill()]. *)
Lemma kill_spec w : kill w = (Ret tt, set_thread (set_running false (thread w)) w).
Proof. reflexivity. Qed.

Lemma ignores_running_ret {A} (a : A) : ignores_running (ret a).
Proof. intros w. reflexivity. Qed.

Lemma ignores_running_throw {A} (e : Value) : ignores_running (@throw A e).
Proof. intros w. reflexivity. Qed.

Lemma ignores_running_bind {A B} (c : M A) (k : A -> M B) :
  ignores_running c -> (forall a, ignores_running (k a)) -> ignores_running (bind c k).
Proof.
  intros Hc Hk w. unfold bind. rewrite Hc.
  destruct (c w) as [[a|e] w1]; cbn [fst snd]; [apply Hk|reflexivity].
Qed.

Lemma ignores_running_try_catch {A} (c : M A) (h : Value -> M A) :
  ignores_running c -> (forall e, ignores_running (h e)) -> ignores_running (try_catch c h).
Proof.
  intros Hc Hh w. unfold try_catch. rewrite Hc.
  destruct (c w) as [[a|e] w1]; cbn [fst snd]; [reflexivity|apply Hh].
Qed.

(** A computation that starts by reading the store. *)
Lemma ignores_running_get {A} (k : World -> M A) :
  (forall w0, ignores_running (k w0)) ->
  (forall w0 w, k (after_kill w0) w = k w0 w) ->
  ignores_running (bind get k).
Proof.
  intros Hk Hsame w.
  change (bind get k (after_kill w)) with (k (after_kill w) (after_kill w)).
  change (bind get k w) with (k w w).
  rewrite Hsame. apply Hk.
Qed.

Lemma ignores_running_this_thread {A} (k : Thread -> M A) :
  (forall t, ignores_running (k t)) ->
  (forall t w, k (set_running false t) w = k t w) ->
  ignores_running (bind this_thread k).
Proof.
  intros Hk Hsame w.
  change (bind this_thread k (after_kill w)) with (k (set_running false (thread w)) (after_kill w)).
  change (bind this_thread k w) with (k (thread w) w).
  rewrite Hsame. apply Hk.
Qed.

Lemma ignores_running_modify (f : World -> World) :
  (forall w, f (after_kill w) = after_kill (f w)) -> ignores_running (modify f).
Proof. intros Hf w. unfold modify. rewrite Hf. reflexivity. Qed.

Lemma ignores_running_emit x : ignores_running (emit x).
Proof. apply ignores_running_modify. intros w. reflexivity. Qed.

Lemma ignores_running_setTimeout x : ignores_running (setTimeout x).
Proof. apply ignores_running_modify. intros w. reflexivity. Qed.

Lemma ignores_running_get_event this : ignores_running (get_event this).
Proof.
  destruct this; try apply ignores_running_throw.
  intros w. unfold get_event, bind, get. change (events (after_kill w)) with (events w).
  destruct (events w !! l); reflexivity.
Qed.

Lemma ignores_running_get_member o k : ignores_running (get_member o k).
Proof.
  destruct o; try apply ignores_running_throw; try apply ignores_running_ret.
  intros w. unfold get_member, bind, get. change (heap (after_kill w)) with (heap w).
  destruct (heap w !! l) as [[|]|]; reflexivity.
Qed.

Lemma ignores_running_set_member o k v : ignores_running (set_member o k v).
Proof.
  destruct o; try apply ignores_running_throw.
  intros w. unfold set_member, modify. change (heap (after_kill w)) with (heap w).
  destruct (heap w !! l) as [[|]|]; reflexivity.
Qed.

Lemma ignores_running_delete_member o k : ignores_running (delete_member o k).
Proof.
  destruct o; try apply ignores_running_throw; try apply ignores_running_ret.
  intros w. unfold delete_member, modify. change (heap (after_kill w)) with (heap w).
  destruct (heap w !! l) as [[|]|]; reflexivity.
Qed.

Lemma ignores_running_push a v : ignores_running (push a v).
Proof.
  destruct a; try apply ignores_running_throw.
  intros w. unfold push, bind, get, modify, type_error, throw. change (heap (after_kill w)) with (heap w).
  destruct (heap w !! l) as [[|]|]; reflexivity.
Qed.

Lemma ignores_running_alloc : ignores_running alloc.
Proof. intros w. reflexivity. Qed.

Lemma ignores_running_if {A} (b : bool) (c1 c2 : M A) : ignores_running c1 -> ignores_running c2 -> ignores_running (if b then c1 else c2).
Proof. destruct b; auto. Qed.

Lemma ignores_running_debug this : ignores_running (debug this).
Proof.
  unfold debug. apply ignores_running_bind; [apply ignores_running_get_event|]. intros e.
  apply ignores_running_if; [apply ignores_running_get_member|apply ignores_running_ret].
Qed.

Lemma ignores_running_addDebug this message : ignores_running (addDebug this message).
Proof.
  unfold addDebug. apply ignores_running_bind; [apply ignores_running_debug|]. intros d.
  assert (Hrest : ignores_running
    (let filtered := match d with VNum z => (0 <=? z)%Z | _ => false end in
      if filtered then ret tt
      else
        emit (ConsoleLog message) ;;
        let* e := get_event this in
        let* old := get_member (detail e) "$debug" in
        let* arr :=
          (if truthy old then ret old
           else let* l := alloc in
                modify (fun w => set_heap (<[l := OArr []]> (heap w)) w) ;;
                ret (VRef l)) in
        set_member (detail e) "$debug" arr ;;
        push arr (VStr message))).
  { cbv zeta. apply ignores_running_if; [apply ignores_running_ret|].
    apply ignores_running_bind; [apply ignores_running_emit|]. intros _.
    apply ignores_running_bind; [apply ignores_running_get_event|]. intros e.
    apply ignores_running_bind; [apply ignores_running_get_member|]. intros old.
    apply ignores_running_bind.
    - apply ignores_running_if; [apply ignores_running_ret|].
      apply ignores_running_bind; [apply ignores_running_alloc|]. intros l.
      apply ignores_running_bind; [|intros _; apply ignores_running_ret].
      apply ignores_running_modify. intros w. reflexivity.
    - intros arr. apply ignores_running_bind; [apply ignores_running_set_member|]. intros _. apply ignores_running_push. }
  destruct d; try exact Hrest. apply ignores_running_ret.
Qed.

Lemma ignores_running_with_thread (f : Thread -> Thread) :
  (forall t, f (set_running false t) = set_running false (f t)) -> ignores_running (with_thread f).
Proof.
  intros Hf. apply ignores_running_modify. intros w. unfold after_kill. cbn [thread set_thread].
  rewrite Hf. destruct w; reflexivity.
Qed.

Lemma ignores_running_forget_promise : ignores_running forget_promise.
Proof.
  unfold forget_promise. apply ignores_running_this_thread; [|reflexivity]. intros t.
  apply ignores_running_bind; [apply ignores_running_get_event|]. intros e.
  apply ignores_running_bind; [apply ignores_running_get_member|]. intros p.
  apply ignores_running_if; [apply ignores_running_delete_member|apply ignores_running_ret].
Qed.

Lemma ignores_running_removeExecutor executor : ignores_running (removeExecutor executor).
Proof.
  unfold removeExecutor. apply ignores_running_get; [|reflexivity]. intros w0.
  apply ignores_running_bind; [apply ignores_running_if; [apply ignores_running_emit|apply ignores_running_ret]|]. intros _.
  destruct executor as [e|]; [|apply ignores_running_ret].
  apply ignores_running_this_thread; [|reflexivity]. intros t.
  apply ignores_running_if; [|apply ignores_running_ret].
  apply ignores_running_with_thread. reflexivity.
Qed.

Lemma ignores_running_in_finCouldNotFindError err : ignores_running (_finCouldNotFindError toString err).
Proof.
  unfold _finCouldNotFindError. apply ignores_running_this_thread; [|reflexivity]. intros t.
  apply ignores_running_if; [apply ignores_running_ret|apply ignores_running_emit].
Qed.

Lemma ignores_running_destroy_current err : ignores_running (destroy_current toString err).
Proof.
  unfold destroy_current. apply ignores_running_this_thread; [|reflexivity]. intros t.
  destruct (all t !! index t).
  - apply ignores_running_bind; [apply ignores_running_emit|]. intros _. apply ignores_running_ret.
  - apply ignores_running_bind; [apply ignores_running_in_finCouldNotFindError|]. intros _. apply ignores_running_ret.
Qed.

Lemma ignores_running_call_doneHandler : ignores_running call_doneHandler.
Proof.
  unfold call_doneHandler. apply ignores_running_this_thread; [|reflexivity]. intros t.
  destruct (doneHandler t); try apply ignores_running_throw. apply ignores_running_emit.
Qed.

Lemma ignores_running_call_failHandler err kill : ignores_running (call_failHandler err kill).
Proof.
  unfold call_failHandler. apply ignores_running_this_thread; [|reflexivity]. intros t.
  destruct (failHandler t); try apply ignores_running_throw. apply ignores_running_emit.
Qed.

Lemma ignores_running_in_executorDoneHandler : ignores_running (_executorDoneHandler toString).
Proof.
  unfold _executorDoneHandler.
  apply ignores_running_bind; [apply ignores_running_destroy_current|]. intros executor.
  apply ignores_running_this_thread; [|reflexivity]. intros t.
  apply ignores_running_bind; [apply ignores_running_addDebug|]. intros _.
  apply ignores_running_bind; [apply ignores_running_with_thread; reflexivity|]. intros _.
  apply ignores_running_bind; [apply ignores_running_forget_promise|]. intros _.
  apply ignores_running_this_thread; [|reflexivity]. intros t'.
  apply ignores_running_if; [apply ignores_running_setTimeout|].
  apply ignores_running_bind; [apply ignores_running_call_doneHandler|]. intros _. apply ignores_running_removeExecutor.
Qed.

Lemma ignores_running_in_executorFailHandler err kill : ignores_running (_executorFailHandler toString err kill).
Proof.
  unfold _executorFailHandler.
  apply ignores_running_bind; [apply ignores_running_destroy_current|]. intros executor.
  apply ignores_running_this_thread; [|reflexivity]. intros t.
  apply ignores_running_bind; [apply ignores_running_addDebug|]. intros _.
  apply ignores_running_bind; [apply ignores_running_with_thread; reflexivity|]. intros _.
  apply ignores_running_bind; [apply ignores_running_call_failHandler|]. intros _.
  apply ignores_running_bind; [apply ignores_running_forget_promise|]. intros _.
  apply ignores_running_if; [apply ignores_running_in_executorDoneHandler|apply ignores_running_removeExecutor].
Qed.

Lemma ignores_running_executeNext : ignores_running (executeNext toString _execute).
Proof.
  unfold executeNext. apply ignores_running_this_thread; [|reflexivity]. intros t. cbv zeta.
  apply ignores_running_bind; [apply ignores_running_if; [apply ignores_running_removeExecutor|apply ignores_running_ret]|]. intros _.
  apply ignores_running_try_catch.
  - apply ignores_running_bind; [apply ignores_running_addDebug|]. intros _.
    destruct (all t !! index t) as [e|]; [|apply ignores_running_throw].
    apply ignores_running_bind; [apply ignores_running_emit|]. intros _.
    destruct (_execute e).
    + apply ignores_running_ret.
    + apply ignores_running_in_executorDoneHandler.
    + apply ignores_running_in_executorFailHandler.
    + apply ignores_running_throw.
  - intros err. apply ignores_running_in_executorFailHandler.
Qed.

Lemma ignores_running_tick : ignores_running (tick toString _execute).
Proof.
  unfold tick. apply ignores_running_get; [|reflexivity]. intros w0.
  destruct (timers w0) as [|[] rest]; [apply ignores_running_ret|].
  apply ignores_running_bind; [apply ignores_running_modify; reflexivity|]. intros _. apply ignores_running_executeNext.
Qed.

Lemma ignores_running_turns n : ignores_running (turns toString _execute n).
Proof.
  induction n as [|n IH]; [apply ignores_running_ret|].
  cbn [turns]. apply ignores_running_bind; [apply ignores_running_tick|]. intros _. exact IH.
Qed.

(** C5. [kill()] clears the running flag and touches nothing else in the
    store: nothing is emitted, and the executors, the index and the queued
    steps stay as they are.  Nothing that drives the pipeline reads the flag:
    on the store [kill()] has left, the done-handler, the fail-handler, a
    step and any number of turns of the scheduler return or throw what they
    would have without it and leave the store they would have left, the flag
    apart.  So the executors started after [kill()] are those that would have
    been started without it.  (What an executor does once it is started is
    given from outside and is not the pipeline's.) *)
Theorem C5_kill_only_clears_the_flag :
  (forall w, kill w = (Ret tt, set_thread (set_running false (thread w)) w)) /\
  ignores_running (_executorDoneHandler toString) /\
  (forall err flag, ignores_running (_executorFailHandler toString err flag)) /\
  ignores_running (executeNext toString _execute) /\
  ignores_running (tick toString _execute) /\
  (forall n, ignores_running (turns toString _execute n)) /\
  (forall n w,
     out (snd (turns toString _execute n (after_kill w))) =
     out (snd (turns toString _execute n w))).
Proof.
  split; [exact kill_spec|].
  split; [exact ignores_running_in_executorDoneHandler|].
  split; [exact ignores_running_in_executorFailHandler|].
  split; [exact ignores_running_executeNext|].
  split; [exact ignores_running_tick|].
  split; [exact ignores_running_turns|].
  intros n w. rewrite (ignores_running_turns n w). reflexivity.
Qed.

(** C6. In development mode [run] throws at once, leaving the store as it
    was, when the running flag is set, when the factory list is empty, or
    when the handle given is falsy; with the flag down, a factory in the list
    and a handle it goes to work.  Outside development mode none of the three
    is looked at: [run] goes to work whatever the flag, the list and the
    handle are.  (Nothing in Thread.js raises the flag; where it is set, it
    has been set from outside.) *)
Theorem C6_run_guards_in_development_mode_only (w : World) (ev dh fh : Value) :
  (__DEV__ w = true ->
   running (thread w) = true \/
   tf_all (threadFactory (thread w)) = [] \/
   truthy ev = false ->
   exists msg, run toString _execute ev dh fh w = (Throw (VError PlainError msg), w)) /\
  (__DEV__ w = true ->
   running (thread w) = false ->
   tf_all (threadFactory (thread w)) <> [] ->
   truthy ev = true ->
   run toString _execute ev dh fh w = run_unguarded toString _execute ev dh fh w) /\
  (__DEV__ w = false ->
   run toString _execute ev dh fh w = run_unguarded toString _execute ev dh fh w).
Proof.
  split; [|split].
  - intros Hdev Hbad. unfold run. erewrite bind_eval; [|reflexivity]. rewrite Hdev. cbn [andb].
    destruct (running (thread w)) eqn:Hrun.
    { eexists. reflexivity. }
    erewrite bind_eval; [|reflexivity].
    destruct (tf_all (threadFactory (thread w))) as [|f fs] eqn:Hall.
    { eexists. reflexivity. }
    cbn [length Nat.eqb]. erewrite bind_eval; [|reflexivity].
    destruct Hbad as [Hb|[Hb|Hb]]; try discriminate.
    rewrite Hb. eexists. reflexivity.
  - intros Hdev Hrun Hall Hev. unfold run. erewrite bind_eval; [|reflexivity].
    rewrite Hdev, Hrun. cbn [andb].
    erewrite bind_eval; [|reflexivity].
    destruct (tf_all (threadFactory (thread w))) as [|f fs]; [contradiction|].
    cbn [length Nat.eqb]. erewrite bind_eval; [|reflexivity].
    rewrite Hev. cbn [negb]. erewrite bind_eval; [|reflexivity]. reflexivity.
  - intros Hdev. unfold run. erewrite bind_eval; [|reflexivity]. rewrite Hdev. cbn [andb].
    erewrite bind_eval; [|reflexivity]. erewrite bind_eval; [|reflexivity].
    erewrite bind_eval; [|reflexivity]. reflexivity.
Qed.

(** C7. On a destroyed pipeline with no executor at the current index, the
    missing-executor check is silent: it returns, emits nothing and leaves the
    store as it is.  The handler goes on from there as it always does: the
    done-handler moves the index on and, no executor remaining, calls onDone
    and tells the inspector; the fail-handler records the error and calls
    onFail with the pipeline, the error and the flag, then, the flag being
    falsy, moves the index on and calls onDone as well. *)
Theorem C7_destroyed_only_silences_the_check
    (w : World) (l dh fh : loc) (err kill : Value) :
  pipeline_ready w l ->
  doneHandler (thread w) = VRef dh ->
  failHandler (thread w) = VRef fh ->
  destroyed (thread w) = true ->
  current w = None ->
  _finCouldNotFindError toString err w = (Ret tt, w) /\
  (exists w',
     _executorDoneHandler toString w = (Ret tt, w') /\
     index (thread w') = S (index (thread w)) /\
     timers w' = timers w /\
     calls (out w') =
       calls (out w) ++ CallDoneHandler dh (th_id (thread w)) :: inspector_notice w None) /\
  (exists w',
     _executorFailHandler toString err kill w = (Ret tt, w') /\
     error (thread w') = err /\
     timers w' = timers w /\
     index (thread w') = (if truthy kill then index (thread w) else S (index (thread w))) /\
     calls (out w') =
       calls (out w) ++ CallFailHandler fh (th_id (thread w)) err kill ::
         (if truthy kill then inspector_notice w None
          else CallDoneHandler dh (th_id (thread w)) :: inspector_notice w None)).
Proof.
  intros Hp Hdh Hfh Hdes Hcur.
  assert (Hsilent : forall x, destroy_notice toString w x = []).
  { intros x. unfold destroy_notice. rewrite Hcur, Hdes. reflexivity. }
  assert (Hmore : more_remain w = false) by (apply more_remain_absent; exact Hcur).
  split; [|split].
  - unfold _finCouldNotFindError. erewrite bind_eval; [|reflexivity]. rewrite Hdes. reflexivity.
  - destruct (_executorDoneHandler_sound toString w l dh Hp Hdh) as (w' & Hrun & Hcore & _).
    exists w'. split; [exact Hrun|].
    apply core_inv in Hcore as (_ & _ & _ & Hth & Htm & Hout).
    pose proof (after_done_view toString dh w) as Hv. cbv zeta in Hv.
    destruct Hv as (Hi & Ht & _ & Ho & _).
    rewrite Hmore in Ht, Ho. rewrite Hsilent, Hcur in Ho.
    split; [rewrite Hth; exact Hi|]. split; [rewrite Htm; exact Ht|].
    rewrite Hout, Ho, calls_app. cbn [app calls List.filter is_call].
    fold (calls (inspector_notice w None)). rewrite calls_inspector_notice. reflexivity.
  - destruct (_executorFailHandler_sound toString w l dh fh err kill Hp Hdh Hfh)
      as (w' & Hrun & Hcore & _).
    exists w'. split; [exact Hrun|].
    apply core_inv in Hcore as (_ & _ & _ & Hth & Htm & Hout).
    pose proof (after_fail_view toString dh fh err kill w) as Hv. cbv zeta in Hv.
    destruct Hv as (Herr & _ & _ & _ & Hk).
    split; [rewrite Hth; exact Herr|].
    destruct (truthy kill); destruct Hk as (Hi & Ht & _ & Ho).
    + rewrite Hsilent, Hcur in Ho.
      split; [rewrite Htm; exact Ht|]. split; [rewrite Hth; exact Hi|].
      rewrite Hout, Ho, calls_app. cbn [app calls List.filter is_call].
      fold (calls (inspector_notice w None)). rewrite calls_inspector_notice. reflexivity.
    + rewrite Hmore in Ht, Ho. rewrite !Hsilent, Hcur in Ho.
      split; [rewrite Htm; exact Ht|]. split; [rewrite Hth; exact Hi|].
      rewrite Hout, Ho, calls_app. cbn [app calls List.filter is_call].
      fold (calls (inspector_notice w None)). rewrite calls_inspector_notice. reflexivity.
Qed.

End PipelineClaims.

(** ** The handle's reference to itself in its value bag *)

Section SelfReference.

Variable Object_prototype : string -> Value.
Variable call_hasOwnProperty : loc -> string -> M Value.

(** The pipeline's deleting [_promise] from the bag does not touch the
    [ringaEvent] member. *)
Lemma forget_promise_keeps_self_reference w l e d :
  ringaEvent (thread w) = VRef l ->
  events w !! l = Some e ->
  detail e = VRef d ->
  exists w',
    forget_promise w = (Ret tt, w') /\
    member (heap w') d "ringaEvent" = member (heap w) d "ringaEvent".
Proof.
  intros Hr He Hd. unfold forget_promise. step ltac:(reflexivity). rewrite Hr.
  step ltac:(apply get_event_at; exact He). rewrite Hd.
  step ltac:(apply get_member_ref).
  destruct (truthy (member (heap w) d "_promise")) eqn:Hp.
  - assert (Hon : member (heap w) d "_promise" <> VUndefined)
      by (intros H; rewrite H in Hp; discriminate).
    destruct (member_is_bag _ _ _ Hon) as (bag & Hb).
    eexists. split; [unfold delete_member, modify; rewrite Hb; reflexivity|].
    cbn [heap set_heap]. unfold member. rewrite lookup_insert_eq, Hb.
    rewrite lookup_delete_ne by discriminate. reflexivity.
  - exists w. split; reflexivity.
Qed.

(** A parameter named ringaEvent resolves to what the bag holds under that
    name, for any executor, whatever its cached table and its controller's
    injections hold. *)
Lemma ringaEvent_resolves_to_the_entry w l e d bag v xl x :
  events w !! l = Some e ->
  detail e = VRef d ->
  heap w !! d = Some (OBag bag) ->
  bag !! "hasOwnProperty" = None ->
  bag !! "ringaEvent" = Some v ->
  executors w !! xl = Some x ->
  exists w',
    buildArgumentsFromRingaEvent Object_prototype call_hasOwnProperty
      (VRef xl) ["ringaEvent"] (VRef l) w = (Ret [v], w') /\
    heap w' = heap w /\ events w' = events w.
Proof.
  intros He Hd Hb Hplain Hv Hx.
  erewrite buildArguments_steps; [|exact Hx|exact He].
  eexists. split.
  { cbn [mapM].
    step ltac:(eapply resolve_from_bag; [exact He|exact Hd|exact Hb|exact Hplain|exact Hv]).
    reflexivity. }
  split; reflexivity.
Qed.

(** C9. Constructing a handle on a value bag supplied by the caller writes
    into that very bag, under the key ringaEvent, a reference to the new
    handle, and leaves every other object alone; the handle's [detail] is
    that bag.  In development mode the constructor refuses a falsy type
    before it touches the bag.  Whenever arguments are built for the handle
    afterwards, a declared parameter named ringaEvent resolves through the bag
    to what the bag holds under that key then, for any executor: to the
    handle itself right after the construction, and for as long as nothing
    has written the key since.  The bag is to leave [hasOwnProperty] to
    [Object.prototype]. *)
Theorem C9_constructor_stores_self_reference
    (w : World) (type bubbles cancelable event requireCatch : Value)
    (d : loc) (bag : gmap string Value) :
  heap w !! d = Some (OBag bag) ->
  (__DEV__ w && negb (truthy type) = true ->
   exists msg w',
     new_RingaEvent type (VRef d) bubbles cancelable event requireCatch w
       = (Throw (VError PlainError msg), w') /\
     heap w' = heap w /\ events w' = events w) /\
  (__DEV__ w && negb (truthy type) = false ->
   exists e w',
     new_RingaEvent type (VRef d) bubbles cancelable event requireCatch w
       = (Ret (VRef (next w)), w') /\
     events w' !! next w = Some e /\
     self e = next w /\
     detail e = VRef d /\
     heap w' !! d = Some (OBag (<["ringaEvent" := VRef (next w)]> bag)) /\
     (forall d', d' <> d -> heap w' !! d' = heap w !! d') /\
     executors w' = executors w /\
     (bag !! "hasOwnProperty" = None ->
      forall xl x, executors w' !! xl = Some x ->
        exists w'',
          buildArgumentsFromRingaEvent Object_prototype call_hasOwnProperty
            (VRef xl) ["ringaEvent"] (VRef (next w)) w' = (Ret [VRef (next w)], w'') /\
          heap w'' = heap w' /\ events w'' = events w') /\
     (forall later e2 bag2 v xl x,
        events later !! next w = Some e2 ->
        detail e2 = VRef d ->
        heap later !! d = Some (OBag bag2) ->
        bag2 !! "hasOwnProperty" = None ->
        bag2 !! "ringaEvent" = Some v ->
        executors later !! xl = Some x ->
        exists w'',
          buildArgumentsFromRingaEvent Object_prototype call_hasOwnProperty
            (VRef xl) ["ringaEvent"] (VRef (next w)) later = (Ret [v], w'') /\
          heap w'' = heap later /\ events w'' = events later)).
Proof.
  intros Hb. split.
  { intros Hdev. eexists. eexists. split.
    { unfold new_RingaEvent.
      step ltac:(reflexivity). step ltac:(reflexivity). step ltac:(reflexivity).
      cbn [__DEV__ set_next]. rewrite Hdev. reflexivity. }
    split; reflexivity. }
  intros Hdev.
  eexists. eexists. split.
  { unfold new_RingaEvent.
    step ltac:(reflexivity). step ltac:(reflexivity). step ltac:(reflexivity).
    cbn [__DEV__ set_next]. rewrite Hdev.
    step ltac:(reflexivity).
    step ltac:(unfold set_member, modify; cbn [heap set_next]; rewrite Hb; reflexivity).
    step ltac:(reflexivity). reflexivity. }
  cbn [events heap executors set_events set_heap set_next self detail fresh_handle].
  split; [apply lookup_insert_eq|]. split; [reflexivity|]. split; [reflexivity|].
  split; [apply lookup_insert_eq|].
  split; [intros d' Hne; apply lookup_insert_ne; congruence|].
  split; [reflexivity|].
  split.
  - intros Hplain xl x Hx.
    eapply ringaEvent_resolves_to_the_entry.
    + cbn [events set_events]. apply lookup_insert_eq.
    + reflexivity.
    + cbn [heap set_heap set_events]. apply lookup_insert_eq.
    + rewrite lookup_insert_ne by discriminate. exact Hplain.
    + apply lookup_insert_eq.
    + exact Hx.
  - intros later e2 bag2 v xl x He2 Hd2 Hb2 Hplain Hv Hx.
    eapply ringaEvent_resolves_to_the_entry; eassumption.
Qed.

End SelfReference.

(** * The properties at work on sample stores *)

Lemma C1_witness :
  handle_ready one_controller_left 11 failed_handle /\
  exists w',
    _done sample_toString (VRef 11) (VRef 21) one_controller_left =
      (Throw (VError ReferenceError "error is not defined"), w') /\
    calls (out w') = calls (out one_controller_left).
Proof.
  assert (Hq : handle_ready one_controller_left 11 failed_handle).
  { split; [vm_compute; reflexivity|]. split; [reflexivity|].
    exists 10. split; [reflexivity|]. left. vm_compute. reflexivity. }
  split; [exact Hq|].
  destruct (C1_done_throws_where_FAIL_is_due sample_toString one_controller_left 11
              failed_handle (VRef 21) (VStr "boom") [] Hq eq_refl eq_refl eq_refl)
    as (w' & Hthrow & _ & _ & _ & Hout).
  exists w'. split; assumption.
Defined.



Lemma C5_witness :
  timers step_queued = [ExecuteNext] /\
  kill step_queued = (Ret tt, after_kill step_queued) /\
  timers (after_kill step_queued) = [ExecuteNext] /\
  out (snd (turns sample_toString all_pending 1 (after_kill step_queued))) =
    out step_queued ++ [InspectorDispatch (Some first_executor); Execute second_executor].
Proof.
  destruct (C5_kill_only_clears_the_flag sample_toString all_pending)
    as (Hkill & _ & _ & _ & _ & _ & Hsame).
  split; [reflexivity|]. split; [exact (Hkill step_queued)|]. split; [reflexivity|].
  rewrite (Hsame 1 step_queued). vm_compute. reflexivity.
Defined.

Lemma C6_witness :
  __DEV__ (sample_world true []) = true /\
  tf_all (threadFactory (thread (sample_world true []))) = [] /\
  (exists msg,
     run sample_toString all_pending (VRef 11) onDone onFail (sample_world true [])
     = (Throw (VError PlainError msg), sample_world true [])) /\
  (exists msg,
     run sample_toString all_pending (VRef 11) onDone onFail
       (set_thread (set_running true (thread first_in_flight)) first_in_flight)
     = (Throw (VError PlainError msg),
        set_thread (set_running true (thread first_in_flight)) first_in_flight)) /\
  (exists msg,
     run sample_toString all_pending VUndefined onDone onFail first_in_flight
     = (Throw (VError PlainError msg), first_in_flight)) /\
  __DEV__ (sample_world false []) = false /\
  run sample_toString all_pending VUndefined onDone onFail
    (set_thread (set_running true (thread (sample_world false []))) (sample_world false []))
  = run_unguarded sample_toString all_pending VUndefined onDone onFail
      (set_thread (set_running true (thread (sample_world false []))) (sample_world false [])).
Proof.
  split; [reflexivity|]. split; [reflexivity|].
  split.
  { exact (proj1 (C6_run_guards_in_development_mode_only sample_toString all_pending
                    (sample_world true []) (VRef 11) onDone onFail)
             eq_refl (or_intror (or_introl eq_refl))). }
  split.
  { exact (proj1 (C6_run_guards_in_development_mode_only sample_toString all_pending
                    (set_thread (set_running true (thread first_in_flight)) first_in_flight)
                    (VRef 11) onDone onFail)
             eq_refl (or_introl eq_refl)). }
  split.
  { exact (proj1 (C6_run_guards_in_development_mode_only sample_toString all_pending
                    first_in_flight VUndefined onDone onFail)
             eq_refl (or_intror (or_intror eq_refl))). }
  split; [reflexivity|].
  exact (proj2 (proj2 (C6_run_guards_in_development_mode_only sample_toString all_pending
                         (set_thread (set_running true (thread (sample_world false [])))
                            (sample_world false []))
                         VUndefined onDone onFail)) eq_refl).
Defined.

Lemma C7_witness :
  pipeline_ready torn_down 11 /\
  destroyed (thread torn_down) = true /\
  current torn_down = None /\
  _finCouldNotFindError sample_toString VUndefined torn_down = (Ret tt, torn_down) /\
  exists w',
    _executorDoneHandler sample_toString torn_down = (Ret tt, w') /\
    index (thread w') = 1 /\
    calls (out w') = calls (out torn_down) ++ [CallDoneHandler 2 1; InspectorDispatch None].
Proof.
  assert (Hp : pipeline_ready torn_down 11).
  { split; [reflexivity|]. exists running_handle.
    split; [vm_compute; reflexivity|]. split; [reflexivity|].
    exists 10. split; [reflexivity|]. left. vm_compute. reflexivity. }
  split; [exact Hp|]. split; [reflexivity|]. split; [reflexivity|].
  destruct (C7_destroyed_only_silences_the_check sample_toString torn_down 11 2 3
              VUndefined VUndefined Hp eq_refl eq_refl eq_refl eq_refl)
    as (Hsilent & (w' & Hdone & Hi & _ & Ho) & _).
  split; [exact Hsilent|].
  exists w'. split; [exact Hdone|]. split; [exact Hi|]. exact Ho.
Defined.

Lemma C8_witness :
  events all_done !! 11 = Some done_handle /\
  object_prototype_key DONE = false /\
  exists w',
    addListener sample_toString (VRef 11) (VStr DONE) (VRef 30) all_done = (Ret (VRef 11), w') /\
    out w' = out all_done ++ [CallListener 30 (mkNotification DONE VUndefined VUndefined None)] /\
    exists w'',
      addListener sample_toString (VRef 11) (VStr DONE) (VRef 30) w' = (Throw twice, w'').
Proof.
  assert (He : events all_done !! 11 = Some done_handle) by (vm_compute; reflexivity).
  split; [exact He|]. split; [reflexivity|].
  destruct (C8_addListener_twice_fails_and_late_subscribers_get_history sample_toString
              all_done 11 done_handle DONE 30 He eq_refl eq_refl) as (_ & Hfresh).
  assert (Hnot : VRef 30 ∉ registered done_handle DONE).
  { vm_compute. apply not_elem_of_nil. }
  destruct (Hfresh Hnot) as (w' & Hadd & _ & Hout & w'' & Hagain & _).
  exists w'. split; [exact Hadd|]. split; [exact Hout|]. exists w''. exact Hagain.
Defined.

Lemma C9_witness :
  heap bag_and_executor !! 10 = Some (OBag callers_bag) /\
  executors bag_and_executor !! 7 = Some sample_executor /\
  (exists msg w',
     new_RingaEvent (VStr "") (VRef 10) VUndefined VUndefined VUndefined VUndefined
       bag_and_executor = (Throw (VError PlainError msg), w') /\
     heap w' = heap bag_and_executor) /\
  exists w' w'',
    new_RingaEvent (VStr "go") (VRef 10) VUndefined VUndefined VUndefined VUndefined
      bag_and_executor = (Ret (VRef 11), w') /\
    heap w' !! 10 = Some (OBag bag_after_dispatch) /\
    buildArgumentsFromRingaEvent sample_prototype never_shadowed
      (VRef 7) ["ringaEvent"] (VRef 11) w' = (Ret [VRef 11], w'').
Proof.
  assert (Hb : heap bag_and_executor !! 10 = Some (OBag callers_bag))
    by (vm_compute; reflexivity).
  assert (Hx : executors bag_and_executor !! 7 = Some sample_executor)
    by (vm_compute; reflexivity).
  split; [exact Hb|]. split; [exact Hx|]. split.
  - destruct (C9_constructor_stores_self_reference sample_prototype never_shadowed
                bag_and_executor (VStr "")
                VUndefined VUndefined VUndefined VUndefined 10 callers_bag Hb)
      as (Hrefused & _).
    destruct (Hrefused eq_refl) as (msg & w' & Hthrow & Hheap & _).
    exists msg, w'. split; [exact Hthrow|exact Hheap].
  - destruct (C9_constructor_stores_self_reference sample_prototype never_shadowed
                bag_and_executor (VStr "go")
                VUndefined VUndefined VUndefined VUndefined 10 callers_bag Hb)
      as (_ & Hmade).
    destruct (Hmade eq_refl)
      as (e & w' & Hnew & _ & _ & _ & Hheap & _ & Hsame & Hresolve & _).
    assert (Hx' : executors w' !! 7 = Some sample_executor) by (rewrite Hsame; exact Hx).
    destruct (Hresolve eq_refl 7 sample_executor Hx') as (w'' & Hrun & _).
    exists w', w''. split; [exact Hnew|]. split; [exact Hheap|exact Hrun].
Defined.

Lemma C10_witness :
  events world_with_cause !! 11 = Some caused_handle /\
  (exists e' w',
     set_lastPromiseResult (VRef 11) (VNum 0) world_with_cause = (Ret tt, w') /\
     events w' !! 11 = Some e' /\
     _lastPromiseResult e' = VNum 0 /\
     lastPromiseResult e' = VStr "deep") /\
  (exists e' w',
     set_lastPromiseError (VRef 11) (VNum 0) world_with_cause = (Ret tt, w') /\
     events w' !! 11 = Some e' /\
     _lastPromiseError e' = VNum 0 /\
     lastPromiseError e' = VStr "deep error").
Proof.
  assert (He : events world_with_cause !! 11 = Some caused_handle) by (vm_compute; reflexivity).
  split; [exact He|].
  destruct (C10_falsy_own_value_is_unset world_with_cause 11 caused_handle (VNum 0)
              He eq_refl eq_refl)
    as ((e1 & w1 & Hset1 & Hev1 & Hown1 & _ & _ & _ & Hget1 & _) &
        (e2 & w2 & Hset2 & Hev2 & Hown2 & _ & _ & _ & Hget2 & _)).
  split.
  - exists e1, w1. split; [exact Hset1|]. split; [exact Hev1|]. split; [exact Hown1|].
    rewrite Hget1. reflexivity.
  - exists e2, w2. split; [exact Hset2|]. split; [exact Hev2|]. split; [exact Hown2|].
    rewrite Hget2. reflexivity.
Defined.

(** * Where the code leaves the specification *)

(** C5. A step is queued when [kill()] is called: the flag is down, and yet
    the next turn of the scheduler starts the second executor.  And with the
    first executor still in flight when [kill()] is called, its completion
    has the scheduler start the second executor all the same. *)
Lemma C5_counterexample :
  timers step_queued = [ExecuteNext] /\
  running (thread (snd (kill step_queued))) = false /\
  ~ (forall ex,
       Execute ex ∉
       drop (length (out step_queued))
         (out (snd ((kill ;; tick sample_toString all_pending) step_queued)))) /\
  running (thread killed_in_flight) = false /\
  ~ (forall ex,
       Execute ex ∉
       drop (length (out killed_in_flight))
         (out (snd ((_executorDoneHandler sample_toString ;;
                     tick sample_toString all_pending) killed_in_flight)))).
Proof.
  split; [reflexivity|]. split; [reflexivity|]. split; [|split; [reflexivity|]].
  - intros H. apply (H second_executor). vm_compute.
    apply list_elem_of_further, list_elem_of_here.
  - intros H. apply (H second_executor). vm_compute.
    apply list_elem_of_further, list_elem_of_further, list_elem_of_here.
Qed.

(** C6. Outside development mode a pipeline with no executor factories is
    run without [run] throwing; it returns, having called onDone. *)
Lemma C6_counterexample :
  tf_all (threadFactory (thread (sample_world false []))) = [] /\
  ~ (exists e w', dispatch_and_run (sample_world false []) = (Throw e, w')) /\
  CallDoneHandler 2 1 ∈ out (snd (dispatch_and_run (sample_world false []))).
Proof.
  split; [reflexivity|]. split.
  - intros (e & w' & H). vm_compute in H. discriminate H.
  - vm_compute. repeat constructor.
Qed.

(** C7. On the pipeline torn down, the done-handler with no executor at the
    index moves the index on and calls onDone. *)
Lemma C7_counterexample :
  destroyed (thread torn_down) = true /\
  current torn_down = None /\
  _executorDoneHandler sample_toString torn_down <> (Ret tt, torn_down) /\
  CallDoneHandler 2 1 ∈ out (snd (_executorDoneHandler sample_toString torn_down)).
Proof.
  split; [reflexivity|]. split; [reflexivity|]. split.
  - intros H. apply (f_equal (fun r => index (thread (snd r)))) in H.
    vm_compute in H. discriminate H.
  - vm_compute. apply list_elem_of_further, list_elem_of_here.
Qed.

(** The running flag is never raised: a pipeline that has been run and
    whose first executor is in flight accepts a second [run], in development
    mode too. *)
Lemma second_run_is_not_refused :
  __DEV__ first_in_flight = true /\
  running (thread first_in_flight) = false /\
  fst (run sample_toString all_pending (VRef 11) onDone onFail first_in_flight) = Ret tt.
Proof. repeat split; vm_compute; reflexivity. Qed.

(** C9. Two handles made on one bag of the caller's: the bag holds the
    second under ringaEvent, so for the first handle the entry is not the
    handle itself, and a parameter named ringaEvent of an executor working
    for the first handle resolves to the second. *)
Lemma C9_counterexample :
  snd (new_RingaEvent (VStr "again") (VRef 10) VUndefined VUndefined VUndefined VUndefined
         dispatched_with_bag) = shared_bag /\
  detail <$> events shared_bag !! 11 = Some (VRef 10) /\
  detail <$> events shared_bag !! 12 = Some (VRef 10) /\
  member (heap shared_bag) 10 "ringaEvent" = VRef 12 /\
  member (heap shared_bag) 10 "ringaEvent" <> VRef 11 /\
  fst (buildArgumentsFromRingaEvent sample_prototype never_shadowed
         (VRef 7) ["ringaEvent"] (VRef 11) shared_bag) = Ret [VRef 12].
Proof.
  split; [vm_compute; reflexivity|]. split; [vm_compute; reflexivity|].
  split; [vm_compute; reflexivity|]. split; [vm_compute; reflexivity|].
  split; [vm_compute; discriminate|]. vm_compute. reflexivity.
Qed.

(** * Further properties of the dispatch handle *)

Section HandleMore.

Variable toString : Value -> string.

Lemma indexOf_Some xs x i : indexOf xs x = Some i -> xs !! i = Some x.
Proof.
  revert i. induction xs as [|y ys IH]; intros i; cbn [indexOf]; [discriminate|].
  destruct (strict_eq y x) eqn:Heq.
  - intros [= <-]. cbn. f_equal.
    destruct y, x; cbn in Heq; try discriminate; apply bool_decide_eq_true_1 in Heq; exact Heq.
  - destruct (indexOf ys x) as [j|]; cbn; [|discriminate].
    intros [= <-]. cbn. apply IH. reflexivity.
Qed.

Lemma indexOf_snoc xs c :
  truthy c = true ->
  exists i, indexOf (xs ++ [c]) c = Some i /\ (indexOf xs c = None -> i = length xs).
Proof.
  intros Hc. induction xs as [|y ys (i & Hi & Hlen)]; cbn [app indexOf length].
  - rewrite strict_eq_refl by exact Hc. exists 0. auto.
  - destruct (strict_eq y c).
    + exists 0. split; [reflexivity|discriminate].
    + rewrite Hi. exists (S i). split; [reflexivity|].
      destruct (indexOf ys c); cbn; [discriminate|]. intros _. f_equal. auto.
Qed.

Lemma splice1_lookup i xs x : xs !! i = Some x -> splice1 i xs = ([x], delete i xs).
Proof.
  intros H. unfold splice1. rewrite (drop_S _ _ _ H). cbn [take].
  rewrite take_0. rewrite delete_take_drop. reflexivity.
Qed.

Lemma splice_last_spec xs :
  splice_last xs = (match last xs with Some x => [x] | None => [] end, removelast xs).
Proof.
  unfold splice_last. destruct xs as [|x xs _] using rev_ind; [reflexivity|].
  rewrite last_snoc, List.removelast_last, length_app. cbn [length].
  replace (length xs + 1 - 1) with (length xs) by lia.
  assert (H : (xs ++ [x]) !! length xs = Some x) by (apply list_lookup_middle; reflexivity).
  rewrite (splice1_lookup _ _ _ H). f_equal.
  rewrite delete_take_drop. rewrite take_app_length.
  rewrite drop_ge by (rewrite length_app; cbn; lia). apply app_nil_r.
Qed.


Lemma _caught_runs w l e c :
  handle_ready w l e ->
  __DEV__ w && negb (truthy c) = false ->
  exists w',
    _caught toString (VRef l) c w = (Ret tt, w') /\
    core w' = core (with_event l (caught_by c e) w) /\
    handle_ready w' l (caught_by c e).
Proof.
  intros Hq Hdev. pose proof Hq as (He & Hs & _).
  assert (Hq1 : handle_ready (with_event l (caught_by c e) w) l (caught_by c e))
    by (apply handle_ready_with_event with (e := e); auto).
  destruct (addDebug_sound _ _ _ ("Caught by " +:+ template toString c) Hq1)
    as (w' & Hrun & Hcore & Hq').
  exists w'. split; [|split; assumption].
  unfold _caught. step ltac:(reflexivity). rewrite Hdev. step ltac:(reflexivity).
  step ltac:(unfold update_event; step ltac:(apply get_event_at; exact He);
             apply put_event_at).
  cbn [self set_catchers set___caught]. rewrite Hs. exact Hrun.
Qed.

(** [_uncatch] of a controller that [indexOf] does not find, outside
    development mode: [splice(-1, 1)] takes the last catcher. *)
Lemma _uncatch_last w l e c :
  handle_ready w l e ->
  __DEV__ w = false ->
  indexOf (catchers e) c = None ->
  exists w',
    _uncatch toString (VRef l) c w = (Ret tt, w') /\
    core w' = core (with_event l (uncaught_last e) w) /\
    handle_ready w' l (uncaught_last e).
Proof.
  intros Hq Hdev Hi. pose proof Hq as (He & Hs & _).
  assert (Hq1 : handle_ready (with_event l (uncaught_last e) w) l (uncaught_last e))
    by (apply handle_ready_with_event with (e := e); auto).
  destruct (addDebug_sound _ _ _ ("Uncaught by " +:+ template toString c) Hq1)
    as (w' & Hrun & Hcore & Hq').
  exists w'. split; [|split; assumption].
  unfold _uncatch. step ltac:(apply get_event_at; exact He). cbv zeta.
  step ltac:(reflexivity). rewrite Hi, Hdev. cbn [andb].
  step ltac:(reflexivity).
  rewrite splice_last_spec.
  replace (first (match last (catchers e) with Some x => [x] | None => [] end))
    with (default VUndefined (last (catchers e)))
    by (destruct (last (catchers e)); reflexivity).
  step ltac:(apply put_event_at). cbn [self set__catchers set_catchers]. rewrite Hs.
  exact Hrun.
Qed.

(** X1. Uncatching a controller that is not in flight.  In development mode
    [_uncatch] throws and the handle stays as it is.  Outside development mode
    the index -1 goes to [splice], which counts it from the end: the catcher
    registered last is moved to the completed list in the controller's place,
    and [undefined] is recorded as completed when nobody is in flight. *)
Theorem X1_uncatch_of_a_controller_not_in_flight w l e c :
  handle_ready w l e ->
  indexOf (catchers e) c = None ->
  (__DEV__ w = true ->
     _uncatch toString (VRef l) c w =
       (Throw (VError PlainError
          "RingaEvent::_uncatch(): controller that is uncatching could not be found. Was done called twice?"),
        w)) /\
  (__DEV__ w = false ->
     exists w' e',
       _uncatch toString (VRef l) c w = (Ret tt, w') /\
       events w' !! l = Some e' /\
       catchers e' = removelast (catchers e) /\
       _catchers e' = _catchers e ++ [default VUndefined (last (catchers e))] /\
       calls (out w') = calls (out w)).
Proof.
  intros Hq Hi. split; intros Hdev.
  - destruct Hq as (He & _). unfold _uncatch.
    step ltac:(apply get_event_at; exact He). cbv zeta.
    step ltac:(reflexivity). rewrite Hi, Hdev. reflexivity.
  - destruct (_uncatch_last _ _ _ _ Hq Hdev Hi) as (w' & Hrun & Hcore & _).
    apply core_inv in Hcore as (_ & Hev & _ & _ & _ & Hout).
    exists w'. eexists. split; [exact Hrun|].
    split; [rewrite Hev; unfold with_event; cbn [events set_events]; apply lookup_insert_eq|].
    split; [reflexivity|]. split; [reflexivity|]. exact Hout.
Qed.

(** X2. A controller that catches the handle and then uncatches it: it ends
    in the completed list, and the controllers in flight are the ones that
    were in flight before (in the same order when the controller was not among
    them already). *)
Theorem X2_caught_then_uncatch w l e c :
  handle_ready w l e ->
  truthy c = true ->
  exists w' e',
    (_caught toString (VRef l) c ;; _uncatch toString (VRef l) c) w = (Ret tt, w') /\
    events w' !! l = Some e' /\
    _catchers e' = _catchers e ++ [c] /\
    catchers e' ≡ₚ catchers e /\
    (indexOf (catchers e) c = None -> catchers e' = catchers e) /\
    __caught e' = true /\
    calls (out w') = calls (out w).
Proof.
  intros Hq Hc.
  destruct (_caught_runs w l e c Hq) as (w1 & Hrun1 & Hcore1 & Hq1).
  { rewrite Hc. apply andb_false_r. }
  destruct (indexOf_snoc (catchers e) c Hc) as (i & Hi & Hlen).
  pose proof (indexOf_Some _ _ _ Hi) as Hat.
  destruct (_uncatch_found toString w1 l (caught_by c e) c i Hq1 Hi) as (w2 & Hrun2 & Hcore2 & _).
  apply core_inv in Hcore1 as (_ & _ & _ & _ & _ & Hout1).
  apply core_inv in Hcore2 as (_ & Hev2 & _ & _ & _ & Hout2).
  exists w2. eexists. split; [step ltac:(exact Hrun1); exact Hrun2|].
  split; [rewrite Hev2; unfold with_event; cbn [events set_events]; apply lookup_insert_eq|].
  unfold uncaught, caught_by.
  cbn [catchers _catchers __caught set__catchers set_catchers set___caught].
  rewrite (splice1_lookup _ _ _ Hat). cbn [fst snd first head default].
  split; [reflexivity|]. split; [|split; [|split; [reflexivity|]]].
  - apply (Permutation_cons_inv (a := c)).
    rewrite <- (delete_Permutation _ _ _ Hat).
    rewrite Permutation_app_comm. reflexivity.
  - intros Hnone. rewrite (Hlen Hnone). rewrite delete_take_drop.
    rewrite take_app_length. rewrite drop_ge by (rewrite length_app; cbn; lia).
    apply app_nil_r.
  - rewrite Hout2. cbn [out with_event set_events]. exact Hout1.
Qed.

Lemma forEach_cons {A} (f : A -> M unit) (x : A) (xs : list A) :
  forEach f (x :: xs) = (f x ;; forEach f xs).
Proof. reflexivity. Qed.

Lemma pushError_at w l e err :
  events w !! l = Some e -> self e = l ->
  pushError (VRef l) err w =
  (Ret tt, with_event l (set__errors (Some (default [] (_errors e) ++ [err])) e) w).
Proof.
  intros He Hs. unfold pushError, update_event.
  step ltac:(apply get_event_at; exact He).
  rewrite put_event_at. cbn [self set__errors]. rewrite Hs. reflexivity.
Qed.

(** X3. [fail(error)] called any number of times: each call appends its error
    to the handle's [errors], in call order, starting the list when there is
    none.  Nothing else in the store changes: no notification is logged, no
    listener is called, and the pipeline is not touched. *)
Theorem X3_fail_only_records w l e err errs :
  events w !! l = Some e -> self e = l ->
  forEach (fail (VRef l)) (err :: errs) w =
  (Ret tt, with_event l (set__errors (Some (default [] (errors e) ++ err :: errs)) e) w).
Proof.
  revert w e err. induction errs as [|err2 errs IH]; intros w e err He Hs.
  - cbn [forEach]. unfold fail. step ltac:(apply pushError_at; eassumption). reflexivity.
  - rewrite forEach_cons. unfold fail at 1. step ltac:(apply pushError_at; eassumption).
    rewrite (IH _ (set__errors (Some (default [] (_errors e) ++ [err])) e)).
    + rewrite with_event_twice. unfold errors. cbn [_errors set__errors default id].
      rewrite <- app_assoc. destruct e; reflexivity.
    + unfold with_event. cbn [events set_events]. apply lookup_insert_eq.
    + exact Hs.
Qed.

Lemma calls_listeners (hs : list loc) (n : Notification) :
  calls (map (fun h => CallListener h n) hs) = map (fun h => CallListener h n) hs.
Proof. induction hs as [|h hs IH]; [reflexivity|]. cbn. f_equal. exact IH. Qed.

(** [_dispatchEvent] on a handle whose listeners for the type, if any, are
    functions. *)
Lemma _dispatchEvent_registered w l e type d err kill hs :
  events w !! l = Some e -> self e = l ->
  object_prototype_key type = false ->
  registered e type = map VRef hs ->
  _dispatchEvent (VRef l) type d err kill w =
  (Ret tt,
   log (map (fun h => CallListener h (live type d err kill)) hs)
     (with_event l (logged (kept type d err) e) w)).
Proof.
  intros He Hs Hk Hreg. unfold registered in Hreg.
  destruct (listeners e !! type) as [hs0|] eqn:Hl; cbn in Hreg.
  - subst hs0. apply _dispatchEvent_to_listeners; assumption.
  - destruct hs; [|discriminate]. unfold _dispatchEvent.
    step ltac:(apply get_event_at; exact He). cbv zeta.
    step ltac:(apply put_event_at). cbn [self set_dispatchedEvents]. rewrite Hs.
    rewrite (listeners_at_own _ _ Hk), Hl. cbn [map]. unfold ret, log.
    rewrite app_nil_r. unfold logged, kept.
    destruct (with_event l _ w); reflexivity.
Qed.

Lemma FAIL_is_own_key : object_prototype_key FAIL = false.
Proof. reflexivity. Qed.

Lemma DONE_is_own_key : object_prototype_key DONE = false.
Proof. reflexivity. Qed.

Lemma _fail_runs w l e c err killed hs e0 :
  handle_ready w l e ->
  registered e FAIL = map VRef hs ->
  (if truthy killed then exists i, indexOf (catchers e) c = Some i /\ e0 = uncaught i e
   else e0 = e) ->
  exists w',
    _fail toString (VRef l) c err killed w = (Ret tt, w') /\
    core w' = core (log (map (fun h => CallListener h (live FAIL VUndefined err killed)) hs)
                      (with_event l (logged (kept FAIL VUndefined err) e0) w)) /\
    handle_ready w' l (logged (kept FAIL VUndefined err) e0).
Proof.
  intros Hq Hreg Hk.
  assert (H0 : exists w0,
             (if truthy killed then _uncatch toString (VRef l) c else ret tt) w = (Ret tt, w0) /\
             core w0 = core (with_event l e0 w) /\ handle_ready w0 l e0).
  { destruct (truthy killed).
    - destruct Hk as (i & Hi & ->). apply _uncatch_found; assumption.
    - subst e0. exists w. split; [reflexivity|]. split; [|exact Hq].
      destruct Hq as (He & Hs & _). unfold core, with_event. fields.
      rewrite insert_id by exact He. reflexivity. }
  destruct H0 as (w0 & Hrun0 & Hcore0 & Hq0).
  destruct (addDebug_sound _ _ _ "Fail" Hq0) as (w1 & Hdbg & Hcore1 & Hq1).
  assert (Hreg0 : registered e0 FAIL = map VRef hs).
  { destruct (truthy killed); [destruct Hk as (i & _ & ->)|subst e0]; exact Hreg. }
  pose proof Hq1 as (He1 & Hs1 & d & Hd1 & Hok1).
  eexists. split; [|split].
  - unfold _fail. step ltac:(exact Hrun0). step ltac:(exact Hdbg).
    apply _dispatchEvent_registered; [exact He1|exact Hs1|reflexivity|exact Hreg0].
  - apply core_log. rewrite <- (with_event_twice l e0 _ w).
    apply core_with_event. congruence.
  - unfold log. apply handle_ready_with_event with (e := e0); [|exact Hs1|reflexivity].
    exact Hq1.
Qed.

(** X4. [_fail(controller, error, killed)] hands FAIL, with the error and the
    flag, to every FAIL listener once, in order of registration, and logs it.
    It does not record the error in [errors].  The controller is moved to the
    completed list when the flag is truthy, and stays in flight otherwise. *)
Theorem X4_internal_fail_notifies_and_records_nothing w l e c err killed hs :
  handle_ready w l e ->
  registered e FAIL = map VRef hs ->
  (truthy killed = true -> is_Some (indexOf (catchers e) c)) ->
  exists w' e',
    _fail toString (VRef l) c err killed w = (Ret tt, w') /\
    calls (out w') =
      calls (out w) ++ map (fun h => CallListener h (live FAIL VUndefined err killed)) hs /\
    events w' !! l = Some e' /\
    dispatchedEvents e' = dispatchedEvents e ++ [kept FAIL VUndefined err] /\
    errors e' = errors e /\
    (truthy killed = false -> catchers e' = catchers e /\ _catchers e' = _catchers e) /\
    (truthy killed = true ->
       exists i, indexOf (catchers e) c = Some i /\
                 catchers e' = delete i (catchers e) /\ _catchers e' = _catchers e ++ [c]).
Proof.
  intros Hq Hreg Hfound.
  set (e0 := if truthy killed
             then match indexOf (catchers e) c with Some i => uncaught i e | None => e end
             else e).
  destruct (_fail_runs w l e c err killed hs e0 Hq Hreg) as (w' & Hrun & Hcore & Hq').
  { subst e0. destruct (truthy killed); [|reflexivity].
    destruct (Hfound eq_refl) as (i & Hi). exists i. rewrite Hi. auto. }
  apply core_inv in Hcore as (_ & _ & _ & _ & _ & Hout).
  exists w', (logged (kept FAIL VUndefined err) e0).
  split; [exact Hrun|]. split.
  { rewrite Hout. unfold log. cbn [out set_out with_event set_events].
    rewrite calls_app, calls_listeners. reflexivity. }
  split; [apply Hq'|].
  subst e0. destruct (truthy killed).
  - destruct (Hfound eq_refl) as (i & Hi). rewrite Hi.
    pose proof (indexOf_Some _ _ _ Hi) as Hat.
    split; [reflexivity|]. split; [reflexivity|]. split; [discriminate|]. intros _.
    exists i. split; [reflexivity|].
    unfold logged, uncaught. cbn [catchers _catchers set_dispatchedEvents set__catchers set_catchers].
    rewrite (splice1_lookup _ _ _ Hat). auto.
  - split; [reflexivity|]. split; [reflexivity|]. split; [auto|discriminate].
Qed.

(** X5. A non-fatal failure reported through [_fail], then the same
    controller, the only one in flight, reporting done with no error recorded:
    the listeners get FAIL and then DONE, and both are logged. *)
Theorem X5_nonfatal_fail_then_done_announces_both w l e c err killed fs ds :
  handle_ready w l e ->
  truthy c = true ->
  truthy killed = false ->
  catchers e = [c] ->
  errors e = None \/ errors e = Some [] ->
  registered e FAIL = map VRef fs ->
  registered e DONE = map VRef ds ->
  exists w' e',
    (_fail toString (VRef l) c err killed ;; _done toString (VRef l) c) w = (Ret tt, w') /\
    calls (out w') =
      calls (out w) ++
      map (fun h => CallListener h (live FAIL VUndefined err killed)) fs ++
      map (fun h => CallListener h (live DONE VUndefined VUndefined VUndefined)) ds /\
    events w' !! l = Some e' /\
    dispatchedEvents e' =
      dispatchedEvents e ++ [kept FAIL VUndefined err; kept DONE VUndefined VUndefined] /\
    catchers e' = [] /\ _catchers e' = _catchers e ++ [c].
Proof.
  intros Hq Hc Hk Hcs Herr Hf Hd.
  destruct (_fail_runs w l e c err killed fs e Hq Hf) as (w1 & Hrun1 & Hcore1 & Hq1).
  { rewrite Hk. reflexivity. }
  set (e1 := logged (kept FAIL VUndefined err) e) in *.
  assert (Hi : indexOf (catchers e1) c = Some 0).
  { subst e1. cbn [logged catchers set_dispatchedEvents]. rewrite Hcs. cbn.
    rewrite strict_eq_refl by exact Hc. reflexivity. }
  destruct (_done_steps toString w1 l e1 c 0 Hq1 Hc Hi) as (w2 & Hcore2 & Hq2 & Hrun2).
  assert (Hlen : length (catchers (uncaught 0 e1)) = 0).
  { subst e1. cbn [uncaught logged catchers set__catchers set_catchers set_dispatchedEvents].
    rewrite Hcs. reflexivity. }
  rewrite bool_decide_eq_true_2 in Hrun2 by exact Hlen.
  destruct Hq2 as (He2 & Hs2 & _).
  assert (Hrun3 : _done toString (VRef l) c w1 =
                  (Ret tt,
                   log (map (fun h => CallListener h (live DONE VUndefined VUndefined VUndefined)) ds)
                     (with_event l (logged (kept DONE VUndefined VUndefined) (uncaught 0 e1)) w2))).
  { rewrite Hrun2.
    assert (He : _errors e1 = None \/ _errors e1 = Some []) by exact Herr.
    destruct He as [-> | ->];
      apply _dispatchEvent_registered;
      [exact He2|exact Hs2|reflexivity|exact Hd|exact He2|exact Hs2|reflexivity|exact Hd]. }
  apply core_inv in Hcore1 as (_ & _ & _ & _ & _ & Hout1).
  apply core_inv in Hcore2 as (_ & _ & _ & _ & _ & Hout2).
  eexists. eexists. split; [step ltac:(exact Hrun1); exact Hrun3|].
  unfold log. cbn [out set_out events set_events with_event].
  split.
  { rewrite calls_app, calls_listeners, Hout2. cbn [out with_event set_events].
    rewrite Hout1. unfold log. cbn [out set_out with_event set_events].
    rewrite calls_app, calls_listeners, <- app_assoc. reflexivity. }
  split; [apply lookup_insert_eq|].
  subst e1. unfold logged, uncaught, kept.
  cbn [dispatchedEvents catchers _catchers set_dispatchedEvents set__catchers set_catchers].
  rewrite Hcs. cbn [splice1 drop take fst snd first head default app].
  rewrite <- app_assoc. auto.
Qed.

(** X6. A notification emitted while listeners are registered, and a listener
    registered for its type afterwards: the listeners present get the
    notification with its [kill] member, the late one gets the logged record,
    which has none, after the older records of that type. *)
Theorem X6_late_subscriber_gets_no_kill_flag w l e type d err kill hs h :
  events w !! l = Some e -> self e = l ->
  object_prototype_key type = false ->
  registered e type = map VRef hs ->
  h ∉ hs ->
  exists w',
    (_dispatchEvent (VRef l) type d err kill ;;
     addListener toString (VRef l) (VStr type) (VRef h)) w = (Ret (VRef l), w') /\
    out w' =
      out w ++ map (fun h' => CallListener h' (live type d err kill)) hs ++
      map (CallListener h) (history e type) ++ [CallListener h (kept type d err)] /\
    n_kill (live type d err kill) = Some kill /\
    n_kill (kept type d err) = None.
Proof.
  intros He Hs Hk Hreg Hh.
  set (e1 := logged (kept type d err) e).
  eexists. split.
  - step ltac:(apply (_dispatchEvent_registered _ _ _ _ _ _ _ _ He Hs Hk Hreg)).
    apply (addListener_fresh toString _ l e1).
    + unfold log, with_event. cbn [events set_out set_events]. apply lookup_insert_eq.
    + exact Hs.
    + exact Hk.
    + replace (registered e1 type) with (registered e type) by reflexivity.
      rewrite Hreg. intros Hin. apply list_elem_of_fmap in Hin as (h' & [= <-] & Hin).
      contradiction.
  - split; [|split; reflexivity].
    unfold log. cbn [out set_out with_event set_events].
    subst e1. unfold history, logged. cbn [dispatchedEvents set_dispatchedEvents].
    rewrite filter_app, map_app, <- !app_assoc. do 2 f_equal.
    rewrite filter_cons_True by reflexivity. reflexivity.
Qed.

(** X7. [_done] for the only controller in flight, with no error recorded,
    and then [_done] once more.  The first call announces DONE.  The second
    call throws in development mode, because the controller is no longer in
    flight.  Outside development mode it announces DONE a second time, to the
    same listeners, and records [undefined] as a completed controller. *)
Theorem X7_done_twice w l e c ds :
  handle_ready w l e ->
  truthy c = true ->
  catchers e = [c] ->
  errors e = None \/ errors e = Some [] ->
  registered e DONE = map VRef ds ->
  let announced := map (fun h => CallListener h (live DONE VUndefined VUndefined VUndefined)) ds in
  (__DEV__ w = true ->
     exists w',
       (_done toString (VRef l) c ;; _done toString (VRef l) c) w =
         (Throw (VError PlainError
            "RingaEvent::_uncatch(): controller that is uncatching could not be found. Was done called twice?"),
          w') /\
       calls (out w') = calls (out w) ++ announced) /\
  (__DEV__ w = false ->
     exists w' e',
       (_done toString (VRef l) c ;; _done toString (VRef l) c) w = (Ret tt, w') /\
       calls (out w') = calls (out w) ++ announced ++ announced /\
       events w' !! l = Some e' /\
       dispatchedEvents e' =
         dispatchedEvents e ++ [kept DONE VUndefined VUndefined; kept DONE VUndefined VUndefined] /\
       _catchers e' = _catchers e ++ [c; VUndefined]).
Proof.
  intros Hq Hc Hcs Herr Hd announced.
  assert (Hcl : calls announced = announced) by apply calls_listeners.
  assert (Hi : indexOf (catchers e) c = Some 0).
  { rewrite Hcs. cbn. rewrite strict_eq_refl by exact Hc. reflexivity. }
  destruct (_done_steps toString w l e c 0 Hq Hc Hi) as (w1 & Hcore1 & Hq1 & Hrun1).
  assert (Hcs1 : catchers (uncaught 0 e) = []).
  { cbn [uncaught catchers set__catchers set_catchers]. rewrite Hcs. reflexivity. }
  assert (Hc1 : _catchers (uncaught 0 e) = _catchers e ++ [c]).
  { cbn [uncaught _catchers set__catchers set_catchers]. rewrite Hcs. reflexivity. }
  rewrite Hcs1 in Hrun1. cbn [length] in Hrun1.
  rewrite bool_decide_eq_true_2 in Hrun1 by reflexivity.
  pose proof Hq1 as (He1 & Hs1 & _).
  set (e2 := logged (kept DONE VUndefined VUndefined) (uncaught 0 e)).
  set (w2 := log announced (with_event l e2 w1)).
  assert (Hfirst : _done toString (VRef l) c w = (Ret tt, w2)).
  { rewrite Hrun1.
    assert (He : _errors e = None \/ _errors e = Some []) by exact Herr.
    destruct He as [-> | ->];
      apply _dispatchEvent_registered;
      [exact He1|exact Hs1|reflexivity|exact Hd|exact He1|exact Hs1|reflexivity|exact Hd]. }
  assert (Hq2 : handle_ready w2 l e2).
  { subst w2. unfold log. apply handle_ready_with_event with (e := uncaught 0 e);
      [exact Hq1|exact Hs1|reflexivity]. }
  assert (Hout2 : calls (out w2) = calls (out w) ++ announced).
  { subst w2. unfold log. cbn [out set_out with_event set_events].
    rewrite calls_app, Hcl.
    apply core_inv in Hcore1 as (_ & _ & _ & _ & _ & ->). reflexivity. }
  assert (Hdev2 : __DEV__ w2 = __DEV__ w).
  { subst w2. unfold log. cbn [__DEV__ set_out with_event set_events].
    apply core_inv in Hcore1 as (-> & _). reflexivity. }
  assert (Hi2 : indexOf (catchers e2) c = None).
  { subst e2. cbn [logged catchers set_dispatchedEvents]. rewrite Hcs1. reflexivity. }
  pose proof Hq2 as (He2 & Hs2 & _).
  split; intros Hdev.
  - exists w2. split; [|exact Hout2].
    step ltac:(exact Hfirst). unfold _done. step ltac:(reflexivity).
    rewrite Hc, andb_false_r. step ltac:(reflexivity).
    unfold _uncatch. unfold bind at 1. unfold bind at 1.
    rewrite (get_event_at _ _ _ He2). cbv zeta. unfold bind at 1, get at 1.
    rewrite Hi2, Hdev2, Hdev. reflexivity.
  - destruct (_uncatch_last w2 l e2 c Hq2) as (w3 & Hrun3 & Hcore3 & Hq3);
      [rewrite Hdev2; exact Hdev|exact Hi2|].
    destruct (addDebug_sound _ _ _ "Done" Hq3) as (w4 & Hdbg & Hcore4 & Hq4).
    pose proof Hq4 as (He4 & Hs4 & _).
    eexists. eexists. split.
    { step ltac:(exact Hfirst). unfold _done. step ltac:(reflexivity).
      rewrite Hc, andb_false_r. step ltac:(reflexivity).
      step ltac:(exact Hrun3). step ltac:(exact Hdbg).
      step ltac:(apply get_event_at; exact He4).
      replace (catchers (uncaught_last e2)) with (@nil Value)
        by (subst e2; cbn [uncaught_last logged catchers set__catchers set_catchers
                            set_dispatchedEvents]; rewrite Hcs1; reflexivity).
      cbn [length]. rewrite bool_decide_eq_true_2 by reflexivity.
      replace (_errors (uncaught_last e2)) with (_errors e) by reflexivity.
      assert (He : _errors e = None \/ _errors e = Some []) by exact Herr.
      destruct He as [-> | ->];
        apply _dispatchEvent_registered with (hs := ds);
        [exact He4|exact Hs4|reflexivity|exact Hd|exact He4|exact Hs4|reflexivity|exact Hd]. }
    unfold log. cbn [out set_out events set_events with_event].
    split.
    { rewrite calls_app. fold announced. rewrite Hcl.
      apply core_inv in Hcore4 as (_ & _ & _ & _ & _ & ->).
      apply core_inv in Hcore3 as (_ & _ & _ & _ & _ & ->).
      cbn [out with_event set_events]. rewrite Hout2, <- app_assoc. reflexivity. }
    split; [apply lookup_insert_eq|].
    subst e2. unfold logged, uncaught_last, kept.
    cbn [dispatchedEvents _catchers catchers set_dispatchedEvents set__catchers set_catchers].
    rewrite Hcs1, Hc1. cbn [last default]. rewrite <- !app_assoc. auto.
Qed.

End HandleMore.

(** * The debug log *)

Section DebugLog.

(** X8. [addDebug] returns at once when the bag has no [debug] member, and
    when the member is a number from 0 upwards: the messages of the engine,
    which all have the default level 0, are then dropped. *)
Theorem X8_addDebug_silent_from_level_zero w l e d message :
  events w !! l = Some e ->
  detail e = VRef d ->
  member (heap w) d "debug" = VUndefined \/
  (exists z, member (heap w) d "debug" = VNum z /\ (0 <= z)%Z) ->
  addDebug (VRef l) message w = (Ret tt, w).
Proof.
  intros He Hd Hoff. unfold addDebug. step ltac:(apply (debug_eval _ _ _ _ He Hd)).
  destruct Hoff as [-> | (z & -> & Hz)]; [reflexivity|].
  cbv zeta. apply Z.leb_le in Hz. rewrite Hz. reflexivity.
Qed.

Lemma addDebug_logs w l e d message :
  handle_ready w l e ->
  detail e = VRef d ->
  lets_through (member (heap w) d "debug") ->
  (truthy (member (heap w) d "$debug") = false -> next w <> d) ->
  exists w',
    addDebug (VRef l) message w = (Ret tt, w') /\
    handle_ready w' l e /\
    truthy (member (heap w') d "$debug") = true /\
    debug_log (heap w') d = debug_log (heap w) d ++ [VStr message] /\
    out w' = out w ++ [ConsoleLog message] /\
    events w' = events w /\
    (forall k, k <> "$debug" -> member (heap w') d k = member (heap w) d k).
Proof.
  intros (He & Hs & d0 & Hd0 & Hok) Hd (Hon & Hneg) Hfresh.
  rewrite Hd in Hd0. injection Hd0 as <-.
  destruct (member_is_bag _ _ _ Hon) as (bag & Hb).
  assert (Hstart :
    addDebug (VRef l) message w =
    (let* arr :=
       (if truthy (member (heap w) d "$debug")
        then ret (member (heap w) d "$debug")
        else let* l0 := alloc in
             modify (fun w0 => set_heap (<[l0 := OArr []]> (heap w0)) w0) ;;
             ret (VRef l0)) in
     set_member (VRef d) "$debug" arr ;; push arr (VStr message))
      (set_out (out w ++ [ConsoleLog message]) w)).
  { unfold addDebug. step ltac:(apply (debug_eval _ _ _ _ He Hd)).
    destruct (member (heap w) d "debug") eqn:Hdbg; try congruence.
    all: cbv zeta.
    all: try (specialize (Hneg _ eq_refl); apply Z.leb_gt in Hneg; rewrite Hneg).
    all: step ltac:(reflexivity);
         step ltac:(apply get_event_at; exact He);
         rewrite Hd;
         step ltac:(apply get_member_ref).
    all: reflexivity. }
  rewrite Hstart. clear Hstart.
  destruct Hok as [Hfalsy | (a & xs & Ha & Harr)].
  - specialize (Hfresh Hfalsy). rewrite Hfalsy.
    step ltac:(step ltac:(reflexivity); step ltac:(reflexivity); reflexivity).
    cbn [next set_out heap set_heap set_next].
    step ltac:(unfold set_member, modify; cbn [heap set_heap set_next set_out];
               rewrite lookup_insert_ne by exact Hfresh; rewrite Hb; reflexivity).
    erewrite push_array
      by (cbn [heap set_heap set_next set_out];
          rewrite lookup_insert_ne by congruence; apply lookup_insert_eq).
    eexists. split; [reflexivity|].
    cbn [heap events out set_heap set_next set_out].
    assert (Hm : forall k,
               member (<[next w := OArr [VStr message]]>
                         (<[d := OBag (<["$debug" := VRef (next w)]> bag)]>
                            (<[next w := OArr []]> (heap w)))) d k =
               default VUndefined (<["$debug" := VRef (next w)]> bag !! k)).
    { intros k. unfold member. rewrite lookup_insert_ne by exact Hfresh.
      rewrite lookup_insert_eq. reflexivity. }
    split; [|split; [|split; [|split; [|split]]]].
    + split; [exact He|]. split; [exact Hs|]. exists d. split; [exact Hd|].
      right. exists (next w), [VStr message]. rewrite Hm, lookup_insert_eq.
      split; [reflexivity|apply lookup_insert_eq].
    + rewrite Hm, lookup_insert_eq. reflexivity.
    + unfold debug_log. rewrite Hm, lookup_insert_eq. cbn [default id].
      rewrite lookup_insert_eq.
      destruct (member (heap w) d "$debug"); try discriminate; reflexivity.
    + reflexivity.
    + reflexivity.
    + intros k Hk. rewrite Hm. rewrite lookup_insert_ne by congruence.
      unfold member. rewrite Hb. reflexivity.
  - assert (Had : a <> d) by (intros ->; congruence).
    rewrite Ha. cbn [truthy]. step ltac:(reflexivity).
    step ltac:(unfold set_member, modify; cbn [heap set_out]; rewrite Hb; reflexivity).
    erewrite push_array
      by (cbn [heap set_heap set_out]; rewrite lookup_insert_ne by congruence; exact Harr).
    eexists. split; [reflexivity|].
    cbn [heap events out set_heap set_out].
    assert (Hm : forall k,
               member (<[a := OArr (xs ++ [VStr message])]>
                         (<[d := OBag (<["$debug" := VRef a]> bag)]> (heap w))) d k =
               default VUndefined (<["$debug" := VRef a]> bag !! k)).
    { intros k. unfold member. rewrite lookup_insert_ne by exact Had.
      rewrite lookup_insert_eq. reflexivity. }
    split; [|split; [|split; [|split; [|split]]]].
    + split; [exact He|]. split; [exact Hs|]. exists d. split; [exact Hd|].
      right. exists a, (xs ++ [VStr message]). rewrite Hm, lookup_insert_eq.
      split; [reflexivity|apply lookup_insert_eq].
    + rewrite Hm, lookup_insert_eq. reflexivity.
    + unfold debug_log. rewrite Hm, lookup_insert_eq. cbn [default id].
      rewrite lookup_insert_eq, Ha, Harr. reflexivity.
    + reflexivity.
    + reflexivity.
    + intros k Hk. rewrite Hm. rewrite lookup_insert_ne by congruence.
      unfold member. rewrite Hb. reflexivity.
Qed.

(** X9. With debugging on, every message given to [addDebug] goes to the
    console and to the end of the array [detail.$debug], in call order; the
    array is made at the first message when the bag has none.  The other
    members of the bag, and the handles, stay as they are.  Any value of
    [detail.debug] other than [undefined] and a number from 0 upwards switches
    debugging on, [false] and [null] included. *)
Theorem X9_addDebug_appends_to_the_log w l e d messages :
  handle_ready w l e ->
  detail e = VRef d ->
  lets_through (member (heap w) d "debug") ->
  (truthy (member (heap w) d "$debug") = false -> next w <> d) ->
  exists w',
    forEach (addDebug (VRef l)) messages w = (Ret tt, w') /\
    debug_log (heap w') d = debug_log (heap w) d ++ map VStr messages /\
    out w' = out w ++ map ConsoleLog messages /\
    events w' = events w /\
    (forall k, k <> "$debug" -> member (heap w') d k = member (heap w) d k).
Proof.
  revert w. induction messages as [|m ms IH]; intros w Hq Hd Hon Hfresh.
  - exists w. cbn [forEach map]. rewrite !app_nil_r. auto.
  - destruct (addDebug_logs w l e d m Hq Hd Hon Hfresh)
      as (w1 & Hrun & Hq1 & Harr & Hlog & Hout & Hev & Hmem).
    destruct (IH w1 Hq1 Hd) as (w2 & Hrun2 & Hlog2 & Hout2 & Hev2 & Hmem2).
    { rewrite Hmem by discriminate. exact Hon. }
    { rewrite Harr. discriminate. }
    exists w2. split; [rewrite forEach_cons; step ltac:(exact Hrun); exact Hrun2|].
    split; [rewrite Hlog2, Hlog; cbn [map]; rewrite <- app_assoc; reflexivity|].
    split; [rewrite Hout2, Hout; cbn [map]; rewrite <- app_assoc; reflexivity|].
    split; [congruence|].
    intros k Hk. rewrite Hmem2, Hmem by exact Hk. reflexivity.
Qed.

End DebugLog.

(** * Construction and subscription *)

Section Construction.

Variable toString : Value -> string.

(** X10. In development mode the constructor refuses a falsy type before it
    writes anything: no handle is stored and a bag supplied by the caller is
    left without the [ringaEvent] member. *)
Theorem X10_new_RingaEvent_refuses_a_falsy_type
    w type detail bubbles cancelable event requireCatch :
  __DEV__ w = true ->
  truthy type = false ->
  exists msg w',
    new_RingaEvent type detail bubbles cancelable event requireCatch w =
      (Throw (VError PlainError msg), w') /\
    events w' = events w /\
    out w' = out w /\
    (detail <> VUndefined -> heap w' = heap w).
Proof.
  intros Hdev Ht. unfold new_RingaEvent.
  destruct (decide (detail = VUndefined)) as [->|Hd].
  - step ltac:(step ltac:(reflexivity); step ltac:(reflexivity); reflexivity).
    step ltac:(reflexivity). step ltac:(reflexivity).
    cbn [__DEV__ set_next set_heap]. rewrite Hdev, Ht. cbn [andb negb].
    eexists. eexists. split; [reflexivity|]. split; [reflexivity|].
    split; [reflexivity|]. congruence.
  - assert (Hkeep : (match detail with
                     | VUndefined =>
                         let* l := alloc in
                         modify (fun w => set_heap (<[l := OBag ∅]> (heap w)) w) ;;
                         ret (VRef l)
                     | _ => ret detail
                     end) w = (Ret detail, w)) by (destruct detail; try reflexivity; congruence).
    step ltac:(exact Hkeep). step ltac:(reflexivity). step ltac:(reflexivity).
    cbn [__DEV__ set_next]. rewrite Hdev, Ht. cbn [andb negb].
    eexists. eexists. split; [reflexivity|]. auto.
Qed.

(** X11. The default bag stands in for [undefined] only.  Given [null], a
    boolean, a number or a string as detail, the constructor throws a
    TypeError at the write of the self-reference; no handle is stored. *)
Theorem X11_new_RingaEvent_needs_an_object_for_detail
    w type detail bubbles cancelable event requireCatch :
  __DEV__ w && negb (truthy type) = false ->
  primitive detail = true ->
  exists msg w',
    new_RingaEvent type detail bubbles cancelable event requireCatch w =
      (Throw (VError TypeError msg), w') /\
    events w' = events w /\
    heap w' = heap w /\
    out w' = out w.
Proof.
  intros Hdev Hp. unfold new_RingaEvent.
  assert (Hkeep : (match detail with
                   | VUndefined =>
                       let* l := alloc in
                       modify (fun w => set_heap (<[l := OBag ∅]> (heap w)) w) ;;
                       ret (VRef l)
                   | _ => ret detail
                   end) w = (Ret detail, w)) by (destruct detail; try discriminate; reflexivity).
  step ltac:(exact Hkeep). step ltac:(reflexivity). step ltac:(reflexivity).
  cbn [__DEV__ set_next]. rewrite Hdev. step ltac:(reflexivity).
  destruct detail; try discriminate; eexists; eexists; (split; [reflexivity|auto]).
Qed.

Variable Object_prototype : string -> Value.
Variable call_hasOwnProperty : loc -> string -> M Value.
Variable declared : Value -> list string.
Variable apply : Value -> list Value -> M unit.

(** With the caller's functions as listeners, the two methods with the call
    as a parameter are the methods themselves. *)
Lemma addListener_calling_listeners this eventType handler :
  addListener_calling toString call_listener this eventType handler =
  addListener toString this eventType handler.
Proof. reflexivity. Qed.

Lemma _dispatchEvent_calling_listeners this type detail error kill :
  _dispatchEvent_calling call_listener this type detail error kill =
  _dispatchEvent this type detail error kill.
Proof. reflexivity. Qed.

(** The arrow function hands the resolver [undefined] as executor: the
    resolver's first read throws, before the handler is applied. *)
Lemma done_callback_throws this handler w :
  done_callback Object_prototype call_hasOwnProperty declared apply this handler w =
  (Throw no_executor_given, w).
Proof. reflexivity. Qed.

(** Registration from the point where the handlers [hs] registered so far
    have been read. *)
Lemma addListener_calling_from_slot call w l e type hs handler :
  events w !! l = Some e -> self e = l ->
  object_prototype_key type = false ->
  registered e type = hs ->
  addListener_calling toString call (VRef l) (VStr type) handler w =
  (put_event (set_listeners (<[type := hs]> (listeners e)) e) ;;
   (if bool_decide (indexOf hs handler = None) then ret tt
    else throw_error "RingaEvent::addListener(): the same function was added as a listener twice") ;;
   update_event (VRef l)
     (fun e => set_listeners (<[type := hs ++ [handler]]> (listeners e)) e) ;;
   let* e := get_event (VRef l) in
   forEach (fun n => if strict_eq (VStr (n_type n)) (VStr type)
                     then call handler n else ret tt) (dispatchedEvents e) ;;
   ret (VRef l)) w.
Proof.
  intros He Hs Hk Hreg.
  unfold addListener_calling. unfold bind at 1, get at 1. rewrite andb_false_r.
  unfold bind at 1, ret at 1. cbn [template]. unfold bind at 1.
  rewrite (get_event_at _ _ _ He).
  rewrite (listeners_at_own _ _ Hk). unfold registered in Hreg.
  destruct (listeners e !! type) as [hs0|]; cbn [default] in Hreg; subst hs; reflexivity.
Qed.

(** Registration of a function not yet registered, up to the replay. *)
Lemma addListener_calling_fresh call w l e type h :
  events w !! l = Some e -> self e = l ->
  object_prototype_key type = false ->
  VRef h ∉ registered e type ->
  addListener_calling toString call (VRef l) (VStr type) (VRef h) w =
  (forEach (fun n => if strict_eq (VStr (n_type n)) (VStr type)
                     then call (VRef h) n else ret tt) (dispatchedEvents e) ;;
   ret (VRef l)) (with_event l (listening type (VRef h) e) w).
Proof.
  intros He Hs Hk Hin.
  rewrite (addListener_calling_from_slot _ _ _ _ _ _ _ He Hs Hk eq_refl).
  assert (Hidx : indexOf (registered e type) (VRef h) = None) by (apply indexOf_ref_None; exact Hin).
  unfold bind at 1. rewrite put_event_at. cbn [self set_listeners]. rewrite Hs.
  unfold bind at 1. rewrite bool_decide_eq_true_2 by exact Hidx. unfold ret at 1.
  unfold bind at 1. unfold update_event. unfold bind at 1.
  rewrite (get_event_at _ _ (set_listeners (<[type := registered e type]> (listeners e)) e))
    by (unfold with_event; cbn [events set_events]; apply lookup_insert_eq).
  rewrite put_event_at. cbn [self set_listeners listeners]. rewrite Hs.
  rewrite with_event_twice. rewrite insert_insert_eq.
  unfold bind at 1.
  rewrite (get_event_at _ _ (listening type (VRef h) e))
    by (unfold with_event; cbn [events set_events]; apply lookup_insert_eq).
  reflexivity.
Qed.

(** The replay over a log that holds nothing of the type calls nobody. *)
Lemma replay_nothing (call : Value -> Notification -> M unit) handler type ns w :
  filter (fun n => n_type n = type) ns = [] ->
  forEach (fun n => if strict_eq (VStr (n_type n)) (VStr type)
                    then call handler n else ret tt) ns w = (Ret tt, w).
Proof.
  induction ns as [|n ns IH]; intros Hnone; [reflexivity|].
  rewrite filter_cons in Hnone. rewrite forEach_cons. cbn [strict_eq].
  destruct (decide (n_type n = type)) as [Heq|Hne]; [discriminate|].
  rewrite bool_decide_eq_false_2 by congruence.
  step ltac:(reflexivity). apply IH. exact Hnone.
Qed.

(** The replay stops at the first notification of the type when the call
    throws. *)
Lemma replay_throws (call : Value -> Notification -> M unit) handler type ns err w :
  (forall n w', call handler n w' = (Throw err, w')) ->
  filter (fun n => n_type n = type) ns <> [] ->
  forEach (fun n => if strict_eq (VStr (n_type n)) (VStr type)
                    then call handler n else ret tt) ns w = (Throw err, w).
Proof.
  intros Hcall. induction ns as [|n ns IH]; intros Hsome; [contradiction|].
  rewrite filter_cons in Hsome. rewrite forEach_cons. cbn [strict_eq].
  destruct (decide (n_type n = type)) as [Heq|Hne].
  - rewrite bool_decide_eq_true_2 by congruence.
    unfold bind. rewrite Hcall. reflexivity.
  - rewrite bool_decide_eq_false_2 by congruence.
    step ltac:(reflexivity). apply IH. exact Hsome.
Qed.

(** The caller's listeners ahead of the arrow function are called and
    recorded. *)
Lemma forEach_before_the_callback callback this handler n (hs : list loc) w :
  callback ∉ hs ->
  forEach (fun h => call_done_listener Object_prototype call_hasOwnProperty declared apply
                      callback this handler h n) (map VRef hs ++ [VRef callback]) w =
  (Throw no_executor_given, set_out (out w ++ map (fun h => CallListener h n) hs) w).
Proof.
  revert w. induction hs as [|h hs IH]; intros w Hnot.
  - cbn [map app]. rewrite forEach_cons. unfold call_done_listener.
    rewrite bool_decide_eq_true_2 by reflexivity.
    unfold bind. rewrite done_callback_throws. rewrite app_nil_r. destruct w; reflexivity.
  - apply not_elem_of_cons in Hnot as (Hne & Hnot).
    cbn [map app]. rewrite forEach_cons. unfold call_done_listener at 1.
    rewrite bool_decide_eq_false_2 by congruence.
    step ltac:(reflexivity). rewrite IH by exact Hnot.
    cbn [out set_out]. rewrite <- app_assoc. reflexivity.
Qed.

(** X12. What [addDoneListener] registers for DONE is a new arrow function,
    not the handler.  That function gives the resolver [undefined] as
    executor: whenever it is called, in whatever store, it throws a TypeError
    at the resolver's first read of the executor, before the handler is
    applied and without changing the store.  So, on a handle whose listeners
    for DONE so far are functions of the caller's, with the handler
    registered before any DONE: when DONE is announced, it is logged, the
    listeners registered earlier are called, and the TypeError leaves
    [_dispatchEvent].  And with DONE already logged, [addDoneListener]
    registers the function and then throws the TypeError out of the replay. *)
Theorem X12_done_listeners_throw_before_the_handler w l e handler hs :
  events w !! l = Some e -> self e = l ->
  registered e DONE = map VRef hs ->
  next w ∉ hs ->
  (forall w',
     done_callback Object_prototype call_hasOwnProperty declared apply (VRef l) handler w' =
     (Throw (VError TypeError "Cannot read property '_injections' of undefined"), w')) /\
  (history e DONE = [] ->
   exists w1 w2,
     addDoneListener toString Object_prototype call_hasOwnProperty declared apply
       (VRef l) handler w = (Ret (VRef l), w1) /\
     events w1 !! l = Some (listening DONE (VRef (next w)) e) /\
     out w1 = out w /\
     _dispatchEvent_calling
       (call_done_listener Object_prototype call_hasOwnProperty declared apply
          (next w) (VRef l) handler)
       (VRef l) DONE VUndefined VUndefined VUndefined w1 =
     (Throw (VError TypeError "Cannot read property '_injections' of undefined"), w2) /\
     out w2 =
       out w ++ map (fun h => CallListener h (live DONE VUndefined VUndefined VUndefined)) hs /\
     events w2 !! l =
       Some (logged (kept DONE VUndefined VUndefined) (listening DONE (VRef (next w)) e))) /\
  (history e DONE <> [] ->
   exists w1,
     addDoneListener toString Object_prototype call_hasOwnProperty declared apply
       (VRef l) handler w =
     (Throw (VError TypeError "Cannot read property '_injections' of undefined"), w1) /\
     events w1 !! l = Some (listening DONE (VRef (next w)) e) /\
     out w1 = out w).
Proof.
  intros He Hs Hreg Hfresh.
  assert (Hnew : VRef (next w) ∉ registered e DONE).
  { rewrite Hreg. intros Hin. apply list_elem_of_fmap in Hin as (h & [= <-] & Hin).
    contradiction. }
  set (e1 := listening DONE (VRef (next w)) e).
  set (w1 := with_event l e1 (set_next (S (next w)) w)).
  assert (Hstart :
    addDoneListener toString Object_prototype call_hasOwnProperty declared apply
      (VRef l) handler w =
    (forEach (fun n => if strict_eq (VStr (n_type n)) (VStr DONE)
                       then call_done_listener Object_prototype call_hasOwnProperty declared
                              apply (next w) (VRef l) handler (VRef (next w)) n
                       else ret tt) (dispatchedEvents e) ;;
     ret (VRef l)) w1).
  { unfold addDoneListener. step ltac:(reflexivity).
    apply (addListener_calling_fresh _ _ l e DONE (next w));
      [exact He|exact Hs|reflexivity|exact Hnew]. }
  assert (Hcall : forall n w',
            call_done_listener Object_prototype call_hasOwnProperty declared apply
              (next w) (VRef l) handler (VRef (next w)) n w' = (Throw no_executor_given, w')).
  { intros n w'. unfold call_done_listener. rewrite bool_decide_eq_true_2 by reflexivity.
    apply done_callback_throws. }
  split; [intros w'; apply done_callback_throws|]. split.
  - intros Hhist.
    assert (Hadd :
      addDoneListener toString Object_prototype call_hasOwnProperty declared apply
        (VRef l) handler w = (Ret (VRef l), w1)).
    { rewrite Hstart. step ltac:(apply replay_nothing; exact Hhist). reflexivity. }
    assert (He1 : events w1 !! l = Some e1).
    { subst w1. unfold with_event. cbn [events set_events]. apply lookup_insert_eq. }
    exists w1. eexists. split; [exact Hadd|]. split; [exact He1|]. split; [reflexivity|].
    split.
    { unfold _dispatchEvent_calling.
      step ltac:(apply get_event_at; exact He1).
      rewrite listeners_at_own by reflexivity.
      assert (Hl1 : listeners e1 !! DONE = Some (map VRef hs ++ [VRef (next w)])).
      { subst e1. unfold listening. cbn [listeners set_listeners].
        rewrite lookup_insert_eq, Hreg. reflexivity. }
      rewrite Hl1.
      step ltac:(apply put_event_at). cbn [self set_dispatchedEvents]. fold e1.
      replace (self e1) with l by (symmetry; exact Hs).
      apply forEach_before_the_callback. exact Hfresh. }
    split; [reflexivity|].
    cbn [events set_out]. unfold with_event. cbn [events set_events].
    rewrite lookup_insert_eq. reflexivity.
  - intros Hhist.
    exists w1. split; [|split; [|reflexivity]].
    + rewrite Hstart. unfold bind.
      rewrite (replay_throws _ _ _ _ no_executor_given) by (exact Hcall || exact Hhist).
      reflexivity.
    + subst w1. unfold with_event. cbn [events set_events]. apply lookup_insert_eq.
Qed.

(** X13. Before DONE has been announced, [addDoneListener] may be called
    again with the same handler: each call registers a new callback for DONE,
    and none is refused as a duplicate. *)
Theorem X13_addDoneListener_never_sees_a_duplicate w l e handler :
  events w !! l = Some e -> self e = l ->
  (forall h, VRef h ∈ registered e DONE -> h < next w) ->
  history e DONE = [] ->
  exists w' e',
    (addDoneListener toString Object_prototype call_hasOwnProperty declared apply
       (VRef l) handler ;;
     addDoneListener toString Object_prototype call_hasOwnProperty declared apply
       (VRef l) handler) w = (Ret (VRef l), w') /\
    events w' !! l = Some e' /\
    registered e' DONE = registered e DONE ++ [VRef (next w); VRef (S (next w))] /\
    history e' DONE = [] /\
    out w' = out w.
Proof.
  intros He Hs Hfresh Hhist.
  assert (H1 : VRef (next w) ∉ registered e DONE).
  { intros Hin. apply Hfresh in Hin. lia. }
  set (e1 := listening DONE (VRef (next w)) e).
  assert (H2 : VRef (S (next w)) ∉ registered e1 DONE).
  { subst e1. rewrite registered_listening. intros Hin.
    apply elem_of_app in Hin as [Hin|Hin].
    - apply Hfresh in Hin. lia.
    - apply list_elem_of_singleton in Hin. injection Hin as Hin. lia. }
  assert (Hadd : forall w0 e0 c,
            events w0 !! l = Some e0 -> self e0 = l -> next w0 = c ->
            VRef c ∉ registered e0 DONE -> history e0 DONE = [] ->
            addDoneListener toString Object_prototype call_hasOwnProperty declared apply
              (VRef l) handler w0 =
            (Ret (VRef l), with_event l (listening DONE (VRef c) e0) (set_next (S c) w0))).
  { intros w0 e0 c He0 Hs0 <- Hnot Hh0. unfold addDoneListener. step ltac:(reflexivity).
    rewrite (addListener_calling_fresh _ _ l e0 DONE (next w0));
      [|exact He0|exact Hs0|reflexivity|exact Hnot].
    step ltac:(apply replay_nothing; exact Hh0). reflexivity. }
  eexists. eexists. split.
  - step ltac:(apply (Hadd w e (next w) He Hs eq_refl H1 Hhist)).
    apply (Hadd _ e1 (S (next w))).
    + unfold with_event. cbn [events set_events set_next]. apply lookup_insert_eq.
    + exact Hs.
    + reflexivity.
    + exact H2.
    + exact Hhist.
  - cbn [events out set_out set_events with_event set_next next].
    split; [apply lookup_insert_eq|]. split; [|split].
    + rewrite registered_listening. subst e1. rewrite registered_listening.
      rewrite <- app_assoc. reflexivity.
    + exact Hhist.
    + reflexivity.
Qed.

End Construction.

(** * The chain of causing events *)

Section Causes.

(** X14. The last-promise getters walk the chain of causing events: each
    returns the own value of the nearest handle, the handle itself first,
    whose own value is truthy, and [undefined] when the chain has none. *)
Theorem X14_last_promise_getters_find_the_nearest_truthy_value :
  (forall e, lastPromiseResult e = first_truthy (map _lastPromiseResult (causes e))) /\
  (forall e, lastPromiseError e = first_truthy (map _lastPromiseError (causes e))).
Proof.
  split.
  - fix IH 1. intros e.
    destruct e as [? ? ? ? ? ? ? ? ? ? ? ? ? ? ? ? ? ? ? own ? cause].
    cbn [lastPromiseResult causes _lastPromiseResult lastEvent map].
    unfold first_truthy. cbn [List.filter].
    destruct (truthy own) eqn:Hown; [reflexivity|].
    destruct cause as [c|]; [|reflexivity].
    rewrite (IH c). reflexivity.
  - fix IH 1. intros e.
    destruct e as [? ? ? ? ? ? ? ? ? ? ? ? ? ? ? ? ? ? ? ? own cause].
    cbn [lastPromiseError causes _lastPromiseError lastEvent map].
    unfold first_truthy. cbn [List.filter].
    destruct (truthy own) eqn:Hown; [reflexivity|].
    destruct cause as [c|]; [|reflexivity].
    rewrite (IH c). reflexivity.
Qed.

End Causes.

(** * Further properties of the argument resolver *)

Section ResolverMore.

Variable Object_prototype : string -> Value.
Variable call_hasOwnProperty : loc -> string -> M Value.

(** With a bag and a table that leave [hasOwnProperty] to
    [Object.prototype], resolving a name reads the store and leaves it as it
    is. *)
Lemma resolve_reads_only x table names l e n w :
  events w !! l = Some e ->
  plain_detail w e ->
  table !! "hasOwnProperty" = None ->
  snd (resolve Object_prototype call_hasOwnProperty x table names (VRef l) n w) = w.
Proof.
  intros He Hplain Htable. unfold resolve.
  step ltac:(apply get_event_at; exact He).
  assert (Hown : exists own,
    (if truthy (detail e) then hasOwnProperty call_hasOwnProperty (detail e) n else ret false) w
    = (Ret own, w)).
  { unfold hasOwnProperty. destruct (detail e) as [| |b|z| |s|d|k msg] eqn:Hd; cbn [truthy];
      try (eexists; reflexivity).
    - destruct b; eexists; reflexivity.
    - destruct (negb (z =? 0)%Z); eexists; reflexivity.
    - destruct (negb (String.eqb s "")); eexists; reflexivity.
    - destruct (heap w !! d) as [[bag|xs]|] eqn:Hb.
      + eexists. step ltac:(reflexivity). rewrite Hb.
        apply has_own_plain. exact (Hplain d bag Hd Hb).
      + eexists. step ltac:(reflexivity). rewrite Hb. reflexivity.
      + eexists. step ltac:(reflexivity). rewrite Hb. reflexivity. }
  destruct Hown as (own & Hown). step ltac:(exact Hown).
  destruct own.
  - unfold get_property, type_error, throw, bind, get, ret.
    destruct (detail e) as [| | | | | |d|]; try reflexivity.
    destruct (heap w !! d) as [[bag|xs]|]; reflexivity.
  - step ltac:(apply has_own_plain; exact Htable).
    destruct (bool_decide _); reflexivity.
Qed.

Lemma mapM_resolve_reads_only x table names l e ns w :
  events w !! l = Some e ->
  plain_detail w e ->
  table !! "hasOwnProperty" = None ->
  snd (mapM (resolve Object_prototype call_hasOwnProperty x table names (VRef l)) ns w) = w.
Proof.
  intros He Hplain Htable.
  induction ns as [|n ns IH]; [reflexivity|].
  cbn [mapM]. unfold bind at 1.
  pose proof (resolve_reads_only x table names l e n w He Hplain Htable) as H1.
  destruct (resolve Object_prototype call_hasOwnProperty x table names (VRef l) n w)
    as [[v|err] w1]; cbn in H1; subst w1; [|reflexivity].
  unfold bind at 1.
  destruct (mapM (resolve Object_prototype call_hasOwnProperty x table names (VRef l)) ns w)
    as [[vs|err] w2]; cbn in IH; subst w2; reflexivity.
Qed.

Lemma mapM_stops_at_first_throw {A B} (f : A -> M B) (g : A -> B) pre n post err w :
  (forall x, x ∈ pre -> f x w = (Ret (g x), w)) ->
  f n w = (Throw err, w) ->
  mapM f (pre ++ n :: post) w = (Throw err, w).
Proof.
  intros Hpre Hn. induction pre as [|p pre IH]; cbn [app mapM].
  - unfold bind. rewrite Hn. reflexivity.
  - unfold bind at 1. rewrite (Hpre p) by left.
    unfold bind at 1. rewrite IH by (intros y Hy; apply Hpre; right; exact Hy).
    reflexivity.
Qed.

(** X15. A declared name that is neither a key of the value bag nor in the
    injection table: the resolver throws an Error for the first such name in
    declared order, and the message gives the executor, that name, the whole
    list of declared names and the origin of the dispatch.  The injection
    table has been cached on the executor by then; the bag, the handles and
    the outside are untouched.  The bag and the table are to leave
    [hasOwnProperty] to [Object.prototype]. *)
Theorem X15_unresolved_argument_is_reported w xl l d x e bag pre n post :
  executors w !! xl = Some x ->
  events w !! l = Some e ->
  detail e = VRef d ->
  heap w !! d = Some (OBag bag) ->
  bag !! "hasOwnProperty" = None ->
  injection_table x (VRef l) e !! "hasOwnProperty" = None ->
  (forall m, m ∈ pre -> is_Some (bag !! m) \/ is_Some (injection_table x (VRef l) e !! m)) ->
  bag !! n = None ->
  injection_table x (VRef l) e !! n = None ->
  exists w',
    buildArgumentsFromRingaEvent Object_prototype call_hasOwnProperty
      (VRef xl) (pre ++ n :: post) (VRef l) w =
      (Throw (VError PlainError (unresolved_message x n (pre ++ n :: post) e)), w') /\
    executors w' !! xl = Some (set__injections (Some (injection_table x (VRef l) e)) x) /\
    heap w' = heap w /\ events w' = events w /\ out w' = out w.
Proof.
  intros Hx He Hd Hb Hplain Htable Hpre Hbn Htn.
  rewrite (buildArguments_steps _ _ _ _ _ _ _ _ Hx He).
  eexists. split.
  - apply mapM_stops_at_first_throw
      with (g := fun m => match bag !! m with
                          | Some v => v
                          | None => default VUndefined (injection_table x (VRef l) e !! m)
                          end).
    + intros m Hm.
      erewrite resolve_bag_then_table; [|exact He|exact Hd|exact Hb|exact Hplain|exact Htable].
      destruct (bag !! m) as [v|] eqn:Hbm; [reflexivity|].
      destruct (Hpre m Hm) as [[? ?]|[v Hv]]; [congruence|]. rewrite Hv. reflexivity.
    + erewrite resolve_bag_then_table; [|exact He|exact Hd|exact Hb|exact Hplain|exact Htable].
      rewrite Hbn, Htn. reflexivity.
  - cbn [executors heap events out set_executors].
    split; [apply lookup_insert_eq|]. auto.
Qed.

(** X16. The names of the engine's own, for an executor with no table cached
    yet: where neither the bag nor the controller's injections define them,
    they resolve to the controller, the pipeline, the handle, its custom
    event, its target, its value bag, the executor's done and fail functions,
    and the handle's last promise result and error.  The bag and the
    controller's injections are to leave [hasOwnProperty] to
    [Object.prototype]. *)
Theorem X16_well_known_names_resolve w xl l d x e bag :
  executors w !! xl = Some x ->
  _injections x = None ->
  events w !! l = Some e ->
  detail e = VRef d ->
  heap w !! d = Some (OBag bag) ->
  bag !! "hasOwnProperty" = None ->
  (forall inj, injections (x_controller x) = Some inj -> inj !! "hasOwnProperty" = None) ->
  (forall n, n ∈ well_known_names -> bag !! n = None) ->
  (forall inj n, injections (x_controller x) = Some inj ->
                 n ∈ well_known_names -> inj !! n = None) ->
  exists w',
    buildArgumentsFromRingaEvent Object_prototype call_hasOwnProperty
      (VRef xl) well_known_names (VRef l) w =
      (Ret [ctl_ref (x_controller x); x_thread x; VRef l; customEvent_ref e; target e; VRef d;
            x_done x; x_fail x; lastPromiseResult e; lastPromiseError e], w') /\
    heap w' = heap w /\ events w' = events w /\ out w' = out w.
Proof.
  intros Hx Hnone He Hd Hb Hplain Hplain_inj Hbag Hinj.
  rewrite (buildArguments_steps _ _ _ _ _ _ _ _ Hx He).
  assert (Htable : injection_table x (VRef l) e !! "hasOwnProperty" = None).
  { unfold injection_table. rewrite Hnone.
    destruct (injections (x_controller x)) as [inj|] eqn:Hi; cbn [merge_into]; [|reflexivity].
    rewrite lookup_union_r by (apply (Hplain_inj inj eq_refl)). reflexivity. }
  eexists. split.
  { erewrite mapM_pure with (g := fun n => default VUndefined (well_known x (VRef l) e !! n)).
    - rewrite <- Hd. reflexivity.
    - intros n Hn.
      erewrite resolve_bag_then_table; [|exact He|exact Hd|exact Hb|exact Hplain|exact Htable].
      rewrite (Hbag n Hn). unfold injection_table. rewrite Hnone.
      assert (Hsome : is_Some (well_known x (VRef l) e !! n)).
      { unfold well_known_names in Hn.
        repeat (apply elem_of_cons in Hn as [->|Hn]; [eexists; reflexivity|]).
        apply elem_of_nil in Hn. contradiction. }
      destruct Hsome as (v & Hv).
      destruct (injections (x_controller x)) as [inj|] eqn:Hi; cbn [merge_into].
      + rewrite lookup_union_r by (apply (Hinj inj n eq_refl Hn)). rewrite Hv. reflexivity.
      + rewrite Hv. reflexivity. }
  split; [|split]; reflexivity.
Qed.

(** X17. The engine's own names are looked up once per executor.  After a
    first resolution against one handle, the table cached on the executor
    answers for every later handle: [$ringaEvent] and [$detail] still resolve
    to the first handle and its bag.  The bags of the two handles and the
    controller's injections are to leave [hasOwnProperty] to
    [Object.prototype]. *)
Theorem X17_injections_are_computed_once w xl x l1 e1 names1 r1 w1 l2 e2 d2 bag2 :
  executors w !! xl = Some x ->
  _injections x = None ->
  events w !! l1 = Some e1 ->
  events w !! l2 = Some e2 ->
  detail e2 = VRef d2 ->
  heap w !! d2 = Some (OBag bag2) ->
  plain_detail w e1 ->
  bag2 !! "hasOwnProperty" = None ->
  (forall inj, injections (x_controller x) = Some inj -> inj !! "hasOwnProperty" = None) ->
  bag2 !! "$ringaEvent" = None -> bag2 !! "$detail" = None ->
  (forall inj, injections (x_controller x) = Some inj ->
               inj !! "$ringaEvent" = None /\ inj !! "$detail" = None) ->
  buildArgumentsFromRingaEvent Object_prototype call_hasOwnProperty
    (VRef xl) names1 (VRef l1) w = (r1, w1) ->
  exists w2,
    buildArgumentsFromRingaEvent Object_prototype call_hasOwnProperty
      (VRef xl) ["$ringaEvent"; "$detail"] (VRef l2) w1 =
      (Ret [VRef l1; detail e1], w2).
Proof.
  intros Hx Hnone He1 He2 Hd2 Hb2 Hplain1 Hplain2 Hplain_inj Hr Hdt Hinj Hfirst.
  rewrite (buildArguments_steps _ _ _ _ _ _ _ _ Hx He1) in Hfirst.
  assert (Htable1 : injection_table x (VRef l1) e1 !! "hasOwnProperty" = None).
  { unfold injection_table. rewrite Hnone.
    destruct (injections (x_controller x)) as [inj|] eqn:Hi; cbn [merge_into]; [|reflexivity].
    rewrite lookup_union_r by (apply (Hplain_inj inj eq_refl)). reflexivity. }
  pose proof (mapM_resolve_reads_only x (injection_table x (VRef l1) e1) names1 l1 e1 names1
                (set_executors
                   (<[xl := set__injections (Some (injection_table x (VRef l1) e1)) x]>
                      (executors w)) w) He1 Hplain1 Htable1) as Hsame.
  rewrite Hfirst in Hsame. cbn [snd] in Hsame. subst w1.
  set (x1 := set__injections (Some (injection_table x (VRef l1) e1)) x).
  erewrite (buildArguments_steps _ _ _ xl l2 x1 e2);
    [|cbn [executors set_executors]; apply lookup_insert_eq|exact He2].
  assert (Htable : forall n,
             (forall inj, injections (x_controller x) = Some inj -> inj !! n = None) ->
             injection_table x1 (VRef l2) e2 !! n = well_known x (VRef l1) e1 !! n).
  { intros n Hn. unfold injection_table, x1.
    cbn [_injections set__injections x_controller]. unfold injection_table. rewrite Hnone.
    destruct (injections (x_controller x)) as [inj|]; cbn [merge_into]; [|reflexivity].
    rewrite !lookup_union_r by (apply Hn; reflexivity). reflexivity. }
  assert (Htable2 : injection_table x1 (VRef l2) e2 !! "hasOwnProperty" = None).
  { rewrite Htable by exact Hplain_inj. reflexivity. }
  eexists. cbn [mapM].
  step ltac:(erewrite resolve_bag_then_table;
             [|cbn [events set_executors]; exact He2|exact Hd2
              |cbn [heap set_executors]; exact Hb2|exact Hplain2|exact Htable2];
             rewrite Hr;
             rewrite Htable by (intros inj Hi; apply (Hinj inj Hi));
             reflexivity).
  step ltac:(step ltac:(erewrite resolve_bag_then_table;
             [|cbn [events set_executors]; exact He2|exact Hd2
              |cbn [heap set_executors]; exact Hb2|exact Hplain2|exact Htable2];
             rewrite Hdt;
             rewrite Htable by (intros inj Hi; apply (Hinj inj Hi));
             reflexivity);
             reflexivity).
  reflexivity.
Qed.

End ResolverMore.

(** * Further properties of the pipeline *)

Section PipelineMore.

Variable toString : Value -> string.
Variable _execute : Executor -> Behaviour.

(** X18. The outside calls of the fail-handler when the executor at the index
    is there.  The executor is destroyed, the error is recorded and onFail is
    called.  With a truthy flag the inspector is told and that is all.  With a
    falsy flag the done-handler follows at the same index: the same executor
    is destroyed a second time, and then the next step is queued or, at the
    end of the list, onDone is called and the inspector told. *)
Theorem X18_fail_handler_calls w l dh fh ex err kill :
  pipeline_ready w l ->
  doneHandler (thread w) = VRef dh ->
  failHandler (thread w) = VRef fh ->
  current w = Some ex ->
  exists w',
    _executorFailHandler toString err kill w = (Ret tt, w') /\
    error (thread w') = err /\
    calls (out w') =
      calls (out w) ++
      (if truthy kill
       then [Destroy ex; CallFailHandler fh (th_id (thread w)) err kill] ++
            inspector_notice w (Some ex)
       else [Destroy ex; CallFailHandler fh (th_id (thread w)) err kill; Destroy ex] ++
            (if more_remain w then []
             else CallDoneHandler dh (th_id (thread w)) :: inspector_notice w (Some ex))) /\
    timers w' = (if negb (truthy kill) && more_remain w
                 then timers w ++ [ExecuteNext] else timers w).
Proof.
  intros Hp Hdh Hfh Hcur.
  destruct (_executorFailHandler_sound toString w l dh fh err kill Hp Hdh Hfh)
    as (w' & Hrun & Hcore & _).
  exists w'. split; [exact Hrun|].
  apply core_inv in Hcore as (_ & _ & _ & Hth & Htm & Hout).
  pose proof (after_fail_view toString dh fh err kill w) as Hv. cbv zeta in Hv.
  destruct Hv as (Herr & _ & _ & _ & Hk).
  assert (Hdn : forall x, destroy_notice toString w x = [Destroy ex]).
  { intros x. unfold destroy_notice. rewrite Hcur. reflexivity. }
  split; [rewrite Hth; exact Herr|].
  rewrite Hout, Htm.
  destruct (truthy kill); destruct Hk as (_ & Ht & _ & Ho); rewrite Ho, Ht, !Hdn, Hcur;
    cbn [negb andb].
  - split; [|reflexivity]. rewrite calls_app. f_equal.
    cbn [app calls List.filter is_call]. fold (calls (inspector_notice w (Some ex))).
    rewrite calls_inspector_notice. reflexivity.
  - split; [|reflexivity]. rewrite calls_app. f_equal.
    cbn [app calls List.filter is_call]. destruct (more_remain w); [reflexivity|].
    cbn [calls List.filter is_call]. fold (calls (inspector_notice w (Some ex))).
    rewrite calls_inspector_notice. reflexivity.
Qed.

Lemma evicted_length executor xs : length (evicted executor xs) <= length xs.
Proof.
  unfold evicted. destruct executor as [e|]; [|lia].
  destruct (has e xs); [|lia]. unfold remove. apply length_filter.
Qed.

Lemma calls_calls xs : calls (calls xs) = calls xs.
Proof.
  unfold calls. induction xs as [|x xs IH]; [reflexivity|].
  cbn [List.filter]. destruct (is_call x) eqn:Hx; [|exact IH].
  cbn [List.filter]. rewrite Hx, IH. reflexivity.
Qed.

(** What [executeNext] has done when it reaches its [try]. *)
Lemma previous_evicted_view w :
  index (thread (previous_evicted w)) = index (thread w) /\
  th_id (thread (previous_evicted w)) = th_id (thread w) /\
  destroyed (thread (previous_evicted w)) = destroyed (thread w) /\
  timers (previous_evicted w) = timers w /\
  length (all (thread (previous_evicted w))) <= length (all (thread w)) /\
  exists told,
    out (previous_evicted w) = out w ++ told /\
    calls told = told /\
    forall x, x ∈ told -> exists e, x = InspectorDispatch e.
Proof.
  unfold previous_evicted. destruct (0 <? index (thread w))%nat.
  - unfold removed, log. fields.
    split; [reflexivity|]. split; [reflexivity|]. split; [reflexivity|]. split; [reflexivity|].
    split; [apply evicted_length|].
    eexists. split; [reflexivity|]. split; [apply calls_inspector_notice|].
    unfold inspector_notice. intros x Hx. destruct (_ && _).
    + apply list_elem_of_singleton in Hx. eauto.
    + apply elem_of_nil in Hx. contradiction.
  - do 4 (split; [reflexivity|]). split; [lia|].
    exists []. rewrite app_nil_r. split; [reflexivity|]. split; [reflexivity|].
    intros x Hx. apply elem_of_nil in Hx. contradiction.
Qed.

(** X19. An executor whose [_execute] throws: [executeNext] does not throw.
    The error goes to the fail-handler with no flag, so onFail is called with
    the pipeline, the error and [undefined], after the executor's start; the
    error is recorded and the index moves on as after a non-fatal failure. *)
Theorem X19_executeNext_turns_a_throw_into_a_failure w l dh fh ex err :
  pipeline_ready w l ->
  doneHandler (thread w) = VRef dh ->
  failHandler (thread w) = VRef fh ->
  current w = Some ex ->
  _execute ex = Throws err ->
  exists w',
    executeNext toString _execute w = (Ret tt, w') /\
    error (thread w') = err /\
    index (thread w') = S (index (thread w)) /\
    exists pre mid post,
      calls (out w') =
        calls (out w) ++ pre ++
        Execute ex :: mid ++ CallFailHandler fh (th_id (thread w)) err VUndefined :: post.
Proof.
  intros Hp Hdh Hfh Hcur Hthrow.
  destruct (executeNext_sound toString _execute w l dh fh Hp Hdh Hfh) as (w' & Hrun & Hcore & _).
  exists w'. split; [exact Hrun|].
  apply core_inv in Hcore as (_ & _ & _ & Hth & _ & Hout).
  unfold after_executeNext in Hth, Hout. cbv zeta in Hth, Hout.
  rewrite Hcur, Hthrow in Hth, Hout.
  destruct (previous_evicted_view w) as (Hi & Hid & _ & _ & _ & told & Ho & Hct & _).
  remember (log [Execute ex] (previous_evicted w)) as w2 eqn:Hw2.
  assert (Hi2 : index (thread w2) = index (thread w)) by (subst w2; exact Hi).
  assert (Hid2 : th_id (thread w2) = th_id (thread w)) by (subst w2; exact Hid).
  assert (Ho2 : out w2 = out w ++ told ++ [Execute ex]).
  { subst w2. unfold log. cbn [out set_out]. rewrite Ho, <- app_assoc. reflexivity. }
  pose proof (after_fail_view toString dh fh err VUndefined w2) as Hv. cbv zeta in Hv.
  cbn [truthy] in Hv. destruct Hv as (Herr & _ & _ & _ & Hi' & _ & _ & Ho').
  split; [rewrite Hth; exact Herr|]. split; [rewrite Hth, Hi', Hi2; reflexivity|].
  rewrite Hout, Ho', Ho2, Hid2. clear Hout Ho' Hth Hw2.
  exists told, (calls (destroy_notice toString w2 err)).
  eexists. rewrite <- !app_assoc. rewrite !calls_app, Hct.
  cbn [calls List.filter is_call app]. reflexivity.
Qed.

(** X20. [executeNext] at an index with no executor: the TypeError of the
    call on [undefined] is caught and reported to onFail as a non-fatal
    failure, and the done-handler that follows calls onDone.  No executor is
    started, the index moves on by one and nothing is queued. *)
Theorem X20_executeNext_past_the_end_calls_both_handlers w l dh fh :
  pipeline_ready w l ->
  doneHandler (thread w) = VRef dh ->
  failHandler (thread w) = VRef fh ->
  current w = None ->
  exists w',
    executeNext toString _execute w = (Ret tt, w') /\
    error (thread w') = no_executor /\
    index (thread w') = S (index (thread w)) /\
    timers w' = timers w /\
    (forall x, Execute x ∈ out w' -> Execute x ∈ out w) /\
    exists pre mid post,
      calls (out w') =
        calls (out w) ++ pre ++
        CallFailHandler fh (th_id (thread w)) no_executor VUndefined :: mid ++
        CallDoneHandler dh (th_id (thread w)) :: post.
Proof.
  intros Hp Hdh Hfh Hcur.
  destruct (executeNext_sound toString _execute w l dh fh Hp Hdh Hfh) as (w' & Hrun & Hcore & _).
  exists w'. split; [exact Hrun|].
  apply core_inv in Hcore as (_ & _ & _ & Hth & Htm & Hout).
  unfold after_executeNext in Hth, Htm, Hout. cbv zeta in Hth, Htm, Hout.
  rewrite Hcur in Hth, Htm, Hout.
  destruct (previous_evicted_view w) as (Hi & Hid & _ & Ht1 & Hlen & told & Ho & Hct & Htold).
  remember (previous_evicted w) as w1 eqn:Hw1.
  assert (Hcur1 : current w1 = None).
  { unfold current in *. apply lookup_ge_None. apply lookup_ge_None in Hcur. lia. }
  assert (Hmore : more_remain w1 = false) by (apply more_remain_absent; exact Hcur1).
  pose proof (after_fail_view toString dh fh no_executor VUndefined w1) as Hv. cbv zeta in Hv.
  cbn [truthy] in Hv. destruct Hv as (Herr & _ & _ & _ & Hi' & Ht' & _ & Ho').
  rewrite Hmore in Ht', Ho'.
  split; [rewrite Hth; exact Herr|]. split; [rewrite Hth, Hi', Hi; reflexivity|].
  split; [rewrite Htm, Ht', Ht1; reflexivity|].
  assert (Hcalls : calls (out w') =
                   calls (out w) ++ told ++ calls (destroy_notice toString w1 no_executor) ++
                   CallFailHandler fh (th_id (thread w)) no_executor VUndefined ::
                   calls (destroy_notice toString w1 VUndefined) ++
                   CallDoneHandler dh (th_id (thread w)) :: inspector_notice w1 None).
  { rewrite Hout, Ho', Ho, Hid, Hcur1. rewrite !calls_app, Hct, <- !app_assoc.
    f_equal. f_equal. f_equal.
    cbn [calls List.filter is_call app]. f_equal. rewrite calls_app. f_equal.
    cbn [calls List.filter is_call app]. f_equal.
    apply calls_inspector_notice. }
  split.
  - intros x Hx.
    assert (Hin : Execute x ∈ calls (out w')) by (apply elem_of_calls; auto).
    rewrite Hcalls in Hin. rewrite !elem_of_app in Hin.
    destruct Hin as [Hin|[Hin|[Hin|Hin]]].
    + apply elem_of_calls in Hin. apply Hin.
    + apply Htold in Hin as (e & He). discriminate.
    + apply elem_of_calls in Hin as (Hin & _).
      exfalso. exact (no_start_in_destroy_notice toString _ _ _ Hin).
    + apply elem_of_cons in Hin as [Hin|Hin]; [discriminate|].
      apply elem_of_app in Hin as [Hin|Hin].
      * apply elem_of_calls in Hin as (Hin & _).
        exfalso. exact (no_start_in_destroy_notice toString _ _ _ Hin).
      * apply elem_of_cons in Hin as [Hin|Hin]; [discriminate|].
        exfalso. exact (no_start_in_inspector_notice _ _ _ Hin).
  - exists (told ++ calls (destroy_notice toString w1 no_executor)),
           (calls (destroy_notice toString w1 VUndefined)), (inspector_notice w1 None).
    rewrite Hcalls, <- !app_assoc. reflexivity.
Qed.

End PipelineMore.

(** * The start of a pipeline *)

Section Start.

Variable toString : Value -> string.
Variable _execute : Executor -> Behaviour.

Lemma forEach_app {A} (f : A -> M unit) (xs ys : list A) (w : World) :
  forEach f (xs ++ ys) w = (forEach f xs ;; forEach f ys) w.
Proof.
  revert w. induction xs as [|x xs IH]; intros w; [reflexivity|].
  cbn [app]. rewrite !forEach_cons. unfold bind.
  destruct (f x w) as [[[]|err] w1]; [|reflexivity].
  rewrite IH. reflexivity.
Qed.

Lemma buildExecutors_unfold w :
  buildExecutors w = forEach build_step (seq 0 (length (tf_all (threadFactory (thread w))))) w.
Proof. reflexivity. Qed.

Lemma build_supported cf t w :
  supported (executee cf) = true ->
  exists k cf' told,
    build cf t w = (Ret (mkExecutor (next w) t k, cf'),
                    set_out (out w ++ told) (set_next (S (next w)) w)) /\
    executee cf' = executee cf /\
    Forall is_introspection told.
Proof.
  assert (Hnil : set_out (out w ++ []) (set_next (S (next w)) w) = set_next (S (next w)) w)
    by (rewrite app_nil_r; destruct w; reflexivity).
  destruct cf as [x cached]. cbn [executee]. intros Hs.
  destruct x as [| | | |s|f|o]; try discriminate.
  - eexists _, _, []. rewrite Hnil. split; [apply build_string|]. split; [reflexivity|constructor].
  - destruct (fn_then f) eqn:Ht.
    + eexists _, _, []. rewrite Hnil.
      split; [apply build_thenable; [discriminate|cbn; rewrite Ht; reflexivity]|]. split; [reflexivity|constructor].
    + destruct (fn_command f) eqn:Hc.
      * destruct cached as [names|].
        -- eexists _, _, []. rewrite Hnil.
           split; [apply build_command_cached; assumption|]. split; [reflexivity|constructor].
        -- eexists _, _, [GetArgNames f].
           split; [apply build_command_first; assumption|]. split; [reflexivity|].
           constructor; [exists f; reflexivity|constructor].
      * eexists _, _, []. rewrite Hnil.
        split; [apply build_function; assumption|]. split; [reflexivity|constructor].
  - cbn [supported] in Hs. destruct (obj_then o) eqn:Ht.
    + eexists _, _, []. rewrite Hnil.
      split; [apply build_thenable; [discriminate|cbn; rewrite Ht; reflexivity]|]. split; [reflexivity|constructor].
    + destruct (obj_array o) eqn:Ha.
      * eexists _, _, []. rewrite Hnil.
        split; [apply build_array; assumption|]. split; [reflexivity|constructor].
      * destruct (obj_event_factory o) eqn:Hf; [|discriminate].
        eexists _, _, []. rewrite Hnil.
        split; [apply build_event_factory; assumption|]. split; [reflexivity|constructor].
Qed.

Lemma build_rejected cf t w :
  supported (executee cf) = false ->
  build cf t w = (Throw (build_error (executee cf)), w).
Proof.
  destruct cf as [x cached]. cbn [executee]. intros Hs.
  destruct x as [| | | |s|f|o]; try discriminate; try reflexivity.
  cbn [supported] in Hs.
  apply orb_false_iff in Hs as (Hs & Hf). apply orb_false_iff in Hs as (Ht & Ha).
  apply build_unsupported. cbn. auto.
Qed.

(** The loop of [buildExecutors] over [n] factories from index [a] on, all of
    them supported. *)
Lemma build_steps_run n : forall a w,
  (forall i, a <= i < a + n ->
     exists cf, tf_all (threadFactory (thread w)) !! i = Some cf /\
                supported (executee cf) = true) ->
  exists w' new told,
    forEach build_step (seq a n) w = (Ret tt, w') /\
    all (thread w') = all (thread w) ++ new /\
    map ex_id new = seq (next w) n /\
    Forall (fun x => ex_thread x = th_id (thread w)) new /\
    next w' = next w + n /\
    out w' = out w ++ told /\
    Forall is_introspection told /\
    thread_frame (thread w') = thread_frame (thread w) /\
    store_frame w' = store_frame w.
Proof.
  induction n as [|n IH]; intros a w Hall.
  - exists w, [], []. cbn [seq forEach map]. rewrite !app_nil_r, Nat.add_0_r.
    repeat (split; [reflexivity || constructor|]). reflexivity.
  - destruct (Hall a ltac:(lia)) as (cf & Hcf & Hs).
    destruct (build_supported cf (th_id (thread w)) w Hs) as (k & cf' & told1 & Hb & Hex & Hint).
    set (ex := mkExecutor (next w) (th_id (thread w)) k).
    set (w1 := set_thread
                 (set_all (add ex (all (thread w)))
                    (set_threadFactory
                       (mkThreadFactory (tf_controller (threadFactory (thread w)))
                          (<[a := cf']> (tf_all (threadFactory (thread w))))) (thread w)))
                 (set_out (out w ++ told1) (set_next (S (next w)) w))).
    assert (Hstep : build_step a w = (Ret tt, w1)).
    { unfold build_step. step ltac:(reflexivity). rewrite Hcf.
      step ltac:(exact Hb). reflexivity. }
    assert (Hframe1 : thread_frame (thread w1) = thread_frame (thread w)).
    { subst w1. unfold thread_frame. fields. cbn [tf_controller tf_all].
      rewrite list_fmap_insert, list_insert_id; [reflexivity|].
      rewrite list_lookup_fmap, Hcf. cbn. rewrite Hex. reflexivity. }
    destruct (IH (S a) w1) as (w' & new & told & Hrun & Hnew & Hids & Hown & Hnext & Hout & Hin & Hfr & Hst).
    { intros i Hi. destruct (Hall i ltac:(lia)) as (cfi & Hcfi & Hsi).
      exists cfi. split; [|exact Hsi]. subst w1. fields. cbn [tf_all].
      rewrite list_lookup_insert_ne by lia. exact Hcfi. }
    exists w', (ex :: new), (told1 ++ told).
    split; [cbn [seq]; rewrite forEach_cons; step ltac:(exact Hstep); exact Hrun|].
    split; [rewrite Hnew; subst w1; fields; unfold add; rewrite <- app_assoc; reflexivity|].
    split; [cbn [map seq]; rewrite Hids; subst w1; reflexivity|].
    split; [constructor; [reflexivity|exact Hown]|].
    split; [rewrite Hnext; subst w1; fields; lia|].
    split; [rewrite Hout; subst w1; fields; rewrite <- app_assoc; reflexivity|].
    split; [apply Forall_app; auto|].
    split; [rewrite Hfr; exact Hframe1|].
    rewrite Hst. reflexivity.
Qed.

(** [run] past its guards. *)
Lemma run_past_the_guards w ev dh fh :
  (__DEV__ w = true ->
     running (thread w) = false /\ tf_all (threadFactory (thread w)) <> [] /\
     truthy ev = true) ->
  run toString _execute ev dh fh w =
  (buildExecutors ;; with_thread (set_index 0) ;; executeNext toString _execute)
    (set_up ev dh fh w).
Proof.
  intros Hg. unfold run. step ltac:(reflexivity).
  destruct (__DEV__ w) eqn:Hdev; cbn [andb].
  - destruct (Hg eq_refl) as (Hr & Hf & Ht). rewrite Hr, Ht.
    destruct (tf_all (threadFactory (thread w))); [congruence|]. cbn [length Nat.eqb negb].
    step ltac:(reflexivity). step ltac:(reflexivity). step ltac:(reflexivity).
    step ltac:(reflexivity). reflexivity.
  - step ltac:(reflexivity). step ltac:(reflexivity). step ltac:(reflexivity).
    step ltac:(reflexivity). reflexivity.
Qed.

Lemma calls_introspection told : Forall is_introspection told -> calls told = told.
Proof.
  induction 1 as [|x xs (f & ->) _ IH]; [reflexivity|].
  cbn [calls List.filter is_call]. f_equal. exact IH.
Qed.

(** [run] up to the start of the first executor, on a pipeline that holds
    no executor yet and whose factories are all supported. *)
Lemma run_builds_then_executes w l e dh fh :
  handle_ready w l e ->
  (__DEV__ w = true -> running (thread w) = false) ->
  tf_all (threadFactory (thread w)) <> [] ->
  (forall cf, cf ∈ tf_all (threadFactory (thread w)) -> supported (executee cf) = true) ->
  all (thread w) = [] ->
  exists wi first rest told,
    run toString _execute (VRef l) (VRef dh) (VRef fh) w = executeNext toString _execute wi /\
    pipeline_ready wi l /\
    doneHandler (thread wi) = VRef dh /\
    failHandler (thread wi) = VRef fh /\
    all (thread wi) = first :: rest /\
    index (thread wi) = 0 /\
    map ex_id (first :: rest) = seq (next w) (length (tf_all (threadFactory (thread w)))) /\
    Forall (fun x => ex_thread x = th_id (thread w)) (first :: rest) /\
    out wi = out w ++ told /\
    Forall is_introspection told /\
    timers wi = timers w /\
    th_id (thread wi) = th_id (thread w) /\
    __DEV__ wi = __DEV__ w /\
    tf_controller (threadFactory (thread wi)) = tf_controller (threadFactory (thread w)).
Proof.
  intros Hq Hrun Hne Hsup Hempty.
  set (w0 := set_up (VRef l) (VRef dh) (VRef fh) w).
  destruct (build_steps_run (length (tf_all (threadFactory (thread w)))) 0 w0)
    as (wb & new & told & Hb & Hnew & Hids & Hown & _ & Hout & Hin & Hfr & Hst).
  { intros i Hi. subst w0. unfold set_up. fields.
    destruct (lookup_lt_is_Some_2 (tf_all (threadFactory (thread w))) i ltac:(lia)) as (cf & Hcf).
    exists cf. split; [exact Hcf|]. apply Hsup. apply list_elem_of_lookup. eauto. }
  assert (Hnew' : all (thread wb) = new).
  { rewrite Hnew. subst w0. unfold set_up. fields. rewrite Hempty. reflexivity. }
  destruct new as [|first rest].
  { exfalso. cbn [map] in Hids. destruct (tf_all (threadFactory (thread w))); [congruence|].
    discriminate. }
  unfold thread_frame in Hfr. injection Hfr as Hid _ _ _ _ Hre Hdh Hfh _ Hctl _.
  unfold store_frame in Hst. injection Hst as Hdev Hheap Hev _ Htm.
  exists (set_thread (set_index 0 (thread wb)) wb), first, rest, told.
  split.
  { rewrite run_past_the_guards.
    - fold w0. step ltac:(rewrite buildExecutors_unfold; exact Hb).
      step ltac:(reflexivity). reflexivity.
    - intros Hdev'. auto. }
  fields.
  split.
  { split; [exact Hre|]. exists e. destruct Hq as (He & Hs & d & Hd & Hok).
    split; [cbn [events set_thread]; rewrite Hev; exact He|]. split; [exact Hs|].
    exists d. split; [exact Hd|]. cbn [heap set_thread]. rewrite Hheap. exact Hok. }
  split; [exact Hdh|]. split; [exact Hfh|]. split; [exact Hnew'|]. split; [reflexivity|].
  split; [exact Hids|]. split; [exact Hown|]. split; [exact Hout|]. split; [exact Hin|].
  split; [exact Htm|]. split; [exact Hid|]. split; [exact Hdev|]. exact Hctl.
Qed.

(** X21. [run] on a pipeline with no executor yet, all of whose factories are
    supported, and whose first executor stays pending.  It stores the handle
    and the two callbacks on the pipeline, builds one executor per factory, in
    order, each owned by the pipeline and with an identity of its own, and
    starts the first of them.  No other executor is started, neither callback
    is called and no step is queued. *)
Theorem X21_run_starts_the_first_executor_only w l e dh fh :
  handle_ready w l e ->
  (__DEV__ w = true -> running (thread w) = false) ->
  tf_all (threadFactory (thread w)) <> [] ->
  (forall cf, cf ∈ tf_all (threadFactory (thread w)) -> supported (executee cf) = true) ->
  all (thread w) = [] ->
  (forall k, _execute (mkExecutor (next w) (th_id (thread w)) k) = Pending) ->
  exists w' first told,
    run toString _execute (VRef l) (VRef dh) (VRef fh) w = (Ret tt, w') /\
    (ringaEvent (thread w'), doneHandler (thread w'), failHandler (thread w')) =
      (VRef l, VRef dh, VRef fh) /\
    index (thread w') = 0 /\
    map ex_id (all (thread w')) = seq (next w) (length (tf_all (threadFactory (thread w)))) /\
    Forall (fun x => ex_thread x = th_id (thread w)) (all (thread w')) /\
    all (thread w') !! 0 = Some first /\
    calls (out w') = calls (out w) ++ told ++ [Execute first] /\
    Forall is_introspection told /\
    timers w' = timers w.
Proof.
  intros Hq Hrun Hne Hsup Hempty Hpend.
  destruct (run_builds_then_executes w l e dh fh Hq Hrun Hne Hsup Hempty)
    as (wi & first & rest & told & Hstart & Hp & Hdh & Hfh & Hall & Hi & Hids & Hown & Hout
        & Hin & Htm & Hid & _).
  destruct (executeNext_sound toString _execute wi l dh fh Hp Hdh Hfh) as (w' & Hex & Hcore & _).
  assert (Hfirst : _execute first = Pending).
  { destruct first as [i t k]. cbn [map seq ex_id] in Hids.
    destruct (tf_all (threadFactory (thread w))); [congruence|].
    cbn [length seq] in Hids. injection Hids as -> _.
    apply Forall_cons in Hown as (Ht & _). cbn in Ht. subst t. apply Hpend. }
  assert (Hafter : after_executeNext toString _execute dh fh wi = log [Execute first] wi).
  { unfold after_executeNext, previous_evicted, current. cbv zeta.
    rewrite Hi, Hall. cbn [lookup list_lookup Nat.ltb Nat.leb]. rewrite Hfirst. reflexivity. }
  rewrite Hafter in Hcore.
  apply core_inv in Hcore as (_ & _ & _ & Hth & Htm' & Hout').
  unfold log in Hth, Htm', Hout'. cbn [thread timers out set_out] in Hth, Htm', Hout'.
  destruct Hp as (Hre & _).
  exists w', first, told. split; [rewrite Hstart; exact Hex|].
  rewrite Hth, Htm', Hout'.
  split; [rewrite Hre, Hdh, Hfh; reflexivity|]. split; [exact Hi|].
  rewrite Hall. split; [exact Hids|]. split; [exact Hown|]. split; [reflexivity|].
  split; [|split; [exact Hin|exact Htm]].
  rewrite Hout, !calls_app, (calls_introspection _ Hin), <- app_assoc. reflexivity.
Qed.

(** X22. [run] on a pipeline of one supported factory whose executor calls
    its done continuation before [_execute] returns: onDone has been called by
    the time [run] returns.  The executor is started, destroyed, onDone is
    called with the pipeline, and the inspector is told, in this order; no
    step is queued. *)
Theorem X22_run_of_one_step_completes_at_once w l e dh fh cf :
  handle_ready w l e ->
  (__DEV__ w = true -> running (thread w) = false) ->
  tf_all (threadFactory (thread w)) = [cf] ->
  supported (executee cf) = true ->
  all (thread w) = [] ->
  (forall k, _execute (mkExecutor (next w) (th_id (thread w)) k) = CallsDone) ->
  exists w' first told,
    run toString _execute (VRef l) (VRef dh) (VRef fh) w = (Ret tt, w') /\
    ex_id first = next w /\
    calls (out w') =
      calls (out w) ++ told ++
      [Execute first; Destroy first; CallDoneHandler dh (th_id (thread w))] ++
      inspector_notice w (Some first) /\
    Forall is_introspection told /\
    index (thread w') = 1 /\
    timers w' = timers w.
Proof.
  intros Hq Hrun Hfs Hs Hempty Hdone.
  destruct (run_builds_then_executes w l e dh fh Hq Hrun)
    as (wi & first & rest & told & Hstart & Hp & Hdh & Hfh & Hall & Hi & Hids & Hown & Hout
        & Hin & Htm & Hid & Hdev & Hctl); [rewrite Hfs; discriminate| |exact Hempty|].
  { intros cf' Hcf'. rewrite Hfs in Hcf'. apply list_elem_of_singleton in Hcf'. subst cf'.
    exact Hs. }
  rewrite Hfs in Hids. cbn [length seq map] in Hids.
  destruct rest as [|? ?]; [|discriminate]. injection Hids as Hidf.
  destruct (executeNext_sound toString _execute wi l dh fh Hp Hdh Hfh) as (w' & Hex & Hcore & _).
  assert (Hfirst : _execute first = CallsDone).
  { destruct first as [i t k]. cbn in Hidf. subst i.
    apply Forall_cons in Hown as (Ht & _). cbn in Ht. subst t. apply Hdone. }
  assert (Hafter : after_executeNext toString _execute dh fh wi =
                   after_done toString dh (log [Execute first] wi)).
  { unfold after_executeNext, previous_evicted, current. cbv zeta.
    rewrite Hi, Hall. cbn [lookup list_lookup Nat.ltb Nat.leb]. rewrite Hfirst. reflexivity. }
  rewrite Hafter in Hcore.
  apply core_inv in Hcore as (_ & _ & _ & Hth & Htm' & Hout').
  pose proof (after_done_view toString dh (log [Execute first] wi)) as Hv. cbv zeta in Hv.
  destruct Hv as (Hi' & Ht' & _ & Ho' & _).
  assert (Hmore : more_remain (log [Execute first] wi) = false).
  { unfold more_remain, log. fields. rewrite Hi, Hall. reflexivity. }
  assert (Hcur : current (log [Execute first] wi) = Some first).
  { unfold current, log. fields. rewrite Hi, Hall. reflexivity. }
  assert (Hdn : destroy_notice toString (log [Execute first] wi) VUndefined = [Destroy first]).
  { unfold destroy_notice. rewrite Hcur. reflexivity. }
  assert (Hins : inspector_notice (log [Execute first] wi) (Some first) =
                 inspector_notice w (Some first)).
  { unfold inspector_notice, log. fields. rewrite Hdev, Hctl. reflexivity. }
  rewrite Hmore, Hdn, Hcur, Hins in Ho'. rewrite Hmore in Ht'.
  exists w', first, told. split; [rewrite Hstart; exact Hex|]. split; [exact Hidf|].
  rewrite Hth, Htm', Hout', Hi', Ht', Ho'. unfold log. fields. rewrite Hi, Hid.
  split; [|split; [exact Hin|split; [reflexivity|exact Htm]]].
  rewrite Hout, <- !app_assoc, !calls_app, (calls_introspection _ Hin).
  cbn [calls List.filter is_call app]. fold (calls (inspector_notice w (Some first))).
  rewrite calls_inspector_notice. reflexivity.
Qed.

(** X23. [run] with a factory that [build] rejects: [run] throws what [build]
    throws for the first such factory.  By then the pipeline holds the handle
    and the callbacks it was given and one executor for every factory before
    the rejected one; no executor has been started, neither callback has been
    called and no step is queued. *)
Theorem X23_run_with_a_rejected_factory_throws w ev dh fh pre bad post :
  (__DEV__ w = true -> running (thread w) = false /\ truthy ev = true) ->
  tf_all (threadFactory (thread w)) = pre ++ bad :: post ->
  (forall cf, cf ∈ pre -> supported (executee cf) = true) ->
  supported (executee bad) = false ->
  exists w' new told,
    run toString _execute ev dh fh w = (Throw (build_error (executee bad)), w') /\
    all (thread w') = all (thread w) ++ new /\
    length new = length pre /\
    (ringaEvent (thread w'), doneHandler (thread w'), failHandler (thread w')) = (ev, dh, fh) /\
    out w' = out w ++ told /\
    Forall is_introspection told /\
    timers w' = timers w /\
    index (thread w') = index (thread w).
Proof.
  intros Hg Hfs Hpre Hbad.
  set (w0 := set_up ev dh fh w).
  destruct (build_steps_run (length pre) 0 w0)
    as (wb & new & told & Hb & Hnew & Hids & _ & _ & Hout & Hin & Hfr & Hst).
  { intros i Hi. subst w0. unfold set_up. fields. rewrite Hfs.
    destruct (lookup_lt_is_Some_2 pre i ltac:(lia)) as (cf & Hcf).
    exists cf. split; [rewrite lookup_app_l by lia; exact Hcf|].
    apply Hpre. apply list_elem_of_lookup. eauto. }
  assert (Hlen : length new = length pre).
  { rewrite <- (length_map ex_id new), Hids. apply length_seq. }
  pose proof Hfr as Hfr'.
  unfold thread_frame in Hfr. injection Hfr as _ _ _ _ Hix Hre Hdh Hfh _ _ Hexs.
  unfold store_frame in Hst. injection Hst as _ _ _ _ Htm.
  assert (Hat : exists cf, tf_all (threadFactory (thread wb)) !! length pre = Some cf /\
                           executee cf = executee bad).
  { assert (H : (map executee (tf_all (threadFactory (thread wb)))) !! length pre =
                Some (executee bad)).
    { rewrite Hexs. subst w0. unfold set_up. fields. rewrite Hfs.
      rewrite list_lookup_fmap. rewrite list_lookup_middle by reflexivity. reflexivity. }
    rewrite list_lookup_fmap in H.
    destruct (tf_all (threadFactory (thread wb)) !! length pre) as [cf|]; [|discriminate].
    exists cf. split; [reflexivity|]. injection H as H. exact H. }
  destruct Hat as (cf & Hcf & Hex).
  assert (Hstep : build_step (length pre) wb = (Throw (build_error (executee bad)), wb)).
  { unfold build_step. unfold bind at 1. unfold this_thread at 1, bind at 1, get, ret.
    rewrite Hcf. unfold bind. rewrite build_rejected by (rewrite Hex; exact Hbad).
    rewrite Hex. reflexivity. }
  exists wb, new, told. split.
  { rewrite run_past_the_guards.
    - fold w0. unfold bind at 1. rewrite buildExecutors_unfold.
      replace (tf_all (threadFactory (thread w0))) with (pre ++ bad :: post)
        by (subst w0; unfold set_up; fields; symmetry; exact Hfs).
      rewrite length_app. cbn [length]. rewrite seq_app. cbn [seq Nat.add].
      rewrite forEach_app. unfold bind at 1. rewrite Hb.
      rewrite forEach_cons. unfold bind at 1. rewrite Hstep. reflexivity.
    - intros Hdev. destruct (Hg Hdev) as (Hr & Ht). split; [exact Hr|]. split; [|exact Ht].
      rewrite Hfs. destruct pre; discriminate. }
  split; [exact Hnew|]. split; [exact Hlen|].
  split; [rewrite Hre, Hdh, Hfh; reflexivity|]. split; [exact Hout|]. split; [exact Hin|].
  split; [exact Htm|]. exact Hix.
Qed.

End Start.

(** * The pipeline and the value bag *)

Section Bag.

Variable toString : Value -> string.

Lemma lets_through_or_not v :
  lets_through v \/ v = VUndefined \/ exists z, v = VNum z /\ (0 <= z)%Z.
Proof.
  destruct v as [| | |z| | | |]; try solve [left; split; [discriminate|intros ? [=]]].
  - right. left. reflexivity.
  - destruct (Z.lt_ge_cases z 0) as [Hz|Hz].
    + left. split; [discriminate|]. intros ? [= <-]. exact Hz.
    + right. right. eauto.
Qed.

(** [addDebug], debugging on or off, writes no member of the bag but
    [$debug]. *)
Lemma addDebug_keeps_the_bag w l e d message :
  handle_ready w l e ->
  detail e = VRef d ->
  (truthy (member (heap w) d "$debug") = false -> next w <> d) ->
  exists w',
    addDebug (VRef l) message w = (Ret tt, w') /\
    core w' = core w /\
    handle_ready w' l e /\
    (forall k, k <> "$debug" -> member (heap w') d k = member (heap w) d k) /\
    (truthy (member (heap w') d "$debug") = false -> next w' <> d).
Proof.
  intros Hq Hd Hfresh.
  destruct (addDebug_sound w l e message Hq) as (w' & Hrun & Hcore & Hq').
  exists w'. split; [exact Hrun|]. split; [exact Hcore|]. split; [exact Hq'|].
  destruct (lets_through_or_not (member (heap w) d "debug")) as [Hon|Hoff].
  - destruct (addDebug_logs w l e d message Hq Hd Hon Hfresh)
      as (w2 & Hrun2 & _ & Harr & _ & _ & _ & Hmem).
    rewrite Hrun in Hrun2. injection Hrun2 as <-.
    split; [exact Hmem|]. rewrite Harr. discriminate.
  - destruct Hq as (He & _).
    assert (Hidle : addDebug (VRef l) message w = (Ret tt, w)).
    { unfold addDebug. step ltac:(apply (debug_eval _ _ _ _ He Hd)).
      destruct Hoff as [-> | (z & -> & Hz)]; [reflexivity|].
      cbv zeta. apply Z.leb_le in Hz. rewrite Hz. reflexivity. }
    rewrite Hidle in Hrun. injection Hrun as <-. auto.
Qed.

Lemma forget_promise_clears w l e d :
  ringaEvent (thread w) = VRef l ->
  events w !! l = Some e ->
  detail e = VRef d ->
  exists w',
    forget_promise w = (Ret tt, w') /\
    truthy (member (heap w') d "_promise") = false /\
    (forall k, k <> "_promise" -> member (heap w') d k = member (heap w) d k).
Proof.
  intros Hr He Hd. unfold forget_promise. step ltac:(reflexivity). rewrite Hr.
  step ltac:(apply get_event_at; exact He). rewrite Hd.
  step ltac:(apply get_member_ref).
  destruct (truthy (member (heap w) d "_promise")) eqn:Hp.
  - assert (Hon : member (heap w) d "_promise" <> VUndefined)
      by (intros H; rewrite H in Hp; discriminate).
    destruct (member_is_bag _ _ _ Hon) as (bag & Hb).
    eexists. split; [unfold delete_member, modify; rewrite Hb; reflexivity|].
    cbn [heap set_heap]. unfold member. rewrite lookup_insert_eq, Hb.
    split; [rewrite lookup_delete_eq; reflexivity|].
    intros k Hk. rewrite lookup_delete_ne by congruence. reflexivity.
  - exists w. split; [reflexivity|]. auto.
Qed.

Lemma done_tail_heap dh executor w :
  heap (done_tail dh executor w) = heap w /\ next (done_tail dh executor w) = next w.
Proof.
  unfold done_tail. destruct (index (thread w) <? length (all (thread w)))%nat; auto.
Qed.

Lemma _executorDoneHandler_keeps_the_bag w l e d dh :
  ringaEvent (thread w) = VRef l ->
  handle_ready w l e ->
  detail e = VRef d ->
  doneHandler (thread w) = VRef dh ->
  (truthy (member (heap w) d "$debug") = false -> next w <> d) ->
  exists w',
    _executorDoneHandler toString w = (Ret tt, w') /\
    truthy (member (heap w') d "_promise") = false /\
    (forall k, k <> "_promise" -> k <> "$debug" ->
               member (heap w') d k = member (heap w) d k) /\
    (truthy (member (heap w') d "$debug") = false -> next w' <> d).
Proof.
  intros Hr Hq Hd Hdh Hfresh.
  set (w1 := log (destroy_notice toString w VUndefined) w).
  assert (Hq1 : handle_ready w1 l e) by exact Hq.
  destruct (addDebug_keeps_the_bag w1 l e d ("Done: " +:+ show toString (current w)) Hq1 Hd Hfresh)
    as (w2 & Hdbg & Hc2 & Hq2 & Hmem2 & Hfresh2).
  pose proof (core_inv _ _ Hc2) as (_ & _ & _ & Ht2 & _).
  pose proof Hq2 as (He2 & _).
  destruct (forget_promise_clears (advanced w2) l e d) as (w4 & Hfp & Hclear & Hmem4);
    [unfold advanced; fields; rewrite Ht2; exact Hr|exact He2|exact Hd|].
  assert (Hdh4 : doneHandler (thread w4) = VRef dh).
  { assert (Hp3 : pipeline_ready (advanced w2) l).
    { split; [|exists e; exact Hq2]. unfold advanced. fields. rewrite Ht2. exact Hr. }
    destruct (forget_promise_sound _ _ Hp3) as (w4' & Hfp' & Hc4 & _).
    rewrite Hfp in Hfp'. injection Hfp' as <-.
    apply core_inv in Hc4 as (_ & _ & _ & -> & _). unfold advanced. fields.
    rewrite Ht2. exact Hdh. }
  assert (Hnext4 : truthy (member (heap w4) d "$debug") = false -> next w4 <> d).
  { rewrite Hmem4 by discriminate. intros Hf. specialize (Hfresh2 Hf).
    unfold forget_promise in Hfp. revert Hfp.
    step ltac:(reflexivity). replace (ringaEvent (thread (advanced w2))) with (VRef l)
      by (unfold advanced; fields; rewrite Ht2; symmetry; exact Hr).
    step ltac:(apply get_event_at; exact He2). rewrite Hd.
    step ltac:(apply get_member_ref).
    destruct (truthy (member (heap (advanced w2)) d "_promise")).
    - unfold delete_member, modify.
      destruct (heap (advanced w2) !! d) as [[b|xs]|]; intros [= <-]; exact Hfresh2.
    - intros [= <-]. exact Hfresh2. }
  exists (done_tail dh (current w) w4).
  destruct (done_tail_heap dh (current w) w4) as (-> & ->).
  split; [|split; [exact Hclear|split; [|exact Hnext4]]].
  - unfold _executorDoneHandler.
    step ltac:(apply destroy_current_spec).
    step ltac:(reflexivity).
    replace (ringaEvent (thread (log (destroy_notice toString w VUndefined) w)))
      with (VRef l) by (symmetry; exact Hr).
    step ltac:(exact Hdbg).
    step ltac:(reflexivity).
    step ltac:(exact Hfp).
    apply done_tail_runs. exact Hdh4.
  - intros k Hk1 Hk2. rewrite Hmem4 by exact Hk1. unfold advanced. fields.
    rewrite Hmem2 by exact Hk2. reflexivity.
Qed.

(** X24. The done-handler and the value bag: when the handler returns, the
    bag's [_promise] member is gone or falsy, and every other member of the
    bag, the debug log apart, is what it was before. *)
Theorem X24_done_handler_clears_the_promise_and_keeps_the_bag w l e d dh :
  ringaEvent (thread w) = VRef l ->
  handle_ready w l e ->
  detail e = VRef d ->
  doneHandler (thread w) = VRef dh ->
  (truthy (member (heap w) d "$debug") = false -> next w <> d) ->
  exists w',
    _executorDoneHandler toString w = (Ret tt, w') /\
    truthy (member (heap w') d "_promise") = false /\
    (forall k, k <> "_promise" -> k <> "$debug" ->
               member (heap w') d k = member (heap w) d k).
Proof.
  intros Hr Hq Hd Hdh Hfresh.
  destruct (_executorDoneHandler_keeps_the_bag w l e d dh Hr Hq Hd Hdh Hfresh)
    as (w' & Hrun & Hclear & Hmem & _).
  exists w'. auto.
Qed.

End Bag.

(** * The further properties at work on sample stores *)

(** A handle whose bag (object [d]) has no debug log. *)
Ltac ready d :=
  split; [vm_compute; reflexivity|];
  split; [reflexivity|];
  exists d; split; [reflexivity|left; vm_compute; reflexivity].

Ltac one_of_these H :=
  repeat (apply elem_of_cons in H as [->|H]; [vm_compute; reflexivity|]);
  apply elem_of_nil in H; contradiction.

Lemma X1_witness :
  handle_ready caught_by_two 11 handle_of_two /\
  indexOf (catchers handle_of_two) (VRef 99) = None /\
  __DEV__ caught_by_two = false /\
  exists w' e',
    _uncatch sample_toString (VRef 11) (VRef 99) caught_by_two = (Ret tt, w') /\
    events w' !! 11 = Some e' /\
    catchers e' = [VRef 20] /\
    _catchers e' = [VRef 21].
Proof.
  assert (Hq : handle_ready caught_by_two 11 handle_of_two) by ready 10.
  split; [exact Hq|]. split; [reflexivity|]. split; [reflexivity|].
  destruct (X1_uncatch_of_a_controller_not_in_flight sample_toString caught_by_two 11
              handle_of_two (VRef 99) Hq eq_refl) as (_ & H).
  destruct (H eq_refl) as (w' & e' & Hrun & He & Hc & Hcc & _).
  exists w', e'. split; [exact Hrun|]. split; [exact He|]. split; [exact Hc|exact Hcc].
Defined.

Lemma X2_witness :
  handle_ready caught_by_two 11 handle_of_two /\
  exists w' e',
    (_caught sample_toString (VRef 11) (VRef 22) ;;
     _uncatch sample_toString (VRef 11) (VRef 22)) caught_by_two = (Ret tt, w') /\
    events w' !! 11 = Some e' /\
    _catchers e' = [VRef 22] /\
    catchers e' = [VRef 20; VRef 21].
Proof.
  assert (Hq : handle_ready caught_by_two 11 handle_of_two) by ready 10.
  split; [exact Hq|].
  destruct (X2_caught_then_uncatch sample_toString caught_by_two 11 handle_of_two (VRef 22)
              Hq eq_refl) as (w' & e' & Hrun & He & Hcc & _ & Hc & _).
  exists w', e'. split; [exact Hrun|]. split; [exact He|]. split; [exact Hcc|].
  exact (Hc eq_refl).
Defined.

Lemma X3_witness :
  events first_in_flight !! 11 = Some running_handle /\
  forEach (fail (VRef 11)) [VStr "first"; VStr "second"] first_in_flight =
  (Ret tt,
   with_event 11 (set__errors (Some [VStr "first"; VStr "second"]) running_handle)
     first_in_flight).
Proof.
  assert (He : events first_in_flight !! 11 = Some running_handle) by (vm_compute; reflexivity).
  split; [exact He|].
  exact (X3_fail_only_records first_in_flight 11 running_handle (VStr "first") [VStr "second"]
           He eq_refl).
Defined.

Lemma X4_witness :
  handle_ready one_catcher_listening 11 listening_handle /\
  registered listening_handle FAIL = map VRef [30] /\
  exists w' e',
    _fail sample_toString (VRef 11) (VRef 20) (VStr "boom") (VBool true) one_catcher_listening
      = (Ret tt, w') /\
    calls (out w') =
      calls (out one_catcher_listening) ++
      [CallListener 30 (live FAIL VUndefined (VStr "boom") (VBool true))] /\
    events w' !! 11 = Some e' /\
    dispatchedEvents e' = [kept FAIL VUndefined (VStr "boom")] /\
    errors e' = None /\
    catchers e' = [] /\
    _catchers e' = [VRef 20].
Proof.
  assert (Hq : handle_ready one_catcher_listening 11 listening_handle) by ready 10.
  assert (Hreg : registered listening_handle FAIL = map VRef [30]) by (vm_compute; reflexivity).
  split; [exact Hq|]. split; [exact Hreg|].
  destruct (X4_internal_fail_notifies_and_records_nothing sample_toString one_catcher_listening 11
              listening_handle (VRef 20) (VStr "boom") (VBool true) [30] Hq Hreg)
    as (w' & e' & Hrun & Hcalls & He & Hlog & Herr & _ & Hk).
  { intros _. exists 0. reflexivity. }
  destruct (Hk eq_refl) as (i & Hi & Hc & Hcc).
  injection Hi as <-.
  exists w', e'. split; [exact Hrun|]. split; [exact Hcalls|]. split; [exact He|].
  split; [exact Hlog|]. split; [exact Herr|]. split; [exact Hc|exact Hcc].
Defined.

Lemma X5_witness :
  handle_ready one_catcher_listening 11 listening_handle /\
  catchers listening_handle = [VRef 20] /\
  errors listening_handle = None /\
  exists w' e',
    (_fail sample_toString (VRef 11) (VRef 20) (VStr "boom") VUndefined ;;
     _done sample_toString (VRef 11) (VRef 20)) one_catcher_listening = (Ret tt, w') /\
    calls (out w') =
      calls (out one_catcher_listening) ++
      [CallListener 30 (live FAIL VUndefined (VStr "boom") VUndefined);
       CallListener 31 (live DONE VUndefined VUndefined VUndefined)] /\
    events w' !! 11 = Some e' /\
    dispatchedEvents e' =
      [kept FAIL VUndefined (VStr "boom"); kept DONE VUndefined VUndefined].
Proof.
  assert (Hq : handle_ready one_catcher_listening 11 listening_handle) by ready 10.
  split; [exact Hq|]. split; [reflexivity|]. split; [reflexivity|].
  destruct (X5_nonfatal_fail_then_done_announces_both sample_toString one_catcher_listening 11
              listening_handle (VRef 20) (VStr "boom") VUndefined [30] [31]
              Hq eq_refl eq_refl eq_refl (or_introl eq_refl))
    as (w' & e' & Hrun & Hcalls & He & Hlog & _);
    [vm_compute; reflexivity|vm_compute; reflexivity|].
  exists w', e'. split; [exact Hrun|]. split; [exact Hcalls|]. split; [exact He|exact Hlog].
Defined.

Lemma X6_witness :
  events one_catcher_listening !! 11 = Some listening_handle /\
  registered listening_handle FAIL = map VRef [30] /\
  (40 ∉ [30]) /\
  exists w',
    (_dispatchEvent (VRef 11) FAIL VUndefined (VStr "boom") (VBool true) ;;
     addListener sample_toString (VRef 11) (VStr FAIL) (VRef 40)) one_catcher_listening
      = (Ret (VRef 11), w') /\
    out w' =
      out one_catcher_listening ++
      [CallListener 30 (mkNotification FAIL VUndefined (VStr "boom") (Some (VBool true)));
       CallListener 40 (mkNotification FAIL VUndefined (VStr "boom") None)].
Proof.
  assert (He : events one_catcher_listening !! 11 = Some listening_handle)
    by (vm_compute; reflexivity).
  assert (Hreg : registered listening_handle FAIL = map VRef [30]) by (vm_compute; reflexivity).
  assert (Hh : 40 ∉ [30]).
  { apply not_elem_of_cons. split; [discriminate|apply not_elem_of_nil]. }
  split; [exact He|]. split; [exact Hreg|]. split; [exact Hh|].
  destruct (X6_late_subscriber_gets_no_kill_flag sample_toString one_catcher_listening 11
              listening_handle FAIL VUndefined (VStr "boom") (VBool true) [30] 40
              He eq_refl eq_refl Hreg Hh) as (w' & Hrun & Hout & _).
  exists w'. split; [exact Hrun|exact Hout].
Defined.

Lemma X7_witness :
  handle_ready one_catcher_listening_quiet 11 listening_handle /\
  catchers listening_handle = [VRef 20] /\
  __DEV__ one_catcher_listening_quiet = false /\
  exists w' e',
    (_done sample_toString (VRef 11) (VRef 20) ;;
     _done sample_toString (VRef 11) (VRef 20)) one_catcher_listening_quiet = (Ret tt, w') /\
    calls (out w') =
      calls (out one_catcher_listening_quiet) ++
      [CallListener 31 (live DONE VUndefined VUndefined VUndefined);
       CallListener 31 (live DONE VUndefined VUndefined VUndefined)] /\
    events w' !! 11 = Some e' /\
    _catchers e' = [VRef 20; VUndefined].
Proof.
  assert (Hq : handle_ready one_catcher_listening_quiet 11 listening_handle) by ready 10.
  split; [exact Hq|]. split; [reflexivity|]. split; [reflexivity|].
  destruct (X7_done_twice sample_toString one_catcher_listening_quiet 11 listening_handle
              (VRef 20) [31] Hq eq_refl eq_refl (or_introl eq_refl)) as (_ & H);
    [vm_compute; reflexivity|].
  destruct (H eq_refl) as (w' & e' & Hrun & Hcalls & He & _ & Hcc).
  exists w', e'. split; [exact Hrun|]. split; [exact Hcalls|]. split; [exact He|exact Hcc].
Defined.

Lemma X8_witness :
  events first_in_flight !! 11 = Some running_handle /\
  member (heap first_in_flight) 10 "debug" = VUndefined /\
  addDebug (VRef 11) "hello" first_in_flight = (Ret tt, first_in_flight).
Proof.
  assert (He : events first_in_flight !! 11 = Some running_handle) by (vm_compute; reflexivity).
  assert (Hoff : member (heap first_in_flight) 10 "debug" = VUndefined)
    by (vm_compute; reflexivity).
  split; [exact He|]. split; [exact Hoff|].
  exact (X8_addDebug_silent_from_level_zero first_in_flight 11 running_handle 10 "hello"
           He eq_refl (or_introl Hoff)).
Defined.

Lemma X9_witness :
  handle_ready verbose_in_flight 11 running_handle /\
  lets_through (member (heap verbose_in_flight) 10 "debug") /\
  exists w',
    forEach (addDebug (VRef 11)) ["one"; "two"] verbose_in_flight = (Ret tt, w') /\
    debug_log (heap w') 10 =
      debug_log (heap verbose_in_flight) 10 ++ [VStr "one"; VStr "two"] /\
    out w' = out verbose_in_flight ++ [ConsoleLog "one"; ConsoleLog "two"].
Proof.
  assert (Hq : handle_ready verbose_in_flight 11 running_handle).
  { split; [vm_compute; reflexivity|]. split; [reflexivity|].
    exists 10. split; [reflexivity|].
    right. exists 14, [VStr "Executing: [object 12]"]. split; vm_compute; reflexivity. }
  assert (Hon : lets_through (member (heap verbose_in_flight) 10 "debug")).
  { split; [vm_compute; discriminate|]. intros z H. vm_compute in H. discriminate H. }
  split; [exact Hq|]. split; [exact Hon|].
  destruct (X9_addDebug_appends_to_the_log verbose_in_flight 11 running_handle 10 ["one"; "two"]
              Hq eq_refl Hon) as (w' & Hrun & Hlog & Hout & _).
  { intros H. vm_compute in H. discriminate H. }
  exists w'. split; [exact Hrun|]. split; [exact Hlog|exact Hout].
Defined.

Lemma X10_witness :
  __DEV__ world_with_bag = true /\
  exists msg w',
    new_RingaEvent VUndefined (VRef 10) VUndefined VUndefined VUndefined VUndefined
      world_with_bag = (Throw (VError PlainError msg), w') /\
    events w' = events world_with_bag /\
    heap w' = heap world_with_bag.
Proof.
  split; [reflexivity|].
  destruct (X10_new_RingaEvent_refuses_a_falsy_type world_with_bag VUndefined (VRef 10)
              VUndefined VUndefined VUndefined VUndefined eq_refl eq_refl)
    as (msg & w' & Hrun & Hev & _ & Hheap).
  exists msg, w'. split; [exact Hrun|]. split; [exact Hev|]. apply Hheap. discriminate.
Defined.

Lemma X11_witness :
  primitive VNull = true /\
  exists msg w',
    new_RingaEvent (VStr "go") VNull VUndefined VUndefined VUndefined VUndefined
      world_with_bag = (Throw (VError TypeError msg), w') /\
    events w' = events world_with_bag.
Proof.
  split; [reflexivity|].
  destruct (X11_new_RingaEvent_needs_an_object_for_detail world_with_bag (VStr "go") VNull
              VUndefined VUndefined VUndefined VUndefined eq_refl eq_refl)
    as (msg & w' & Hrun & Hev & _).
  exists msg, w'. split; [exact Hrun|exact Hev].
Defined.

Lemma X12_witness :
  events one_catcher_listening !! 11 = Some listening_handle /\
  registered listening_handle DONE = map VRef [31] /\
  history listening_handle DONE = [] /\
  (exists w1 w2,
     addDoneListener sample_toString sample_prototype never_shadowed
       (fun _ => ["user"]) (fun _ _ => ret tt) (VRef 11) (VRef 60) one_catcher_listening
       = (Ret (VRef 11), w1) /\
     _dispatchEvent_calling
       (call_done_listener sample_prototype never_shadowed
          (fun _ => ["user"]) (fun _ _ => ret tt) 12 (VRef 11) (VRef 60))
       (VRef 11) DONE VUndefined VUndefined VUndefined w1
       = (Throw (VError TypeError "Cannot read property '_injections' of undefined"), w2) /\
     out w2 =
       out one_catcher_listening ++
       [CallListener 31 (live DONE VUndefined VUndefined VUndefined)]) /\
  events all_done !! 11 = Some done_handle /\
  history done_handle DONE <> [] /\
  (exists w1,
     addDoneListener sample_toString sample_prototype never_shadowed
       (fun _ => ["user"]) (fun _ _ => ret tt) (VRef 11) (VRef 60) all_done
       = (Throw (VError TypeError "Cannot read property '_injections' of undefined"), w1) /\
     out w1 = out all_done).
Proof.
  assert (He : events one_catcher_listening !! 11 = Some listening_handle)
    by (vm_compute; reflexivity).
  assert (Hreg : registered listening_handle DONE = map VRef [31]) by (vm_compute; reflexivity).
  assert (He' : events all_done !! 11 = Some done_handle) by (vm_compute; reflexivity).
  assert (Hlogged : history done_handle DONE <> []) by (vm_compute; discriminate).
  split; [exact He|]. split; [exact Hreg|]. split; [reflexivity|].
  split; [|split; [exact He'|split; [exact Hlogged|]]].
  - destruct (X12_done_listeners_throw_before_the_handler sample_toString
                sample_prototype never_shadowed (fun _ => ["user"]) (fun _ _ => ret tt)
                one_catcher_listening 11 listening_handle (VRef 60) [31] He eq_refl Hreg)
      as (_ & Hbefore & _).
    { apply not_elem_of_cons. split; [discriminate|apply not_elem_of_nil]. }
    destruct (Hbefore eq_refl) as (w1 & w2 & Hadd & _ & _ & Hrun & Hout & _).
    exists w1, w2. split; [exact Hadd|]. split; [exact Hrun|exact Hout].
  - destruct (X12_done_listeners_throw_before_the_handler sample_toString
                sample_prototype never_shadowed (fun _ => ["user"]) (fun _ _ => ret tt)
                all_done 11 done_handle (VRef 60) [] He' eq_refl eq_refl)
      as (_ & _ & Hafter).
    { apply not_elem_of_nil. }
    destruct (Hafter Hlogged) as (w1 & Hadd & _ & Hout).
    exists w1. split; [exact Hadd|exact Hout].
Defined.

Lemma X13_witness :
  events first_in_flight !! 11 = Some running_handle /\
  history running_handle DONE = [] /\
  exists w' e',
    (addDoneListener sample_toString sample_prototype never_shadowed
       (fun _ => ["user"]) (fun _ _ => ret tt) (VRef 11) (VRef 60) ;;
     addDoneListener sample_toString sample_prototype never_shadowed
       (fun _ => ["user"]) (fun _ _ => ret tt) (VRef 11) (VRef 60)) first_in_flight
      = (Ret (VRef 11), w') /\
    events w' !! 11 = Some e' /\
    registered e' DONE = [VRef 14; VRef 15].
Proof.
  assert (He : events first_in_flight !! 11 = Some running_handle) by (vm_compute; reflexivity).
  split; [exact He|]. split; [reflexivity|].
  destruct (X13_addDoneListener_never_sees_a_duplicate sample_toString
              sample_prototype never_shadowed (fun _ => ["user"]) (fun _ _ => ret tt)
              first_in_flight 11
              running_handle (VRef 60) He eq_refl) as (w' & e' & Hrun & He' & Hreg & _).
  { intros h Hh. vm_compute in Hh. apply elem_of_nil in Hh. contradiction. }
  { reflexivity. }
  exists w', e'. split; [exact Hrun|]. split; [exact He'|exact Hreg].
Defined.

Lemma X15_witness :
  executors dispatched_with_bag !! 7 = Some sample_executor /\
  heap dispatched_with_bag !! 10 = Some (OBag bag_after_dispatch) /\
  bag_after_dispatch !! "hasOwnProperty" = None /\
  injection_table sample_executor (VRef 11) running_handle !! "hasOwnProperty" = None /\
  bag_after_dispatch !! "controller" = None /\
  injection_table sample_executor (VRef 11) running_handle !! "controller" = None /\
  exists w',
    buildArgumentsFromRingaEvent sample_prototype never_shadowed
      (VRef 7) ["user"; "controller"; "target"] (VRef 11) dispatched_with_bag
    = (Throw (VError PlainError
         "executor 7: the property 'controller' was not provided on the dispatched ringaEvent.Expected Arguments were: ['user'.'controller'.'target'] Dispatched from: unknown stack."),
       w').
Proof.
  assert (Hx : executors dispatched_with_bag !! 7 = Some sample_executor)
    by (vm_compute; reflexivity).
  assert (He : events dispatched_with_bag !! 11 = Some running_handle)
    by (vm_compute; reflexivity).
  assert (Hb : heap dispatched_with_bag !! 10 = Some (OBag bag_after_dispatch))
    by (vm_compute; reflexivity).
  assert (Hplain : bag_after_dispatch !! "hasOwnProperty" = None) by (vm_compute; reflexivity).
  assert (Htable : injection_table sample_executor (VRef 11) running_handle !! "hasOwnProperty"
                   = None) by (vm_compute; reflexivity).
  assert (Hn : bag_after_dispatch !! "controller" = None) by (vm_compute; reflexivity).
  assert (Ht : injection_table sample_executor (VRef 11) running_handle !! "controller" = None)
    by (vm_compute; reflexivity).
  split; [exact Hx|]. split; [exact Hb|]. split; [exact Hplain|]. split; [exact Htable|].
  split; [exact Hn|]. split; [exact Ht|].
  destruct (X15_unresolved_argument_is_reported sample_prototype never_shadowed
              dispatched_with_bag 7 11 10 sample_executor
              running_handle bag_after_dispatch ["user"] "controller" ["target"]
              Hx He eq_refl Hb Hplain Htable) as (w' & Hrun & _); [|exact Hn|exact Ht|].
  { intros m Hm. apply list_elem_of_singleton in Hm. subst m.
    left. exists (VStr "ann"). vm_compute. reflexivity. }
  exists w'. exact Hrun.
Defined.

Lemma X16_witness :
  executors dispatched_with_bag !! 7 = Some sample_executor /\
  _injections sample_executor = None /\
  heap dispatched_with_bag !! 10 = Some (OBag bag_after_dispatch) /\
  bag_after_dispatch !! "hasOwnProperty" = None /\
  exists w',
    buildArgumentsFromRingaEvent sample_prototype never_shadowed
      (VRef 7) well_known_names (VRef 11) dispatched_with_bag
    = (Ret [VRef 5; VRef 1; VRef 11; VUndefined; VUndefined; VRef 10; VRef 8; VRef 9;
            VUndefined; VUndefined], w').
Proof.
  assert (Hx : executors dispatched_with_bag !! 7 = Some sample_executor)
    by (vm_compute; reflexivity).
  assert (He : events dispatched_with_bag !! 11 = Some running_handle)
    by (vm_compute; reflexivity).
  assert (Hb : heap dispatched_with_bag !! 10 = Some (OBag bag_after_dispatch))
    by (vm_compute; reflexivity).
  assert (Hplain : bag_after_dispatch !! "hasOwnProperty" = None) by (vm_compute; reflexivity).
  split; [exact Hx|]. split; [reflexivity|]. split; [exact Hb|]. split; [exact Hplain|].
  destruct (X16_well_known_names_resolve sample_prototype never_shadowed
              dispatched_with_bag 7 11 10 sample_executor
              running_handle bag_after_dispatch Hx eq_refl He eq_refl Hb Hplain)
    as (w' & Hrun & _).
  { intros inj Hinj. injection Hinj as <-. vm_compute. reflexivity. }
  { intros n Hn. unfold well_known_names in Hn. one_of_these Hn. }
  { intros inj n Hinj Hn. injection Hinj as <-. unfold well_known_names in Hn.
    one_of_these Hn. }
  exists w'. exact Hrun.
Defined.

Lemma X17_witness :
  executors two_handles !! 7 = Some sample_executor /\
  events two_handles !! 11 = Some running_handle /\
  events two_handles !! 13 = Some second_handle /\
  buildArgumentsFromRingaEvent sample_prototype never_shadowed (VRef 7) [] (VRef 11) two_handles =
    (Ret [], after_first_resolution) /\
  exists w2,
    buildArgumentsFromRingaEvent sample_prototype never_shadowed
      (VRef 7) ["$ringaEvent"; "$detail"] (VRef 13) after_first_resolution
    = (Ret [VRef 11; VRef 10], w2).
Proof.
  assert (Hx : executors two_handles !! 7 = Some sample_executor) by (vm_compute; reflexivity).
  assert (He1 : events two_handles !! 11 = Some running_handle) by (vm_compute; reflexivity).
  assert (He2 : events two_handles !! 13 = Some second_handle) by (vm_compute; reflexivity).
  assert (Hfirst : buildArgumentsFromRingaEvent sample_prototype never_shadowed
                     (VRef 7) [] (VRef 11) two_handles =
                   (Ret [], after_first_resolution)) by (vm_compute; reflexivity).
  assert (Hplain1 : plain_detail two_handles running_handle).
  { intros d bag Hd Hb. injection Hd as <-. vm_compute in Hb. injection Hb as <-.
    vm_compute. reflexivity. }
  split; [exact Hx|]. split; [exact He1|]. split; [exact He2|]. split; [exact Hfirst|].
  destruct (X17_injections_are_computed_once sample_prototype never_shadowed
              two_handles 7 sample_executor 11 running_handle []
              (Ret []) after_first_resolution 13 second_handle 12 {[ "ringaEvent" := VRef 13 ]}
              Hx eq_refl He1 He2 eq_refl) as (w2 & Hrun);
    [vm_compute; reflexivity|exact Hplain1|vm_compute; reflexivity|
    |vm_compute; reflexivity|vm_compute; reflexivity| |exact Hfirst|].
  { intros inj Hinj. injection Hinj as <-. vm_compute. reflexivity. }
  { intros inj Hinj. injection Hinj as <-. split; vm_compute; reflexivity. }
  exists w2. exact Hrun.
Defined.

Lemma X18_witness :
  pipeline_ready first_in_flight 11 /\
  current first_in_flight = Some first_executor /\
  exists w',
    _executorFailHandler sample_toString (VStr "boom") VUndefined first_in_flight
      = (Ret tt, w') /\
    calls (out w') =
      calls (out first_in_flight) ++
      [Destroy first_executor; CallFailHandler 3 1 (VStr "boom") VUndefined;
       Destroy first_executor] /\
    timers w' = [ExecuteNext].
Proof.
  assert (Hp : pipeline_ready first_in_flight 11).
  { split; [reflexivity|]. exists running_handle. ready 10. }
  split; [exact Hp|]. split; [reflexivity|].
  destruct (X18_fail_handler_calls sample_toString first_in_flight 11 2 3 first_executor
              (VStr "boom") VUndefined Hp eq_refl eq_refl eq_refl)
    as (w' & Hrun & _ & Hcalls & Htm).
  exists w'. split; [exact Hrun|]. split; [exact Hcalls|exact Htm].
Defined.

Lemma X19_witness :
  pipeline_ready first_in_flight 11 /\
  all_throwing first_executor = Throws (VStr "bang") /\
  exists w',
    executeNext sample_toString all_throwing first_in_flight = (Ret tt, w') /\
    error (thread w') = VStr "bang" /\
    index (thread w') = 1.
Proof.
  assert (Hp : pipeline_ready first_in_flight 11).
  { split; [reflexivity|]. exists running_handle. ready 10. }
  split; [exact Hp|]. split; [reflexivity|].
  destruct (X19_executeNext_turns_a_throw_into_a_failure sample_toString all_throwing
              first_in_flight 11 2 3 first_executor (VStr "bang")
              Hp eq_refl eq_refl eq_refl eq_refl) as (w' & Hrun & Herr & Hi & _).
  exists w'. split; [exact Hrun|]. split; [exact Herr|exact Hi].
Defined.

Lemma X20_witness :
  pipeline_ready torn_down 11 /\
  current torn_down = None /\
  exists w',
    executeNext sample_toString all_pending torn_down = (Ret tt, w') /\
    error (thread w') = no_executor /\
    index (thread w') = 1 /\
    exists pre mid post,
      calls (out w') =
        calls (out torn_down) ++ pre ++
        CallFailHandler 3 1 no_executor VUndefined :: mid ++ CallDoneHandler 2 1 :: post.
Proof.
  assert (Hp : pipeline_ready torn_down 11).
  { split; [reflexivity|]. exists running_handle. ready 10. }
  split; [exact Hp|]. split; [reflexivity|].
  destruct (X20_executeNext_past_the_end_calls_both_handlers sample_toString all_pending
              torn_down 11 2 3 Hp eq_refl eq_refl eq_refl)
    as (w' & Hrun & Herr & Hi & _ & _ & Hcalls).
  exists w'. split; [exact Hrun|]. split; [exact Herr|]. split; [exact Hi|exact Hcalls].
Defined.

Lemma X21_witness :
  handle_ready before_run_of_two 11 running_handle /\
  all (thread before_run_of_two) = [] /\
  exists w' first told,
    run sample_toString all_pending (VRef 11) (VRef 2) (VRef 3) before_run_of_two
      = (Ret tt, w') /\
    index (thread w') = 0 /\
    map ex_id (all (thread w')) = [12; 13] /\
    all (thread w') !! 0 = Some first /\
    calls (out w') = calls (out before_run_of_two) ++ told ++ [Execute first] /\
    timers w' = [].
Proof.
  assert (Hq : handle_ready before_run_of_two 11 running_handle) by ready 10.
  split; [exact Hq|]. split; [reflexivity|].
  destruct (X21_run_starts_the_first_executor_only sample_toString all_pending before_run_of_two
              11 running_handle 2 3 Hq)
    as (w' & first & told & Hrun & _ & Hi & Hids & _ & Hfirst & Hcalls & _ & Htm).
  { intros _. reflexivity. }
  { intros H. vm_compute in H. discriminate H. }
  { intros cf Hcf. vm_compute in Hcf. one_of_these Hcf. }
  { reflexivity. }
  { intros k. reflexivity. }
  exists w', first, told. split; [exact Hrun|]. split; [exact Hi|]. split; [exact Hids|].
  split; [exact Hfirst|]. split; [exact Hcalls|exact Htm].
Defined.

Lemma X22_witness :
  handle_ready before_run_of_one 11 running_handle /\
  tf_all (threadFactory (thread before_run_of_one)) =
    [mkCommandFactory (EFunction first_step) None] /\
  exists w' first told,
    run sample_toString all_done_at_once (VRef 11) (VRef 2) (VRef 3) before_run_of_one
      = (Ret tt, w') /\
    ex_id first = 12 /\
    calls (out w') =
      calls (out before_run_of_one) ++ told ++
      [Execute first; Destroy first; CallDoneHandler 2 1; InspectorDispatch (Some first)] /\
    timers w' = [].
Proof.
  assert (Hq : handle_ready before_run_of_one 11 running_handle) by ready 10.
  split; [exact Hq|]. split; [reflexivity|].
  destruct (X22_run_of_one_step_completes_at_once sample_toString all_done_at_once
              before_run_of_one 11 running_handle 2 3
              (mkCommandFactory (EFunction first_step) None) Hq)
    as (w' & first & told & Hrun & Hid & Hcalls & _ & _ & Htm).
  { intros _. reflexivity. }
  { reflexivity. }
  { reflexivity. }
  { reflexivity. }
  { intros k. reflexivity. }
  exists w', first, told. split; [exact Hrun|]. split; [exact Hid|].
  split; [exact Hcalls|exact Htm].
Defined.

Lemma X23_witness :
  tf_all (threadFactory (thread before_run_of_a_bad_list)) =
    [mkCommandFactory (EFunction first_step) None] ++ mkCommandFactory EUndefined None :: [] /\
  supported EUndefined = false /\
  exists w' new told,
    run sample_toString all_pending (VRef 11) onDone onFail before_run_of_a_bad_list
      = (Throw (VError TypeError "Cannot read property 'then' of undefined"), w') /\
    all (thread w') = new /\
    length new = 1 /\
    out w' = out before_run_of_a_bad_list ++ told /\
    timers w' = [].
Proof.
  split; [reflexivity|]. split; [reflexivity|].
  destruct (X23_run_with_a_rejected_factory_throws sample_toString all_pending
              before_run_of_a_bad_list (VRef 11) onDone onFail
              [mkCommandFactory (EFunction first_step) None]
              (mkCommandFactory EUndefined None) [])
    as (w' & new & told & Hrun & Hall & Hlen & _ & Hout & _ & Htm & _).
  { intros _. split; reflexivity. }
  { reflexivity. }
  { intros cf Hcf. one_of_these Hcf. }
  { reflexivity. }
  exists w', new, told. split; [exact Hrun|]. split; [exact Hall|]. split; [exact Hlen|].
  split; [exact Hout|exact Htm].
Defined.

Lemma X24_witness :
  handle_ready promise_pending 11 running_handle /\
  member (heap promise_pending) 10 "_promise" = VRef 50 /\
  member (heap promise_pending) 10 "user" = VStr "ann" /\
  exists w',
    _executorDoneHandler sample_toString promise_pending = (Ret tt, w') /\
    truthy (member (heap w') 10 "_promise") = false /\
    member (heap w') 10 "user" = member (heap promise_pending) 10 "user".
Proof.
  assert (Hq : handle_ready promise_pending 11 running_handle) by ready 10.
  split; [exact Hq|]. split; [vm_compute; reflexivity|]. split; [vm_compute; reflexivity|].
  destruct (X24_done_handler_clears_the_promise_and_keeps_the_bag sample_toString promise_pending
              11 running_handle 10 2 eq_refl Hq eq_refl eq_refl)
    as (w' & Hrun & Hclear & Hmem).
  { intros _ H. vm_compute in H. discriminate H. }
  exists w'. split; [exact Hrun|]. split; [exact Hclear|].
  apply Hmem; discriminate.
Defined.
